(** * image-enzyme: the VSI to .univ converter and the conversion front end

    A shallow embedding of [vsi_to_univ.py] (class [VSIToUniv]) and of the
    conversion dispatch of [format_converter_gui.py] (class
    [FormatConverterGUI]), with the properties of the pyramid builder, the
    thumbnail, the axis normalisation, the scene selection and the container
    writer.

    Conventions of the embedding:
    - a numpy array is its shape together with its element access function
      (basic indexing, [transpose] and [reshape] are index re-mappings, which
      is what a numpy view is);
    - Python exceptions are the [Raise] results of the [result] type;
    - an HDF5 file under construction is the chronological list of the
      objects written into it;
    - the file system is a finite map from paths to nodes;
    - Python floats are IEEE binary64 numbers, here Rocq's primitive floats. *)

From Stdlib Require Import ZArith Floats Uint63 String Ascii.
From stdpp Require Import gmap strings list pretty.

Open Scope nat_scope.

(** ** Exceptions and results *)

Inductive exn : Type :=
  | IndexError
  | ValueError
  | ZeroDivisionError
  | OverflowError
  | RuntimeError (msg : string)
  | FileExistsError
  | UnexpectedImageShape
  | OutOfFuel.

Inductive result (T : Type) : Type :=
  | Ok (v : T)
  | Raise (e : exn).
Arguments Ok {T} v.
Arguments Raise {T} e.

Definition rbind {T U : Type} (r : result T) (k : T -> result U) : result U :=
  match r with
  | Ok v => k v
  | Raise e => Raise e
  end.

Definition rmap {T U : Type} (g : T -> U) (r : result T) : result U :=
  rbind r (fun v => Ok (g v)).

Notation "'let*' x ':=' r 'in' k" := (rbind r (fun x => k))
  (at level 10, x pattern, r at level 100, k at level 200).

(** ** numpy arrays *)

Module NDArray.

Record ndarray (A : Type) : Type := mk_ndarray {
  shape : list nat;
  item : list nat -> A
}.
Arguments mk_ndarray {A}.
Arguments shape {A}.
Arguments item {A}.

Definition ndim {A} (a : ndarray A) : nat := length (shape a).

Definition prod (shp : list nat) : nat := foldr Nat.mul 1 shp.

(** [a.size] *)
Definition size {A} (a : ndarray A) : nat := prod (shape a).

(** An index tuple is in range for a shape. *)
Definition valid_index (shp idx : list nat) : Prop := Forall2 lt idx shp.

(** Number of elements selected by [::k] on an axis of extent [n]:
    the indices [0, k, 2k, ...] below [n]. *)
Definition strided (n k : nat) : nat := (n + k - 1) / k.

(** One entry of a basic index tuple: [:], [::k], an integer, [np.newaxis]. *)
Inductive indexer : Type :=
  | Full
  | Step (k : nat)
  | At (i : nat)
  | NewAxis.

(** Shape of [a[ix]]; axes not mentioned by [ix] are taken whole. *)
Fixpoint index_shape (ix : list indexer) (shp : list nat) : result (list nat) :=
  match ix with
  | [] => Ok shp
  | NewAxis :: ix' => rmap (cons 1) (index_shape ix' shp)
  | Full :: ix' =>
      match shp with
      | [] => Raise IndexError
      | n :: shp' => rmap (cons n) (index_shape ix' shp')
      end
  | Step k :: ix' =>
      match shp with
      | [] => Raise IndexError
      | n :: shp' =>
          if k =? 0 then Raise ValueError
          else rmap (cons (strided n k)) (index_shape ix' shp')
      end
  | At i :: ix' =>
      match shp with
      | [] => Raise IndexError
      | n :: shp' => if i <? n then index_shape ix' shp' else Raise IndexError
      end
  end.

(** The index into [a] that the index [out] into [a[ix]] stands for. *)
Fixpoint index_source (ix : list indexer) (out : list nat) : list nat :=
  match ix with
  | [] => out
  | NewAxis :: ix' => index_source ix' (tail out)
  | Full :: ix' => hd 0 out :: index_source ix' (tail out)
  | Step k :: ix' => k * hd 0 out :: index_source ix' (tail out)
  | At i :: ix' => i :: index_source ix' out
  end.

(** [a[ix]] *)
Definition getitem {A} (ix : list indexer) (a : ndarray A) : result (ndarray A) :=
  let* shp := index_shape ix (shape a) in
  Ok (mk_ndarray shp (fun out => item a (index_source ix out))).

(** Row-major (C order) position of an index tuple, and back. *)
Fixpoint ravel (shp idx : list nat) : nat :=
  match shp, idx with
  | n :: shp', i :: idx' => i * prod shp' + ravel shp' idx'
  | _, _ => 0
  end.

Fixpoint unravel (shp : list nat) (k : nat) : list nat :=
  match shp with
  | [] => []
  | n :: shp' => k / prod shp' :: unravel shp' (k mod prod shp')
  end.

(** Position of axis [k] in the axes tuple. *)
Fixpoint position (k : nat) (axes : list nat) : nat :=
  match axes with
  | [] => 0
  | ax :: axes' => if ax =? k then 0 else S (position k axes')
  end.

Definition is_permutation (axes : list nat) (n : nat) : bool :=
  (length axes =? n) && forallb (fun k => existsb (Nat.eqb k) axes) (seq 0 n).

(** [a.transpose(axes)]: axis [i] of the result is axis [axes[i]] of [a]. *)
Definition transpose {A} (axes : list nat) (a : ndarray A) : result (ndarray A) :=
  if is_permutation axes (ndim a) then
    Ok (mk_ndarray
          (map (fun ax => nth ax (shape a) 0) axes)
          (fun out => item a (map (fun k => nth (position k axes) out 0)
                                  (seq 0 (ndim a)))))
  else Raise ValueError.

(** [a.reshape(newshape)], elements taken and placed in C order. *)
Definition reshape {A} (newshape : list nat) (a : ndarray A) : result (ndarray A) :=
  if prod newshape =? size a then
    Ok (mk_ndarray newshape
          (fun out => item a (unravel (shape a) (ravel newshape out))))
  else Raise ValueError.

End NDArray.
Import NDArray.

(** ** Python helpers *)

Module Py.

(** [str.lower] on ASCII text. The letters of "label" and "macro" are the
    lower case of no character outside ASCII, so for the tests below the
    remaining characters can be left as they are. *)
Definition lower_ascii (c : ascii) : ascii :=
  let n := nat_of_ascii c in
  if (65 <=? n) && (n <=? 90) then ascii_of_nat (n + 32) else c.

Fixpoint lower (s : string) : string :=
  match s with
  | EmptyString => EmptyString
  | String c s' => String (lower_ascii c) (lower s')
  end.

Fixpoint starts_with (p s : string) : bool :=
  match p, s with
  | EmptyString, _ => true
  | String a p', String b s' => if Ascii.eqb a b then starts_with p' s' else false
  | String _ _, EmptyString => false
  end.

(** [needle in hay] *)
Fixpoint contains (needle hay : string) : bool :=
  starts_with needle hay
  || match hay with
     | EmptyString => false
     | String _ hay' => contains needle hay'
     end.

(** [max(l, key=key)]: the first element whose key no other exceeds. *)
Fixpoint max_from {T} (key : T -> N) (best : T) (l : list T) : T :=
  match l with
  | [] => best
  | x :: l' => max_from key (if (key best <? key x)%N then x else best) l'
  end.

Definition max_by {T} (key : T -> N) (l : list T) : result T :=
  match l with
  | [] => Raise ValueError
  | x :: l' => Ok (max_from key x l')
  end.

(** Floats. [float_of_nat] is exact below 2^53, which covers every array
    extent that fits in memory. *)
Definition float_of_nat (n : nat) : float :=
  PrimFloat.of_uint63 (Uint63.of_Z (Z.of_nat n)).

(** [a / b] on two ints *)
Definition truediv (a b : nat) : result float :=
  if b =? 0 then Raise ZeroDivisionError
  else Ok (PrimFloat.div (float_of_nat a) (float_of_nat b)).

(** [x / y] on two floats *)
Definition fdiv (x y : float) : result float :=
  if PrimFloat.eqb y 0%float then Raise ZeroDivisionError
  else Ok (PrimFloat.div x y).

(** [min(x, y)] on floats: the first argument unless the second is smaller. *)
Definition fmin (x y : float) : float :=
  if PrimFloat.ltb y x then y else x.

(** [int(x)]: truncation towards zero. *)
Definition int_of_float (x : float) : result Z :=
  match Prim2SF x with
  | S754_zero _ => Ok 0%Z
  | S754_finite s m e =>
      let v := match e with
               | Z.neg p => Z.shiftr (Z.pos m) (Z.pos p)
               | _ => Z.shiftl (Z.pos m) e
               end in
      Ok (if s then (- v)%Z else v)
  | S754_infinity _ => Raise OverflowError
  | S754_nan => Raise ValueError
  end.

(** [t[i]] on a tuple *)
Definition tuple_at (t : list nat) (i : nat) : result nat :=
  match t !! i with
  | Some n => Ok n
  | None => Raise IndexError
  end.

(** [a.shape[i]] *)
Definition shape_at {A} (a : ndarray A) (i : nat) : result nat :=
  tuple_at (shape a) i.

End Py.

(** ** HDF5 files as h5py writes them *)

Module H5.

Inductive attr_value : Type :=
  | AInt (n : nat)
  | AFloat (x : float)
  | AStr (s : string).

(** What a dataset holds: an array, or a JSON object serialised as text
    (kept here as its list of members). *)
Inductive payload (A : Type) : Type :=
  | Array (a : ndarray A)
  | JsonText (members : list (string * string)).
Arguments Array {A} a.
Arguments JsonText {A} members.

(** The keyword arguments of [create_dataset]. *)
Record options : Type := mk_options {
  chunks : option (list nat);
  compression : option string;
  compression_opts : option nat
}.

Inductive entry (A : Type) : Type :=
  | Dataset (path : string) (data : payload A) (opts : options)
  | Group (path : string)
  | Attr (path key : string) (v : attr_value).
Arguments Dataset {A} path data opts.
Arguments Group {A} path.
Arguments Attr {A} path key v.

(** A file opened with mode ['w']: what the writer has asked to be
    written, oldest first. Groups that a path goes through are created with
    it. The checks h5py makes of its own on a request are outside the source
    and not modelled, so that every request is recorded as carried out:
    h5py refuses a name already in use, a compression filter or level it
    does not know, and a chunk shape that does not fit the data, which is
    the case of every array without elements. Where the writer returns
    normally no request was refused, and the record is the file; what is
    said of a write that fails names neither the exception nor the
    datasets of the file. The writer starts from an empty file and gives
    every object a name of its own. *)
Definition file (A : Type) : Type := list (entry A).

Definition create_dataset {A} (f : file A) (path : string) (data : payload A)
    (opts : options) : file A :=
  f ++ [Dataset path data opts].

Definition create_group {A} (f : file A) (path : string) : file A :=
  f ++ [Group path].

Definition set_attr {A} (f : file A) (path key : string) (v : attr_value) : file A :=
  f ++ [Attr path key v].

(** [obj.attrs[key]]: the value set last. *)
Fixpoint attr {A} (f : file A) (path key : string) : option attr_value :=
  match f with
  | [] => None
  | e :: f' =>
      match attr f' path key with
      | Some v => Some v
      | None =>
          match e with
          | Attr p k v => if String.eqb p path && String.eqb k key then Some v else None
          | _ => None
          end
      end
  end.

(** The top-level member of the file an entry belongs to; attributes of
    the root belong to the root itself. *)
Definition entry_path {A} (e : entry A) : string :=
  match e with
  | Dataset p _ _ => p
  | Group p => p
  | Attr p _ _ => p
  end.

Fixpoint first_component (p : string) : string :=
  match p with
  | EmptyString => EmptyString
  | String c p' => if Ascii.eqb c "/"%char then EmptyString else String c (first_component p')
  end.

Definition top_level {A} (e : entry A) : string := first_component (entry_path e).

End H5.

(** ** The file system *)

Module FS.

Inductive node (A : Type) : Type :=
  | H5File (f : H5.file A)
  | OtherFile (bytes : nat)
  | Directory.
Arguments H5File {A} f.
Arguments OtherFile {A} bytes.
Arguments Directory {A}.

Abbreviation fs A := (gmap string (node A)).

(** [Path.exists()] *)
Definition exists_ {A} (d : fs A) (p : string) : bool :=
  match d !! p with Some _ => true | None => false end.

(** [Path.is_dir()] *)
Definition is_dir {A} (d : fs A) (p : string) : bool :=
  match d !! p with Some Directory => true | _ => false end.

(** [Path.unlink()] *)
Definition unlink {A} (d : fs A) (p : string) : fs A := delete p d.

End FS.

(** ** State and exceptions *)

(** A command over a state [S] (an open HDF5 file, the file system): it
    leaves a state behind whether it returns or raises. *)
Definition io (S T : Type) : Type := S -> S * result T.

Definition ret {S T} (v : T) : io S T := fun s => (s, Ok v).

Definition bind {S T U} (m : io S T) (k : T -> io S U) : io S U :=
  fun s =>
    match m s with
    | (s', Ok v) => k v s'
    | (s', Raise e) => (s', Raise e)
    end.

(** A pure computation that may raise. *)
Definition lift {S T} (r : result T) : io S T := fun s => (s, r).

(** A change of the state that cannot fail. *)
Definition modify {S} (w : S -> S) : io S unit := fun s => (w s, Ok tt).

(** A reading of the state. *)
Definition gets {S T} (g : S -> T) : io S T := fun s => (s, Ok (g s)).

Notation "'do' x <- m ; k" := (bind m (fun x => k))
  (at level 10, x name, m at level 100, k at level 200,
   format "'[v' 'do'  x  <-  m ; '/' k ']'").
Notation "'run' m ; k" := (bind m (fun _ => k))
  (at level 10, m at level 100, k at level 200,
   format "'[v' 'run'  m ; '/' k ']'").

(** ** vsi_to_univ.py *)

Module VSIToUniv.

Import Py.
Local Open Scope string_scope.
Local Open Scope nat_scope.

(** *** Scene descriptors *)

(** The entries of [scene_info] that the selection reads (the dictionary also
    holds [shape], [dims] and [pixel_size_um], which are only logged). *)
Record scene : Type := mk_scene {
  index : nat;
  name : string;
  width : N;
  height : N;
  total_pixels : N
}.

(** The image as [AICSImage] presents it: its scenes with the shape each one
    has once selected, and the shape of the scene that is current on opening. *)
Record aics_image : Type := mk_image {
  scenes : list (string * list N);
  current_shape : list N
}.

(** [shape[-1]], [shape[-2]]: [from_end shp k] is [shp[-(k+1)]]. *)
Definition from_end (shp : list N) (k : nat) : result N :=
  match rev shp !! k with
  | Some n => Ok n
  | None => Raise IndexError
  end.

(** The descriptor built for scene [i] in the loop of
    [_analyze_vsi_structure]. *)
Definition scene_data (i : nat) (scene_name : string) (shp : list N) : scene :=
  let y_size := if 2 <=? length shp then nth 1 (rev shp) 0%N else 0%N in
  let x_size := if 1 <=? length shp then nth 0 (rev shp) 0%N else 0%N in
  mk_scene i scene_name x_size y_size (y_size * x_size).

Definition _analyze_vsi_structure (img : aics_image) : list scene :=
  if 0 <? length (scenes img) then
    imap (fun i s => scene_data i (fst s) (snd s)) (scenes img)
  else
    match (let* w := from_end (current_shape img) 0 in
           let* h := from_end (current_shape img) 1 in
           Ok (mk_scene 0 "default" w h (w * h))) with
    | Ok s => [s]
    | Raise _ => []
    end.

(** ["label" not in s['name'].lower() and "macro" not in s['name'].lower()] *)
Definition not_label_macro (s : scene) : bool :=
  negb (contains "label" (lower (name s))) && negb (contains "macro" (lower (name s))).

Definition _find_main_image_scene (scene_info : list scene) : result nat :=
  match scene_info with
  | [] => Ok 0
  | _ =>
      let main_scenes := List.filter not_label_macro scene_info in
      let main_scenes :=
        match main_scenes with
        | [] => scene_info
        | _ => main_scenes
        end in
      let* main_scene := max_by total_pixels main_scenes in
      Ok (index main_scene)
  end.

(** *** Resolution levels on offer *)

(** An entry of [available_resolutions]. *)
Record resolution : Type := mk_resolution {
  level : nat;
  res_width : N;
  res_height : N;
  megapixels : float;
  downsample_factor : N
}.

(** [(width * height) / 1_000_000], exact in its operands below 2^53. *)
Definition megapixels_of (width height : N) : float :=
  PrimFloat.div (PrimFloat.of_uint63 (Uint63.of_Z (Z.of_N (width * height))))
                (PrimFloat.of_uint63 (Uint63.of_Z 1000000)).

(** The [while] loop of [get_vsi_info]; [fuel] bounds the number of
    iterations. *)
Fixpoint resolutions_loop (fuel : nat) (width height : N) (level : nat)
    : result (list resolution) :=
  match fuel with
  | O => Raise OutOfFuel
  | S fuel' =>
      if (512 <=? N.min width height)%N then
        let* rest := resolutions_loop fuel' (width / 2)%N (height / 2)%N (S level) in
        Ok (mk_resolution level width height (megapixels_of width height)
              (2 ^ N.of_nat level)%N :: rest)
      else Ok []
  end.

(** What [get_vsi_info] returns. *)
Record vsi_info : Type := mk_vsi_info {
  info_scenes : list scene;
  main_scene_index : nat;
  available_resolutions : list resolution
}.

(** [get_vsi_info]: any exception gives the empty answer. *)
Definition get_vsi_info (img : aics_image) : vsi_info :=
  let scene_info := _analyze_vsi_structure img in
  match (let* main_scene_idx := _find_main_image_scene scene_info in
         let* available :=
           match scene_info with
           | [] => Ok []
           | _ =>
               match scene_info !! main_scene_idx with
               | None => Raise IndexError
               | Some main_scene =>
                   resolutions_loop
                     (S (N.to_nat (N.min (width main_scene) (height main_scene))))
                     (width main_scene) (height main_scene) 0
               end
           end in
         Ok (mk_vsi_info scene_info main_scene_idx available)) with
  | Ok info => info
  | Raise _ => mk_vsi_info [] 0 []
  end.

(** *** Axis normalisation *)

(** The rank dispatch of [convert]: any decoded array to (T, C, Z, Y, X). *)
Definition normalize_axes {A} (image_data : ndarray A) : result (ndarray A) :=
  match ndim image_data with
  | 2 => getitem [NewAxis; NewAxis; NewAxis; Full; Full] image_data
  | 3 => getitem [NewAxis; Full; NewAxis; Full; Full] image_data
  | 4 => getitem [Full; Full; NewAxis; Full; Full] image_data
  | 5 => Ok image_data
  | 6 =>
      match shape image_data with
      | [t; c; z; y; x; s] =>
          let* moved := transpose [0; 1; 5; 2; 3; 4] image_data in
          reshape [t; c * s; z; y; x] moved
      | _ => Raise ValueError
      end
  | _ => Raise UnexpectedImageShape
  end.

(** The block of [_load_vsi] under [if resolution_level > 0]:
    [data[..., ::downsample_factor, ::downsample_factor]], the ellipsis
    standing for every axis but the last two, whatever these are. *)
Definition downsample {A} (data : ndarray A) (resolution_level : nat)
    : result (ndarray A) :=
  if 0 <? resolution_level then
    let downsample_factor := 2 ^ resolution_level in
    getitem (repeat Full (ndim data - 2)
             ++ [Step downsample_factor; Step downsample_factor])%list data
  else Ok data.

(** *** Metadata *)

Record physical_size_t : Type := mk_physical_size {
  phys_X : option float;
  phys_Y : option float;
  phys_Z : option float;
  phys_unit : option string
}.

(** The keys of the metadata dictionary that the writer reads; [None] is an
    absent key. *)
Record metadata_t : Type := mk_metadata {
  source_file : option string;
  file_format : option string;
  physical_size : option physical_size_t;
  channel_names : option (list string)
}.

(** *** The writer *)

Section Writer.

Context {A : Type}.

(** Successive readings of [datetime.now().isoformat()]. *)
Variable now : nat -> string.

Definition comp_opts (compression : string) (compression_level : nat)
    (chunk_size : list nat) : H5.options :=
  if String.eqb compression "none" then H5.mk_options (Some chunk_size) None None
  else H5.mk_options (Some chunk_size) (Some compression)
         (if String.eqb compression "gzip" then Some compression_level else None).

(** The error of the emptiness check of [_write_univ]. *)
Definition EmptyDataset : exn :=
  RuntimeError "Failed to write image data - dataset is empty".

(** The [while] loop of [_create_pyramid]; [fuel] bounds the number of
    iterations. *)
Fixpoint pyramid_loop (fuel : nat) (compression : string) (compression_level : nat)
    (current_data : ndarray A) (level : nat) : io (H5.file A) unit :=
  match fuel with
  | O => lift (Raise OutOfFuel)
  | S fuel' =>
      do y <- lift (shape_at current_data 3) ;
      do x <- lift (shape_at current_data 4) ;
      if 256 <? Nat.min y x then
        do downsampled <- lift (getitem [Full; Full; Full; Step 2; Step 2] current_data) ;
        do dy <- lift (shape_at downsampled 3) ;
        do dx <- lift (shape_at downsampled 4) ;
        let chunk_size := [1; 1; 1; Nat.min 256 dy; Nat.min 256 dx] in
        run modify (fun f => H5.create_dataset f
                       ("ImageData/Resolution_" ++ pretty level)
                       (H5.Array downsampled)
                       (comp_opts compression compression_level chunk_size)) ;
        pyramid_loop fuel' compression compression_level downsampled (S level)
      else ret tt
  end.

(** Each iteration at least halves a spatial extent above 256, so the
    smaller extent bounds the number of iterations. *)
Definition pyramid_fuel (image_data : ndarray A) : nat :=
  S (Nat.min (nth 3 (shape image_data) 0) (nth 4 (shape image_data) 0)).

Definition _create_pyramid (image_data : ndarray A) (compression : string)
    (compression_level : nat) : io (H5.file A) unit :=
  pyramid_loop (pyramid_fuel image_data) compression compression_level image_data 1.

(** [step_y] and [step_x] of [_create_thumbnail], which are the same number;
    [None] when [scale >= 1.0]. *)
Definition thumbnail_step (y_size x_size : nat) : result (option nat) :=
  let* sx := truediv 256 x_size in
  let* sy := truediv 256 y_size in
  let scale := fmin sx sy in
  if PrimFloat.leb 1%float scale then Ok None
  else
    let* inv := fdiv 1%float scale in
    let* k := int_of_float inv in
    Ok (Some (Z.to_nat (Z.max 1 k))).

(** The array that [_create_thumbnail] stores. *)
Definition thumbnail_of (image_data : ndarray A) : result (ndarray A) :=
  let* y_size := shape_at image_data 3 in
  let* x_size := shape_at image_data 4 in
  let* step := thumbnail_step y_size x_size in
  let* thumbnail :=
    match step with
    | None => getitem [At 0; Full; At 0; Full; Full] image_data
    | Some k => getitem [At 0; Full; At 0; Step k; Step k] image_data
    end in
  if ndim thumbnail =? 2 then getitem [NewAxis; Full; Full] thumbnail
  else Ok thumbnail.

Definition _create_thumbnail (image_data : ndarray A) : io (H5.file A) unit :=
  do thumbnail <- lift (thumbnail_of image_data) ;
  modify (fun f => H5.create_dataset f "Thumbnail" (H5.Array thumbnail)
             (H5.mk_options None (Some "gzip") None)).

Definition set_attrs (path : string) (kvs : list (string * H5.attr_value))
    (f : H5.file A) : H5.file A :=
  foldl (fun f kv => H5.set_attr f path (fst kv) (snd kv)) f kvs.

(** [dims.attrs[key] = int(shape[i])] *)
Definition write_size (key : string) (shp : list nat) (i : nat) : io (H5.file A) unit :=
  do n <- lift (tuple_at shp i) ;
  modify (fun f => H5.set_attr f "Metadata/Dimensions" key (H5.AInt n)).

Definition _write_metadata (metadata : metadata_t) (shp : list nat) : io (H5.file A) unit :=
  run modify (fun f => H5.create_group f "Metadata") ;
  run modify (fun f => H5.create_group f "Metadata/Dimensions") ;
  run write_size "SizeT" shp 0 ;
  run write_size "SizeC" shp 1 ;
  run write_size "SizeZ" shp 2 ;
  run write_size "SizeY" shp 3 ;
  run write_size "SizeX" shp 4 ;
  run modify (fun f => H5.set_attr f "Metadata/Dimensions" "DimensionOrder"
                 (H5.AStr "TCZYX")) ;
  run match physical_size metadata with
      | Some phys_data =>
          run modify (fun f => H5.create_group f "Metadata/PhysicalSize") ;
          modify (set_attrs "Metadata/PhysicalSize"
                     [("X", H5.AFloat (default 1%float (phys_X phys_data)));
                      ("Y", H5.AFloat (default 1%float (phys_Y phys_data)));
                      ("Z", H5.AFloat (default 1%float (phys_Z phys_data)));
                      ("Unit", H5.AStr (default "µm" (phys_unit phys_data)))])
      | None => ret tt
      end ;
  run modify (fun f => H5.create_group f "Metadata/Source") ;
  run modify (set_attrs "Metadata/Source"
                 [("OriginalFile", H5.AStr (default "unknown" (source_file metadata)));
                  ("OriginalFormat", H5.AStr (default "VSI" (file_format metadata)));
                  ("ConversionDate", H5.AStr (now 0))]) ;
  match channel_names metadata with
  | Some (n :: names) =>
      run modify (fun f => H5.create_group f "Metadata/Channels") ;
      modify (set_attrs "Metadata/Channels"
                 (imap (fun i nm => ("Channel_" ++ pretty i, H5.AStr nm)) (n :: names)))
  | _ => ret tt
  end.

Definition _write_provenance (metadata : metadata_t) : io (H5.file A) unit :=
  run modify (fun f => H5.create_group f "Provenance") ;
  run modify (set_attrs "Provenance"
                 [("created", H5.AStr (now 1));
                  ("creator", H5.AStr "VSI to .univ converter");
                  ("source_format", H5.AStr "Olympus VSI");
                  ("source_file", H5.AStr (default "unknown" (source_file metadata)))]) ;
  let history :=
    [("conversion_tool", "vsi_to_univ.py");
     ("timestamp", now 2);
     ("source", default "unknown" (source_file metadata))] in
  modify (fun f => H5.create_dataset f "Provenance/conversion_history"
             (H5.JsonText history) (H5.mk_options None None None)).

Definition _write_schema : io (H5.file A) unit :=
  run modify (fun f => H5.set_attr f "/" "format" (H5.AStr "univ")) ;
  run modify (fun f => H5.set_attr f "/" "version" (H5.AStr "1.0")) ;
  modify (fun f => H5.set_attr f "/" "schema_version" (H5.AStr "1.0")).

(** What [_write_univ] does inside [with h5py.File(output_path, 'w') as f]. *)
Definition write_body (image_data : ndarray A) (metadata : metadata_t)
    (create_pyramid : bool) (compression : string) (compression_level : nat)
    : io (H5.file A) unit :=
  do z <- lift (shape_at image_data 2) ;
  do y <- lift (shape_at image_data 3) ;
  do x <- lift (shape_at image_data 4) ;
  let chunk_size := [1; 1; Nat.min 5 z; Nat.min 512 y; Nat.min 512 x] in
  run modify (fun f => H5.create_dataset f "ImageData/Resolution_0"
                 (H5.Array image_data)
                 (comp_opts compression compression_level chunk_size)) ;
  run (if size image_data =? 0 then lift (Raise EmptyDataset) else ret tt) ;
  run (if create_pyramid && (512 <? Nat.min y x)
       then _create_pyramid image_data compression compression_level
       else ret tt) ;
  run _create_thumbnail image_data ;
  run _write_metadata metadata (shape image_data) ;
  run _write_provenance metadata ;
  _write_schema.

(** [_write_univ]: the file is created (or truncated) when it is opened, and
    closed with what was written when the block is left, normally or by an
    exception. *)
Definition _write_univ (output_path : string) (image_data : ndarray A)
    (metadata : metadata_t) (create_pyramid : bool) (compression : string)
    (compression_level : nat) (d : FS.fs A) : FS.fs A * result unit :=
  let '(f, r) := write_body image_data metadata create_pyramid compression
                   compression_level [] in
  (<[output_path := FS.H5File f]> d, r).

(** [convert] from the loaded scene on: [loaded] is what [_load_vsi]
    returned. Every exception is caught and reported as [False]. *)
Definition convert (loaded : option (ndarray A)) (metadata : metadata_t)
    (output_path : string) (create_pyramid : bool) (compression : string)
    (compression_level : nat) (d : FS.fs A) : FS.fs A * bool :=
  match loaded with
  | None => (d, false)
  | Some image_data =>
      match normalize_axes image_data with
      | Raise _ => (d, false)
      | Ok image_data =>
          match _write_univ output_path image_data metadata create_pyramid
                  compression compression_level d with
          | (d', Ok _) => (d', true)
          | (d', Raise _) => (d', false)
          end
      end
  end.

End Writer.

End VSIToUniv.

(** ** pathlib, on POSIX paths *)

(** Paths are taken as [str(Path(...))] gives them: without a separator at
    the end. *)
Module Path.

Local Open Scope string_scope.

(** [s.rpartition(c)]: the text before and after the last [c]. *)
Fixpoint rsplit (c : ascii) (s : string) : option (string * string) :=
  match s with
  | EmptyString => None
  | String a s' =>
      match rsplit c s' with
      | Some (l, r) => Some (String a l, r)
      | None => if Ascii.eqb a c then Some (EmptyString, s') else None
      end
  end.

Definition name (p : string) : string :=
  match rsplit "/" p with
  | Some (_, n) => n
  | None => p
  end.

(** The directory part, with its final separator. *)
Definition dirpart (p : string) : string :=
  match rsplit "/" p with
  | Some (d, _) => d ++ "/"
  | None => ""
  end.

Definition parent (p : string) : string :=
  match rsplit "/" p with
  | Some ("", _) => "/"
  | Some (d, _) => d
  | None => "."
  end.

(** The part of the name before its last dot, and the suffix from that dot
    on; a dot that starts or ends the name begins no suffix. *)
Definition split_suffix (n : string) : string * string :=
  match rsplit "." n with
  | Some ("", _) => (n, "")
  | Some (_, "") => (n, "")
  | Some (st, ext) => (st, "." ++ ext)
  | None => (n, "")
  end.

Definition suffix (p : string) : string := snd (split_suffix (name p)).

Definition stem (p : string) : string := fst (split_suffix (name p)).

Definition with_suffix (p suf : string) : result string :=
  match name p with
  | "" => Raise ValueError
  | _ => Ok (dirpart p ++ stem p ++ suf)
  end.

End Path.

(** ** format_converter_gui.py: the conversion dispatch *)

Module FormatConverterGUI.

Import Py.
Local Open Scope string_scope.
Local Open Scope nat_scope.

Section Convert.

Context {A : Type}.

(** The format converters the front end drives. The two-hop routes use
    classes of modules that are imported ([UnivToOMETIFF], [OMEZarrToUniv],
    ...); each is a command on the file system that returns or raises. *)
Record converters : Type := mk_converters {
  _convert_univ_to_ometiff : string -> string -> io (FS.fs A) unit;
  _convert_univ_to_omezarr : string -> string -> io (FS.fs A) unit;
  _convert_ometiff_to_univ : string -> string -> io (FS.fs A) unit;
  _convert_omezarr_to_univ : string -> string -> io (FS.fs A) unit;
  _convert_vsi_to_univ : string -> string -> io (FS.fs A) unit;
  _convert_univ_to_vsi : string -> string -> io (FS.fs A) unit;
  _convert_vsi_to_omezarr : string -> string -> io (FS.fs A) unit;
  _convert_vsi_to_ometiff : string -> string -> io (FS.fs A) unit
}.

Variable self : converters.

(** [stat().st_size] of a node. *)
Variable st_size : FS.node A -> nat.

(** [Path(output_path).parent.mkdir(parents=True, exist_ok=True)]; only the
    parent itself is recorded. *)
Definition mkdir_parent (p : string) : io (FS.fs A) unit :=
  fun d =>
    match d !! Path.parent p with
    | None => (<[Path.parent p := FS.Directory]> d, Ok tt)
    | Some FS.Directory => (d, Ok tt)
    | Some _ => (d, Raise FileExistsError)
    end.

(** [if temp_univ.exists(): temp_univ.unlink()] *)
Definition unlink_if_exists (temp_univ : string) : io (FS.fs A) unit :=
  fun d =>
    if FS.exists_ d temp_univ then (FS.unlink d temp_univ, Ok tt) else (d, Ok tt).

(** The dispatch on the input's kind and the output format, shared by the
    [try] block of [_convert_file]. *)
Definition dispatch_file (input_path output_path output_format : string)
    : io (FS.fs A) unit :=
  do input_is_dir <- gets (fun d => FS.is_dir d input_path) ;
  if String.eqb (Path.suffix input_path) ".univ" then
    if String.eqb output_format "ome-tiff" then
      _convert_univ_to_ometiff self input_path output_path
    else if String.eqb output_format "ome-zarr" then
      _convert_univ_to_omezarr self input_path output_path
    else lift (Raise ValueError)
  else if String.eqb (Path.suffix input_path) ".tif"
          || String.eqb (Path.suffix input_path) ".tiff"
          || contains ".ome" (Path.name input_path) then
    run mkdir_parent output_path ;
    if String.eqb output_format "univ" then
      _convert_ometiff_to_univ self input_path output_path
    else if String.eqb output_format "ome-zarr" then
      do temp_univ <- lift (Path.with_suffix output_path ".temp.univ") ;
      run _convert_ometiff_to_univ self input_path temp_univ ;
      run _convert_univ_to_omezarr self temp_univ output_path ;
      unlink_if_exists temp_univ
    else lift (Raise ValueError)
  else if String.eqb (Path.suffix input_path) ".zarr" || input_is_dir then
    run mkdir_parent output_path ;
    if String.eqb output_format "univ" then
      _convert_omezarr_to_univ self input_path output_path
    else if String.eqb output_format "ome-tiff" then
      do temp_univ <- lift (Path.with_suffix output_path ".temp.univ") ;
      run _convert_omezarr_to_univ self input_path temp_univ ;
      run _convert_univ_to_ometiff self temp_univ output_path ;
      unlink_if_exists temp_univ
    else if String.eqb output_format "vsi" then
      do temp_univ <- lift (Path.with_suffix output_path ".temp.univ") ;
      run _convert_omezarr_to_univ self input_path temp_univ ;
      run _convert_univ_to_vsi self temp_univ output_path ;
      unlink_if_exists temp_univ
    else lift (Raise ValueError)
  else if String.eqb (Path.suffix input_path) ".vsi" then
    run mkdir_parent output_path ;
    if String.eqb output_format "univ" then
      _convert_vsi_to_univ self input_path output_path
    else if String.eqb output_format "ome-tiff" then
      _convert_vsi_to_ometiff self input_path output_path
    else if String.eqb output_format "ome-zarr" then
      _convert_vsi_to_omezarr self input_path output_path
    else lift (Raise ValueError)
  else lift (Raise ValueError).

(** Total size of the files below a directory ([rglob('*')]). *)
Definition tree_size (d : FS.fs A) (p : string) : nat :=
  map_fold (fun k n acc =>
              if starts_with (p ++ "/") k
              then match n with FS.Directory => acc | _ => acc + st_size n end
              else acc) 0 d.

(** The check of the output that follows the dispatch. *)
Definition validate_output (output_path output_format : string)
    : io (FS.fs A) nat :=
  fun d =>
    match d !! output_path with
    | None => (d, Raise (RuntimeError "Conversion failed: Output file was not created"))
    | Some n =>
        let sized :=
          if String.eqb output_format "ome-zarr" then
            match n with
            | FS.Directory => Ok (tree_size d output_path)
            | _ => Raise (RuntimeError "OME-Zarr output should be a directory")
            end
          else Ok (st_size n) in
        (d, let* output_size := sized in
            if output_size <? 1024
            then Raise (RuntimeError "Conversion may have failed: Output file is too small")
            else Ok output_size)
    end.

(** [_convert_file]: the [try] block; the [except] clause reports the
    exception and raises nothing, so the result says which message box was
    shown, with the output size on success. *)
Definition _convert_file (input_path output_path output_format : string)
    : io (FS.fs A) nat :=
  run dispatch_file input_path output_path output_format ;
  validate_output output_path output_format.

(** The conversion step of the loop of [_convert_batch], for the output path
    the naming block has chosen. Formats with no branch fall through. *)
Definition batch_dispatch (input_path output_path output_format : string)
    : io (FS.fs A) unit :=
  do input_is_dir <- gets (fun d => FS.is_dir d input_path) ;
  if String.eqb (Path.suffix input_path) ".univ" then
    if String.eqb output_format "ome-tiff" then
      _convert_univ_to_ometiff self input_path output_path
    else if String.eqb output_format "ome-zarr" then
      _convert_univ_to_omezarr self input_path output_path
    else ret tt
  else if String.eqb (Path.suffix input_path) ".tif"
          || String.eqb (Path.suffix input_path) ".tiff"
          || contains ".ome" (Path.name input_path) then
    if String.eqb output_format "univ" then
      _convert_ometiff_to_univ self input_path output_path
    else if String.eqb output_format "ome-zarr" then
      do temp_univ <- lift (Path.with_suffix output_path ".temp.univ") ;
      run _convert_ometiff_to_univ self input_path temp_univ ;
      run _convert_univ_to_omezarr self temp_univ output_path ;
      unlink_if_exists temp_univ
    else ret tt
  else if String.eqb (Path.suffix input_path) ".zarr" || input_is_dir then
    if String.eqb output_format "univ" then
      _convert_omezarr_to_univ self input_path output_path
    else if String.eqb output_format "ome-tiff" then
      do temp_univ <- lift (Path.with_suffix output_path ".temp.univ") ;
      run _convert_omezarr_to_univ self input_path temp_univ ;
      run _convert_univ_to_ometiff self temp_univ output_path ;
      unlink_if_exists temp_univ
    else ret tt
  else if String.eqb (Path.suffix input_path) ".vsi" then
    if String.eqb output_format "univ" then
      _convert_vsi_to_univ self input_path output_path
    else if String.eqb output_format "ome-tiff" then
      _convert_vsi_to_ometiff self input_path output_path
    else if String.eqb output_format "ome-zarr" then
      _convert_vsi_to_omezarr self input_path output_path
    else ret tt
  else ret tt.

(** The loop of [_convert_batch] over the files and their output paths:
    the numbers of successes and failures. *)
Fixpoint _convert_batch (jobs : list (string * string)) (output_format : string)
    (successful failed : nat) (d : FS.fs A) : FS.fs A * (nat * nat) :=
  match jobs with
  | [] => (d, (successful, failed))
  | (input_path, output_path) :: jobs' =>
      match batch_dispatch input_path output_path output_format d with
      | (d', Ok _) => _convert_batch jobs' output_format (S successful) failed d'
      | (d', Raise _) => _convert_batch jobs' output_format successful (S failed) d'
      end
  end.

End Convert.

(** *** Scene selection of the front end *)

(** [list.sort(key=..., reverse=True)]: descending and stable. *)
Fixpoint insert_desc {T} (key : T -> N) (x : T) (l : list T) : list T :=
  match l with
  | [] => [x]
  | y :: l' => if (key x <? key y)%N then y :: insert_desc key x l' else x :: y :: l'
  end.

Definition sort_desc {T} (key : T -> N) (l : list T) : list T :=
  foldr (insert_desc key) [] l.

(** The loop of [_select_vsi_scene] over [enumerate(img.scenes)], from
    scene [i] on: (index, name, size) of each scene, where the size is
    [img.shape[-2] * img.shape[-1]] of the scene once set. *)
Fixpoint scene_sizes_from (i : nat) (img_scenes : list (string * list N))
    : result (list (nat * string * N)) :=
  match img_scenes with
  | [] => Ok []
  | (scene_name, shp) :: rest =>
      let* h := VSIToUniv.from_end shp 1 in
      let* w := VSIToUniv.from_end shp 0 in
      let* sizes := scene_sizes_from (S i) rest in
      Ok ((i, scene_name, (h * w)%N) :: sizes)
  end.

(** [_select_vsi_scene] when the resolution choice is "Highest (auto)":
    the index of the scene that is set, [None] when the image has at most one
    scene and nothing is done. A scene is (name, shape). *)
Definition _select_vsi_scene (img_scenes : list (string * list N))
    : result (option nat) :=
  if length img_scenes <=? 1 then Ok None
  else
    let* scene_sizes := scene_sizes_from 0 img_scenes in
    let main_scenes :=
      List.filter (fun t => negb (contains "label" (lower (snd (fst t))))
                            && negb (contains "macro" (lower (snd (fst t)))))
                  scene_sizes in
    let main_scenes := match main_scenes with [] => scene_sizes | _ => main_scenes end in
    match sort_desc snd main_scenes with
    | (main_scene_idx, _, _) :: _ => Ok (Some main_scene_idx)
    | [] => Raise IndexError
    end.

(** [_select_vsi_scene] when the resolution choice names the scene
    [target_scene_idx] ("Scene X: ..." or "... (scene X)"): the scene is
    looked for among the main scenes, then among all scenes, and the largest
    main scene is the fall-back. *)
Definition _select_vsi_scene_by_index (img_scenes : list (string * list N))
    (target_scene_idx : nat) : result (option nat) :=
  if length img_scenes <=? 1 then Ok None
  else
    let* scene_sizes := scene_sizes_from 0 img_scenes in
    let main_scenes :=
      List.filter (fun t => negb (contains "label" (lower (snd (fst t))))
                            && negb (contains "macro" (lower (snd (fst t)))))
                  scene_sizes in
    let main_scenes := match main_scenes with [] => scene_sizes | _ => main_scenes end in
    let main_scenes := sort_desc snd main_scenes in
    match List.find (fun t => fst (fst t) =? target_scene_idx) main_scenes with
    | Some (scene_idx, _, _) => Ok (Some scene_idx)
    | None =>
        if target_scene_idx <? length img_scenes then Ok (Some target_scene_idx)
        else
          match main_scenes with
          | (main_scene_idx, _, _) :: _ => Ok (Some main_scene_idx)
          | [] => Raise IndexError
          end
    end.

(** *** The file queue *)

(** The loop shared by [_browse_files], [_browse_folder] and [_on_drop]: a
    file is appended unless [str(file_path)] is in the queue already. The
    names are taken as [str(Path(filename))] gives them. *)
Fixpoint add_files (filenames file_queue : list string) (added_count : nat)
    : list string * nat :=
  match filenames with
  | [] => (file_queue, added_count)
  | filename :: rest =>
      if existsb (String.eqb filename) file_queue
      then add_files rest file_queue added_count
      else add_files rest (file_queue ++ [filename])%list (S added_count)
  end.

(** [_browse_files] for the names the dialog returned: the new queue and
    [added_count]. *)
Definition _browse_files (filenames file_queue : list string) : list string * nat :=
  add_files filenames file_queue 0.

(** *** Output names of a batch *)

(** The extension chosen for an output format. *)
Definition output_extension (output_format : string) : string :=
  if String.eqb output_format "ome-zarr" then ".zarr"
  else if String.eqb output_format "ome-tiff" then ".ome.tif"
  else if String.eqb output_format "vsi" then ".ome.tif"
  else ".univ".

(** [output_folder / name] *)
Definition join (output_folder name : string) : string :=
  output_folder ++ "/" ++ name.

(** [while output_path.exists()]: the first of [base_counter ext],
    [base_(counter+1) ext], ... that does not exist; [fuel] bounds the
    number of names tried. *)
Fixpoint next_free {A} (fuel : nat) (d : FS.fs A) (output_folder base_name ext : string)
    (counter : nat) : result string :=
  match fuel with
  | O => Raise OutOfFuel
  | S fuel' =>
      let output_path := join output_folder (base_name ++ "_" ++ pretty counter ++ ext) in
      if FS.exists_ d output_path
      then next_free fuel' d output_folder base_name ext (S counter)
      else Ok output_path
  end.

(** The naming block of the loop of [_convert_batch]. A file system of
    [size d] entries cannot hold [size d + 1] different names. *)
Definition batch_output_path {A} (d : FS.fs A) (output_folder : string)
    (custom_output_name : option string) (total_files : nat)
    (input_path output_format : string) : result string :=
  match custom_output_name, total_files =? 1 with
  | Some (String c n), true => Ok (join output_folder (String c n))
  | _, _ =>
      let ext := output_extension output_format in
      let base_name := Path.stem input_path ++ "_converted" in
      if FS.exists_ d (join output_folder (base_name ++ ext))
      then next_free (S (base.size d)) d output_folder base_name ext 1
      else Ok (join output_folder (base_name ++ ext))
  end.



(** *** Files the queue accepts *)

(** [s.endswith(suf)] *)
Definition ends_with (suf s : string) : bool :=
  (String.length suf <=? String.length s)
  && String.eqb (String.substring (String.length s - String.length suf)
                   (String.length suf) s) suf.

(** [_is_supported_file]. The extensions compared with have ASCII letters
    only, none of which is the lower case of a character outside ASCII
    taken alone, so [lower] stands for [str.lower] here as well. *)
Definition _is_supported_file (file_path : string) : bool :=
  if existsb (String.eqb (lower (Path.suffix file_path)))
       [".univ"; ".vsi"; ".tif"; ".tiff"; ".zarr"]
  then true
  else if ends_with ".ome.tif" (lower (Path.name file_path))
          || ends_with ".ome.tiff" (lower (Path.name file_path))
  then true
  else false.

(** *** VSI to OME-TIFF and OME-Zarr: the array that is written *)

(** [while image_data.ndim > 2 and image_data.shape[0] == 1:
    image_data = image_data[0]]; [fuel] bounds the number of iterations. *)
Fixpoint squeeze_loop {A} (fuel : nat) (image_data : ndarray A) : result (ndarray A) :=
  match fuel with
  | O => Raise OutOfFuel
  | S fuel' =>
      if (2 <? ndim image_data)
         && match shape image_data with n :: _ => n =? 1 | [] => false end
      then
        let* first := getitem [At 0] image_data in
        squeeze_loop fuel' first
      else Ok image_data
  end.

(** The array [_convert_vsi_to_ometiff] hands to [tifffile.imwrite], from
    the array that was read: the sample axis of 6-D data is merged into
    the channels, leading axes of extent 1 are dropped, and empty data is
    refused before and after. *)
Definition tiff_data {A} (image_data : ndarray A) : result (ndarray A) :=
  if size image_data =? 0
  then Raise (RuntimeError "Failed to read image data from VSI file")
  else
    let* image_data :=
      if ndim image_data =? 6 then
        match shape image_data with
        | [t; c; z; y; x; s] =>
            let* moved := transpose [0; 1; 5; 2; 3; 4] image_data in
            reshape [t; c * s; z; y; x] moved
        | _ => Raise ValueError
        end
      else Ok image_data in
    let* image_data := squeeze_loop (S (ndim image_data)) image_data in
    if size image_data =? 0
    then Raise (RuntimeError "Image data became empty after processing")
    else Ok image_data.

(** [photometric] and [axes] chosen for the array that is written. *)
Definition tiff_layout (shp : list nat) : string * option string :=
  match length shp with
  | 3 =>
      if nth 0 shp 0 =? 3 then ("rgb", Some "CYX")
      else if nth 2 shp 0 =? 3 then ("rgb", Some "YXS")
      else ("minisblack", Some "CYX")
  | 2 => ("minisblack", Some "YX")
  | 4 => ("minisblack", Some "ZCYX")
  | _ => ("minisblack", None)
  end.

(** [use_tiling]: [min(image_data.shape[-2:])] is the smaller of the last
    two extents, or the only one of a 1-D array. *)
Definition use_tiling (create_pyramid : bool) (shp : list nat) : result bool :=
  if create_pyramid then
    match rev shp with
    | x :: y :: _ => Ok (1024 <? Nat.min y x)
    | [x] => Ok (1024 <? x)
    | [] => Raise ValueError
    end
  else Ok false.

(** [chunk_shape[-k] = v] when the list has at least [k] entries. *)
Definition set_from_end (l : list nat) (k v : nat) : list nat :=
  <[length l - k := v]> l.

(** The chunk shape [_convert_vsi_to_omezarr] asks for. *)
Definition zarr_chunk_shape (shp : list nat) : list nat :=
  let chunk_shape := shp in
  let chunk_shape :=
    if 2 <=? length chunk_shape then
      let chunk_shape :=
        set_from_end chunk_shape 1 (Nat.min 1024 (nth (length chunk_shape - 1) chunk_shape 0)) in
      set_from_end chunk_shape 2 (Nat.min 1024 (nth (length chunk_shape - 2) chunk_shape 0))
    else chunk_shape in
  let chunk_shape :=
    if 3 <=? length chunk_shape then set_from_end chunk_shape 3 1 else chunk_shape in
  let chunk_shape :=
    if 4 <=? length chunk_shape then set_from_end chunk_shape 4 1 else chunk_shape in
  if 5 <=? length chunk_shape then set_from_end chunk_shape 5 1 else chunk_shape.

(** [['t', 'c', 'z', 'y', 'x'][-len(image_data.shape):]] *)
Definition array_dimensions (rank : nat) : list string :=
  if rank =? 0 then ["t"; "c"; "z"; "y"; "x"]
  else drop (5 - rank) ["t"; "c"; "z"; "y"; "x"].

End FormatConverterGUI.

(** * Vocabulary of the properties *)

Import Py VSIToUniv.

Section Vocabulary.

Local Open Scope N_scope.

(** The name marks a label or macro image. *)
Definition is_label_macro (s : scene) : bool :=
  contains "label" (lower (name s)) || contains "macro" (lower (name s)).

(** The scenes the selection chooses among: those that are not label or
    macro images, or all of them when there is no other. *)
Definition candidate (scene_info : list scene) (s : scene) : Prop :=
  s ∈ scene_info /\
  (is_label_macro s = false \/ forall s', s' ∈ scene_info -> is_label_macro s' = true).

(** Descriptors as [_analyze_vsi_structure] builds them: the index is the
    position in the list and the pixel count is width times height. *)
Definition well_formed (scene_info : list scene) : Prop :=
  forall i s, scene_info !! i = Some s ->
    index s = i /\ total_pixels s = width s * height s.

(** The indices grow along the list. *)
Definition index_sorted (l : list scene) : Prop :=
  forall pre x post y, l = pre ++ x :: post -> y ∈ post -> (index x < index y)%nat.

(** A scene descriptor as the front end keeps it: (index, name, size). *)
Definition scene_triple (s : scene) : nat * string * N :=
  (index s, name s, total_pixels s).

(** The three scenes of the specification's example. *)
Definition example_scenes : list scene :=
  [mk_scene 0 "Label_1" 100 100 (100 * 100);
   mk_scene 1 "20x_BF_01" 40000 30000 (40000 * 30000);
   mk_scene 2 "Overview" 2000 1500 (2000 * 1500)].

End Vocabulary.

Section WriterVocabulary.

Context {A : Type}.

Local Open Scope string_scope.
Local Open Scope nat_scope.

(** The smaller of the Y and X extents. *)
Definition spatial_min (a : ndarray A) : nat :=
  Nat.min (nth 3 (shape a) 0) (nth 4 (shape a) 0).

(** [next] is [cur] with every second row and column kept: the extents of
    Y and X are halved, rounded up, and the other axes are as they were. *)
Definition decimated (cur next : ndarray A) : Prop :=
  exists T C Z Y X,
    shape cur = [T; C; Z; Y; X] /\
    shape next = [T; C; Z; (Y + 1) / 2; (X + 1) / 2] /\
    forall t c z y x, item next [t; c; z; y; x] = item cur [t; c; z; 2 * y; 2 * x].

(** [levels] is the pyramid above [cur]: each level is the decimation of
    the one before, there is a next level while the smaller extent is above
    256, and none once it is not. *)
Fixpoint pyramid_chain (cur : ndarray A) (levels : list (ndarray A)) : Prop :=
  match levels with
  | [] => spatial_min cur <= 256
  | next :: rest =>
      256 < spatial_min cur /\ decimated cur next /\ pyramid_chain next rest
  end.

(** The datasets of the levels, numbered from [first]. *)
Definition level_entries (compression : string) (compression_level first : nat)
    (levels : list (ndarray A)) : H5.file A :=
  imap (fun i a =>
          H5.Dataset ("ImageData/Resolution_" ++ pretty (first + i)) (H5.Array a)
            (comp_opts compression compression_level
               [1; 1; 1; Nat.min 256 (nth 3 (shape a) 0);
                Nat.min 256 (nth 4 (shape a) 0)]))
       levels.

(** The dataset of the base level. *)
Definition base_entry (compression : string) (compression_level : nat)
    (image_data : ndarray A) : H5.entry A :=
  H5.Dataset "ImageData/Resolution_0" (H5.Array image_data)
    (comp_opts compression compression_level
       [1; 1; Nat.min 5 (nth 2 (shape image_data) 0);
        Nat.min 512 (nth 3 (shape image_data) 0);
        Nat.min 512 (nth 4 (shape image_data) 0)]).

(** A command only appends to the file, entries that satisfy [P], and what
    it appends and returns does not depend on what the file holds. *)
Definition appends_in {T} (P : H5.entry A -> Prop) (m : io (H5.file A) T) : Prop :=
  exists w r, (forall f0, m f0 = ((f0 ++ w)%list, r)) /\ Forall P w.

(** floor(log2(m / 256)) for m >= 256: the quotient is at least a power of
    two exactly when its integer part is. *)
Definition floor_log2_ratio (m : nat) : nat := Nat.log2 (m / 256).

(** The schema stamp: the three attributes of the root. *)
Definition schema_stamp : H5.file A :=
  [H5.Attr "/" "format" (H5.AStr "univ");
   H5.Attr "/" "version" (H5.AStr "1.0");
   H5.Attr "/" "schema_version" (H5.AStr "1.0")].

(** The names and shapes of the arrays a file holds, in order. *)
Definition array_shapes (f : H5.file A) : list (string * list nat) :=
  omap (fun e => match e with
                 | H5.Dataset p (H5.Array a) _ => Some (p, shape a)
                 | _ => None
                 end) f.

End WriterVocabulary.

Section ConverterFixtures.

Import FormatConverterGUI.

(** Converters for a run of the OME-Zarr to OME-TIFF route in which the
    second hop fails: the first hop writes a container at its output path,
    reading the container back raises and touches nothing, and no other
    converter is reached. *)
Definition decode_fails : exn := RuntimeError "cannot read the container".

Definition failing_second_hop : converters (A := nat) :=
  let unused := fun (_ _ : string) => lift (Raise ValueError) in
  mk_converters
    (fun _ _ => lift (Raise decode_fails))
    unused
    unused
    (fun _ output_path => modify (fun d => <[output_path := FS.H5File []]> d))
    unused
    unused
    unused
    unused.

(** Converters that each write a file of 2048 bytes at their output path,
    and the size of a node. *)
Definition writing_converters : converters (A := nat) :=
  let write := fun (_ output_path : string) =>
    modify (fun d : FS.fs nat => <[output_path := FS.OtherFile 2048]> d) in
  mk_converters write write write write write write write write.

Definition file_size (n : FS.node nat) : nat :=
  match n with
  | FS.OtherFile bytes => bytes
  | _ => 0
  end.

End ConverterFixtures.

Section ContainerVocabulary.

Context {A : Type}.
Variable now : nat -> string.

Local Open Scope string_scope.
Local Open Scope nat_scope.

(** The attributes [set_attrs] writes, in order. *)
Definition attr_entries (path : string) (kvs : list (string * H5.attr_value))
    : H5.file A :=
  map (fun kv => H5.Attr path (fst kv) (snd kv)) kvs.

(** What the metadata group of a (T, C, Z, Y, X) tensor is made of. *)
Definition dimension_entries (T C Z Y X : nat) : H5.file A :=
  ([H5.Group "Metadata"; H5.Group "Metadata/Dimensions"]
   ++ attr_entries "Metadata/Dimensions"
        [("SizeT", H5.AInt T); ("SizeC", H5.AInt C); ("SizeZ", H5.AInt Z);
         ("SizeY", H5.AInt Y); ("SizeX", H5.AInt X);
         ("DimensionOrder", H5.AStr "TCZYX")])%list.

Definition physical_size_entries (metadata : metadata_t) : H5.file A :=
  match physical_size metadata with
  | Some phys_data =>
      H5.Group "Metadata/PhysicalSize"
      :: attr_entries "Metadata/PhysicalSize"
           [("X", H5.AFloat (default 1%float (phys_X phys_data)));
            ("Y", H5.AFloat (default 1%float (phys_Y phys_data)));
            ("Z", H5.AFloat (default 1%float (phys_Z phys_data)));
            ("Unit", H5.AStr (default "µm" (phys_unit phys_data)))]
  | None => []
  end.

Definition source_entries (metadata : metadata_t) : H5.file A :=
  H5.Group "Metadata/Source"
  :: attr_entries "Metadata/Source"
       [("OriginalFile", H5.AStr (default "unknown" (source_file metadata)));
        ("OriginalFormat", H5.AStr (default "VSI" (file_format metadata)));
        ("ConversionDate", H5.AStr (now 0))].

Definition channel_entries (metadata : metadata_t) : H5.file A :=
  match channel_names metadata with
  | Some (n :: names) =>
      H5.Group "Metadata/Channels"
      :: attr_entries "Metadata/Channels"
           (imap (fun i nm => ("Channel_" ++ pretty i, H5.AStr nm)) (n :: names))
  | _ => []
  end.

Definition metadata_entries (metadata : metadata_t) (T C Z Y X : nat) : H5.file A :=
  (dimension_entries T C Z Y X ++ physical_size_entries metadata
   ++ source_entries metadata ++ channel_entries metadata)%list.

Definition provenance_entries (metadata : metadata_t) : H5.file A :=
  ((H5.Group "Provenance"
    :: attr_entries "Provenance"
         [("created", H5.AStr (now 1));
          ("creator", H5.AStr "VSI to .univ converter");
          ("source_format", H5.AStr "Olympus VSI");
          ("source_file", H5.AStr (default "unknown" (source_file metadata)))])
   ++ [H5.Dataset "Provenance/conversion_history"
         (H5.JsonText [("conversion_tool", "vsi_to_univ.py");
                       ("timestamp", now 2);
                       ("source", default "unknown" (source_file metadata))])
         (H5.mk_options None None None)])%list.

Definition thumbnail_entry (thumbnail : ndarray A) : H5.entry A :=
  H5.Dataset "Thumbnail" (H5.Array thumbnail) (H5.mk_options None (Some "gzip") None).

(** A complete container for a (T, C, Z, Y, X) tensor: the base level, the
    pyramid levels, the thumbnail, the metadata, the provenance and the
    schema stamp. *)
Definition univ_entries (compression : string) (compression_level : nat)
    (metadata : metadata_t) (image_data : ndarray A) (levels : list (ndarray A))
    (thumbnail : ndarray A) (T C Z Y X : nat) : H5.file A :=
  (base_entry compression compression_level image_data
   :: level_entries compression compression_level 1 levels
   ++ [thumbnail_entry thumbnail]
   ++ metadata_entries metadata T C Z Y X
   ++ provenance_entries metadata
   ++ schema_stamp)%list.

(** The paths of the groups and datasets of a file, in order. *)
Definition object_paths (f : H5.file A) : list string :=
  omap (fun e => match e with
                 | H5.Dataset p _ _ => Some p
                 | H5.Group p => Some p
                 | H5.Attr _ _ _ => None
                 end) f.

(** A chunk shape fits a data shape: as many extents, each at least 1 and
    at most the data's. *)
Definition chunk_fits (chunk shp : list nat) : Prop :=
  Forall2 (fun c n => 1 <= c <= n) chunk shp.

End ContainerVocabulary.

Section QueueVocabulary.

(** The names of [filenames] that a queue holding [file_queue] has yet to
    take: each name where it stands in the list, unless the queue holds it
    or it stands earlier in the list as well. *)
Definition new_names (file_queue filenames : list string) : list string :=
  omap id
    (imap (fun i filename =>
             if decide (filename ∈ file_queue \/ filename ∈ take i filenames)
             then None else Some filename)
          filenames).

End QueueVocabulary.

Section WriterFixtures.

(** A run of the writer on a 600 x 700 image of three named channels. *)
Definition sample_now : nat -> string := fun _ => "2024-01-01T00:00:00"%string.

Definition sample_tensor : ndarray nat :=
  mk_ndarray [1; 3; 1; 600; 700] (fun _ => 0%nat).

Definition sample_metadata : metadata_t :=
  mk_metadata (Some "slide.vsi"%string) None None
    (Some ["DAPI"%string; "FITC"%string; "TRITC"%string]).

Definition sample_run : FS.fs nat * result unit :=
  _write_univ sample_now "out.univ" sample_tensor sample_metadata true "gzip" 4 ∅.

End WriterFixtures.

(** * Properties *)

(** ** Strings *)

Section Strings.

Local Open Scope string_scope.

Lemma append_cons (a : ascii) (s t : string) :
  String a s ++ t = String a (s ++ t).
Proof. reflexivity. Qed.

Lemma starts_with_spec (p s : string) :
  starts_with p s = true <-> exists post, s = p ++ post.
Proof.
  revert s. induction p as [|a p IH]; intros s; simpl.
  - split; [intros _; by exists s | done].
  - destruct s as [|b s]; simpl.
    + split; [done | intros [post H]; discriminate].
    + destruct (Ascii.eqb_spec a b) as [->|Hne].
      * rewrite IH. split; intros [post H]; exists post;
          rewrite append_cons in *; congruence.
      * split; [done | intros [post H]; rewrite append_cons in H; congruence].
Qed.

(** [contains] is the substring test. *)
Lemma contains_spec (needle hay : string) :
  contains needle hay = true <-> exists pre post, hay = pre ++ needle ++ post.
Proof.
  induction hay as [|c hay IH].
  - simpl. rewrite orb_false_r, starts_with_spec. split.
    + intros [post H]. by exists "", post.
    + intros [pre [post H]]. destruct pre; [by exists post | discriminate].
  - simpl. rewrite orb_true_iff, starts_with_spec, IH. split.
    + intros [[post H] | [pre [post H]]].
      * by exists "", post.
      * exists (String c pre), post. by rewrite append_cons, H.
    + intros [pre [post H]]. destruct pre as [|c' pre].
      * left. by exists post.
      * right. exists pre, post. rewrite append_cons in H. congruence.
Qed.

End Strings.

(** ** Scene selection *)

Section SceneSelection.

Local Open Scope N_scope.

Lemma not_label_macro_negb (s : scene) :
  not_label_macro s = negb (is_label_macro s).
Proof. unfold not_label_macro, is_label_macro. by rewrite negb_orb. Qed.

Lemma max_from_first {T} (key : T -> N) (l : list T) (best : T) :
  exists pre post,
    best :: l = pre ++ max_from key best l :: post /\
    (forall x, x ∈ pre -> key x < key (max_from key best l)) /\
    (forall x, x ∈ post -> key x <= key (max_from key best l)).
Proof.
  revert best. induction l as [|x l IH]; intros best; simpl.
  - exists [], []. split; [done|]. split; intros y Hy; by apply elem_of_nil in Hy.
  - destruct (N.ltb_spec (key best) (key x)) as [Hlt|Hge].
    + destruct (IH x) as (pre & post & Heq & Hpre & Hpost).
      assert (key x <= key (max_from key x l)) as Hx.
      { assert (x ∈ pre ++ max_from key x l :: post) as Hin by (rewrite <- Heq; left).
        apply elem_of_app in Hin as [Hin|Hin].
        - apply N.lt_le_incl. by apply Hpre.
        - apply elem_of_cons in Hin as [Hin|Hin]; [rewrite <- Hin; lia | by apply Hpost]. }
      exists (best :: pre), post. split; [simpl; f_equal; exact Heq|]. split; [|done].
      intros y Hy. apply elem_of_cons in Hy as [->|Hy]; [lia | by apply Hpre].
    + destruct (IH best) as (pre & post & Heq & Hpre & Hpost).
      destruct pre as [|b pre]; simpl in Heq.
      * injection Heq as Hm Hl. exists [], (x :: l). split; [by rewrite <- Hm|].
        split; [intros y Hy; by apply elem_of_nil in Hy|].
        intros y Hy. apply elem_of_cons in Hy as [->|Hy]; [by rewrite <- Hm|].
        rewrite <- Hm. rewrite <- Hm in Hpost. apply Hpost. by rewrite <- Hl.
      * injection Heq as Hb Hl. subst b.
        assert (key best < key (max_from key best l)) as Hbm by (apply Hpre; left).
        exists (best :: x :: pre), post. split; [simpl; do 2 f_equal; exact Hl|].
        split; [|done].
        intros y Hy. apply elem_of_cons in Hy as [->|Hy]; [done|].
        apply elem_of_cons in Hy as [->|Hy]; [lia|]. apply Hpre. by right.
Qed.

(** In a well-formed list the indices grow along the list, and they still
    do after filtering. *)
Lemma well_formed_sorted (l : list scene) :
  well_formed l -> forall i j a b, l !! i = Some a -> l !! j = Some b ->
    (i < j)%nat -> (index a < index b)%nat.
Proof.
  intros Hwf i j a b Ha Hb Hij.
  destruct (Hwf _ _ Ha) as [-> _]. by destruct (Hwf _ _ Hb) as [-> _].
Qed.

Lemma well_formed_index_sorted (l : list scene) :
  well_formed l -> index_sorted l.
Proof.
  intros Hwf pre x post y -> Hy.
  apply list_elem_of_lookup in Hy as [k Hk].
  apply (well_formed_sorted _ Hwf (length pre) (length pre + S k)).
  - by rewrite list_lookup_middle.
  - rewrite lookup_app_r by lia.
    replace (length pre + S k - length pre)%nat with (S k) by lia. done.
  - lia.
Qed.

Lemma index_sorted_tail (x : scene) (l : list scene) :
  index_sorted (x :: l) -> index_sorted l.
Proof.
  intros H pre a post y -> Hy. by apply (H (x :: pre) a post y).
Qed.

Lemma index_sorted_filter (P : scene -> bool) (l : list scene) :
  index_sorted l -> index_sorted (List.filter P l).
Proof.
  induction l as [|x l IH]; intros Hs; [intros [|??] ???? ; discriminate|].
  specialize (IH (index_sorted_tail _ _ Hs)).
  simpl. destruct (P x) eqn:HP; [|done].
  intros pre a post y Heq Hy. destruct pre as [|b pre]; simpl in Heq.
  - injection Heq as Ha Hp. subst a post. apply (Hs [] x l y); [done|].
    apply list_elem_of_In, filter_In in Hy as [Hy _]. by apply list_elem_of_In.
  - injection Heq as Hb Heq. by apply (IH pre a post y).
Qed.

(** The list [max] runs over holds exactly the candidates. *)
Lemma main_scenes_candidates (scene_info : list scene) (s : scene) :
  s ∈ match List.filter not_label_macro scene_info with
      | [] => scene_info
      | m :: ms => m :: ms
      end <-> candidate scene_info s.
Proof.
  assert (forall x, x ∈ List.filter not_label_macro scene_info <->
                    x ∈ scene_info /\ is_label_macro x = false) as Hf.
  { intros x. rewrite !list_elem_of_In, filter_In, not_label_macro_negb.
    by rewrite negb_true_iff. }
  destruct (List.filter not_label_macro scene_info) as [|m ms] eqn:E.
  - unfold candidate. split; [|tauto]. intros Hs. split; [done|]. right.
    intros s' Hs'. destruct (is_label_macro s') eqn:Hl; [done|].
    assert (s' ∈ @nil scene) as Hn by (apply Hf; done). by apply elem_of_nil in Hn.
  - rewrite Hf. unfold candidate. split; [tauto|]. intros [Hs [Hl|Hall]]; [done|].
    assert (m ∈ m :: ms) as Hm by left. apply Hf in Hm as [Hm Hml].
    rewrite (Hall m Hm) in Hml. discriminate.
Qed.

(** C2. For a non-empty list of scene descriptors (index = position, pixel
    count = width x height), the selector returns the index of a candidate
    scene (one that is not a label or macro image, or any scene when all of
    them are) whose pixel count no candidate exceeds, and among the
    candidates of that pixel count the one of lowest index; on the
    specification's example it returns index 1. *)
Theorem find_main_image_scene_largest :
  (forall scene_info : list scene,
     scene_info <> [] -> well_formed scene_info ->
     exists s,
       _find_main_image_scene scene_info = Ok (index s) /\
       candidate scene_info s /\
       (forall s', candidate scene_info s' ->
          width s' * height s' <= width s * height s) /\
       (forall s', candidate scene_info s' ->
          width s' * height s' = width s * height s -> (index s <= index s')%nat)) /\
  _find_main_image_scene example_scenes = Ok 1%nat.
Proof.
  split; [|reflexivity].
  intros scene_info Hne Hwf.
  pose proof (main_scenes_candidates scene_info) as Hcand.
  assert (index_sorted match List.filter not_label_macro scene_info with
                       | [] => scene_info
                       | m :: ms => m :: ms
                       end) as Hsorted.
  { pose proof (well_formed_index_sorted _ Hwf) as Hs.
    pose proof (index_sorted_filter not_label_macro _ Hs) as Hs'.
    by destruct (List.filter not_label_macro scene_info). }
  assert (forall s', candidate scene_info s' ->
            total_pixels s' = width s' * height s') as Hpix.
  { intros s' [Hin _]. apply list_elem_of_lookup in Hin as [i Hi].
    by destruct (Hwf _ _ Hi). }
  unfold _find_main_image_scene.
  destruct scene_info as [|s0 l0]; [done|].
  set (scene_info := s0 :: l0) in *.
  destruct (match List.filter not_label_macro scene_info with
            | [] => scene_info
            | m :: ms => m :: ms
            end) as [|c cs] eqn:E.
  { assert (s0 ∈ @nil scene) as Hn.
    { apply Hcand. destruct (List.filter not_label_macro scene_info); [|done].
      subst scene_info. discriminate. }
    by apply elem_of_nil in Hn. }
  assert (match List.filter not_label_macro scene_info with
          | [] => scene_info
          | _ :: _ => List.filter not_label_macro scene_info
          end = c :: cs) as ->.
  { by destruct (List.filter not_label_macro scene_info). }
  simpl.
  destruct (max_from_first total_pixels cs c) as (pre & post & Heq & Hpre & Hpost).
  set (m := max_from total_pixels c cs) in *.
  assert (candidate scene_info m) as Hm.
  { apply Hcand. rewrite Heq. apply elem_of_app. right. left. }
  exists m. split; [done|]. split; [done|]. split.
  - intros s' Hs'. rewrite <- (Hpix _ Hs'), <- (Hpix _ Hm).
    apply Hcand in Hs'. rewrite Heq in Hs'.
    apply elem_of_app in Hs' as [Hs'|Hs'].
    + apply N.lt_le_incl. by apply Hpre.
    + apply elem_of_cons in Hs' as [->|Hs']; [lia | by apply Hpost].
  - intros s' Hs' Hsame. rewrite <- (Hpix _ Hs'), <- (Hpix _ Hm) in Hsame.
    apply Hcand in Hs'. rewrite Heq in Hs'.
    apply elem_of_app in Hs' as [Hs'|Hs'].
    + apply Hpre in Hs'. lia.
    + apply elem_of_cons in Hs' as [->|Hs']; [lia|].
      apply Nat.lt_le_incl. by apply (Hsorted pre m post s').
Qed.

Lemma example_scenes_well_formed : well_formed example_scenes.
Proof.
  intros i s Hi.
  destruct i as [|[|[|i]]]; simpl in Hi; [| | |done]; by injection Hi as <-.
Qed.

Lemma find_main_image_scene_largest_witness :
  example_scenes <> [] /\ well_formed example_scenes /\
  exists s,
    _find_main_image_scene example_scenes = Ok (index s) /\
    candidate example_scenes s /\
    (forall s', candidate example_scenes s' ->
       width s' * height s' <= width s * height s) /\
    (forall s', candidate example_scenes s' ->
       width s' * height s' = width s * height s -> (index s <= index s')%nat).
Proof.
  split; [discriminate|]. split; [exact example_scenes_well_formed|].
  apply (proj1 find_main_image_scene_largest example_scenes);
    [discriminate | exact example_scenes_well_formed].
Defined.

(** C10. Called with an empty list of scene descriptors, the selector
    returns index 0 and raises nothing. *)
Theorem find_main_image_scene_empty :
  _find_main_image_scene [] = Ok 0%nat.
Proof. reflexivity. Qed.

(** What [_analyze_vsi_structure] returns is well formed. *)
Lemma analyze_vsi_structure_well_formed (img : aics_image) :
  well_formed (_analyze_vsi_structure img).
Proof.
  unfold _analyze_vsi_structure, well_formed.
  destruct (0 <? length (scenes img))%nat.
  - intros i s Hi. rewrite list_lookup_imap in Hi.
    destruct (scenes img !! i) as [[nm shp]|]; simpl in Hi; [|done].
    injection Hi as <-. simpl. split; [done | lia].
  - destruct (from_end (current_shape img) 0) as [w|]; simpl; [|intros ???; done].
    destruct (from_end (current_shape img) 1) as [h|]; simpl; [|intros ???; done].
    intros [|i] s Hi; [|done]. by injection Hi as <-.
Qed.

(** *** The selection of the front end *)

Lemma max_from_cons {T} (key : T -> N) (l : list T) :
  forall x y,
    max_from key x (y :: l) =
    if key x <? key (max_from key y l) then max_from key y l else x.
Proof.
  induction l as [|z l IH]; intros x y.
  - reflexivity.
  - change (max_from key x (y :: z :: l))
      with (max_from key (if key x <? key y then y else x) (z :: l)).
    rewrite (IH y z), (IH (if key x <? key y then y else x) z).
    destruct (N.ltb_spec (key x) (key y)), (N.ltb_spec (key y) (key (max_from key z l)));
      repeat match goal with
             | |- context [N.ltb ?a ?b] => destruct (N.ltb_spec a b)
             end; try reflexivity; lia.
Qed.

Lemma max_from_map {T U} (g : T -> U) (key : T -> N) (key' : U -> N) (l : list T) :
  (forall a, key' (g a) = key a) ->
  forall x, max_from key' (g x) (map g l) = g (max_from key x l).
Proof.
  intros Hkey. induction l as [|y l IH]; intros x; [reflexivity|].
  simpl. rewrite !Hkey. destruct (key x <? key y); apply IH.
Qed.

(** The head of the descending stable sort is what [max] returns. *)
Lemma sort_desc_head {T} (key : T -> N) (l : list T) (x : T) :
  head (FormatConverterGUI.sort_desc key (x :: l)) = Some (max_from key x l).
Proof.
  revert x. induction l as [|y l IH]; intros x; [reflexivity|].
  rewrite max_from_cons.
  change (FormatConverterGUI.sort_desc key (x :: y :: l))
    with (FormatConverterGUI.insert_desc key x (FormatConverterGUI.sort_desc key (y :: l))).
  specialize (IH y).
  destruct (FormatConverterGUI.sort_desc key (y :: l)) as [|m sorted]; [discriminate|].
  injection IH as ->. simpl. by destruct (key x <? key (max_from key y l)).
Qed.

Lemma scene_sizes_from_spec (l : list (string * list N)) :
  forall i,
    Forall (fun s => (2 <= length (snd s))%nat) l ->
    FormatConverterGUI.scene_sizes_from i l =
    Ok (map scene_triple (imap (fun j s => scene_data (i + j) (fst s) (snd s)) l)).
Proof.
  induction l as [|[scene_name shp] l IH]; intros i Hl; [reflexivity|].
  apply Forall_cons in Hl as [Hshp Hl]. simpl in Hshp.
  rewrite imap_cons. simpl. rewrite (IH (S i) Hl). unfold from_end, scene_data.
  rewrite <- length_rev in Hshp.
  replace (length shp) with (length (rev shp)) by apply length_rev.
  destruct (rev shp) as [|w [|h r]]; simpl in Hshp; [lia|lia|].
  simpl. rewrite Nat.add_0_r. do 2 f_equal. f_equal.
  apply imap_ext. intros j s _. simpl. by rewrite Nat.add_succ_r.
Qed.

(** X2. With two scenes or more, each with a Y and an X axis, the automatic
    choice of the front end is the scene [_find_main_image_scene] returns. *)
Lemma select_vsi_scene_agrees (img : aics_image) :
  (2 <= length (scenes img))%nat ->
  Forall (fun s => (2 <= length (snd s))%nat) (scenes img) ->
  FormatConverterGUI._select_vsi_scene (scenes img) =
  rmap Some (_find_main_image_scene (_analyze_vsi_structure img)).
Proof.
  intros Hlen Hshapes.
  unfold FormatConverterGUI._select_vsi_scene, _analyze_vsi_structure.
  destruct (Nat.leb_spec (length (scenes img)) 1) as [?|_]; [lia|].
  destruct (Nat.ltb_spec 0 (length (scenes img))) as [_|?]; [|lia].
  rewrite (scene_sizes_from_spec _ 0 Hshapes). cbn [rbind].
  set (scene_info := imap (fun j s => scene_data (0 + j) (fst s) (snd s)) (scenes img)).
  change (imap (fun i s => scene_data i (fst s) (snd s)) (scenes img)) with scene_info.
  assert (scene_info <> []) as Hne.
  { subst scene_info. destruct (scenes img); [simpl in Hlen; lia | discriminate]. }
  rewrite filter_map_swap.
  change (fun x : scene =>
            negb (contains "label" (lower (snd (fst (scene_triple x)))))
            && negb (contains "macro" (lower (snd (fst (scene_triple x))))))
    with not_label_macro.
  unfold _find_main_image_scene.
  assert (match scene_info with
          | [] => Ok 0%nat
          | _ :: _ =>
              let* main_scene :=
                max_by total_pixels
                  match List.filter not_label_macro scene_info with
                  | [] => scene_info
                  | _ :: _ => List.filter not_label_macro scene_info
                  end in
              Ok (index main_scene)
          end
          = let* main_scene :=
              max_by total_pixels
                match List.filter not_label_macro scene_info with
                | [] => scene_info
                | _ :: _ => List.filter not_label_macro scene_info
                end in
            Ok (index main_scene)) as ->.
  { by destruct scene_info. }
  assert (match map scene_triple (List.filter not_label_macro scene_info) with
          | [] => map scene_triple scene_info
          | _ :: _ => map scene_triple (List.filter not_label_macro scene_info)
          end
          = map scene_triple match List.filter not_label_macro scene_info with
                             | [] => scene_info
                             | _ :: _ => List.filter not_label_macro scene_info
                             end) as ->.
  { by destruct (List.filter not_label_macro scene_info). }
  destruct (match List.filter not_label_macro scene_info with
            | [] => scene_info
            | _ :: _ => List.filter not_label_macro scene_info
            end) as [|c cs] eqn:E.
  - by destruct (List.filter not_label_macro scene_info).
  - pose proof (sort_desc_head snd (map scene_triple cs) (scene_triple c)) as Hhead.
    change (map scene_triple (c :: cs)) with (scene_triple c :: map scene_triple cs).
    destruct (FormatConverterGUI.sort_desc snd (scene_triple c :: map scene_triple cs))
      as [|[[idx nm] sz] sorted]; [discriminate|].
    injection Hhead as Hhead.
    rewrite (max_from_map scene_triple total_pixels snd cs) in Hhead by done.
    simpl. unfold scene_triple in Hhead. by injection Hhead as -> _ _.
Qed.

End SceneSelection.

(** ** Arrays *)

Section Arrays.

Context {A : Type}.

Lemma prod_cons (n : nat) (shp : list nat) : prod (n :: shp) = n * prod shp.
Proof. reflexivity. Qed.

Lemma ravel_lt (shp idx : list nat) :
  valid_index shp idx -> ravel shp idx < prod shp.
Proof.
  unfold valid_index. intros H. induction H as [|i n idx shp Hin _ IH].
  - simpl. unfold prod. simpl. lia.
  - simpl ravel. rewrite prod_cons. nia.
Qed.

(** Unravelling the C-order position of an index gives the index back. *)
Lemma unravel_ravel (shp idx : list nat) :
  valid_index shp idx -> unravel shp (ravel shp idx) = idx.
Proof.
  unfold valid_index. intros H. induction H as [|i n idx shp Hin Hrest IH].
  - reflexivity.
  - pose proof (ravel_lt shp idx Hrest) as Hlt.
    simpl. f_equal.
    + rewrite Nat.div_add_l by lia. rewrite Nat.div_small by done. lia.
    + rewrite Nat.add_comm, Nat.Div0.mod_add, Nat.mod_small by done. exact IH.
Qed.

(** Every position below the size is the position of a valid index. *)
Lemma unravel_valid (shp : list nat) (k : nat) :
  k < prod shp -> valid_index shp (unravel shp k) /\ ravel shp (unravel shp k) = k.
Proof.
  unfold valid_index. revert k. induction shp as [|n shp IH]; intros k Hk.
  - unfold prod in Hk. simpl in *. split; [constructor | lia].
  - rewrite prod_cons in Hk. simpl.
    assert (prod shp <> 0) as Hp by (intros E; rewrite E in Hk; lia).
    destruct (IH (k mod prod shp)) as [Hv Hr]; [by apply Nat.mod_upper_bound|].
    split.
    + constructor; [|done]. apply Nat.Div0.div_lt_upper_bound. lia.
    + rewrite Hr. pose proof (Nat.div_mod_eq k (prod shp)). lia.
Qed.

(** [::k] keeps the indices [0, k, 2k, ...]: index [i] of the result is
    in range exactly when [k * i] is in range of the source. *)
Lemma strided_spec (n k i : nat) : 0 < k -> i < strided n k <-> k * i < n.
Proof.
  intros Hk. unfold strided. split; intros H.
  - assert (S i <= (n + k - 1) / k) as H' by lia.
    apply (Nat.mul_le_mono_l _ _ k) in H'.
    pose proof (Nat.Div0.mul_div_le (n + k - 1) k). lia.
  - assert (S i <= (n + k - 1) / k) as H'; [|lia].
    apply Nat.div_le_lower_bound; lia.
Qed.

(** [::2] halves an extent, rounding up. *)
Lemma strided_2 (n : nat) : strided n 2 = (n + 1) / 2.
Proof. unfold strided. f_equal. lia. Qed.

(** C8. A rank-6 array of shape (T, C, Z, Y, X, S) is normalised to the
    rank-5 shape (T, C*S, Z, Y, X), and the element of the result at
    (t, c*S+s, z, y, x) is the element of the input at (t, c, z, y, x, s);
    every valid index of the result is of that form. *)
Theorem normalize_axes_folds_samples (a : ndarray A) (T C Z Y X Sp : nat) :
  shape a = [T; C; Z; Y; X; Sp] ->
  exists out,
    normalize_axes a = Ok out /\
    shape out = [T; C * Sp; Z; Y; X] /\
    (forall t c z y x s,
       t < T -> c < C -> z < Z -> y < Y -> x < X -> s < Sp ->
       item out [t; c * Sp + s; z; y; x] = item a [t; c; z; y; x; s]) /\
    (forall t k z y x,
       valid_index [T; C * Sp; Z; Y; X] [t; k; z; y; x] ->
       k = (k / Sp) * Sp + k mod Sp /\ k / Sp < C /\ k mod Sp < Sp).
Proof.
  intros Hshape.
  unfold normalize_axes, ndim. rewrite Hshape. simpl length.
  unfold transpose, ndim. rewrite Hshape.
  change (is_permutation [0; 1; 5; 2; 3; 4] (length [T; C; Z; Y; X; Sp])) with true.
  simpl rbind. unfold reshape, size. simpl shape.
  assert (prod [T; C * Sp; Z; Y; X] = prod [T; C; Sp; Z; Y; X]) as Hprod.
  { unfold prod. simpl. lia. }
  rewrite Hprod, Nat.eqb_refl.
  eexists. split; [reflexivity|]. split; [reflexivity|]. split.
  - intros t c z y x s Ht Hc Hz Hy Hx Hs. cbn [item shape map nth].
    assert (ravel [T; C * Sp; Z; Y; X] [t; c * Sp + s; z; y; x]
            = ravel [T; C; Sp; Z; Y; X] [t; c; s; z; y; x]) as ->.
    { unfold ravel, prod. simpl. lia. }
    rewrite unravel_ravel by (repeat constructor; done).
    reflexivity.
  - intros t k z y x Hv.
    apply Forall2_cons in Hv as [_ Hv]. apply Forall2_cons in Hv as [Hk _].
    assert (Sp <> 0) as HS by (intros ->; lia).
    split; [|split].
    + pose proof (Nat.div_mod_eq k Sp). lia.
    + apply Nat.Div0.div_lt_upper_bound. lia.
    + by apply Nat.mod_upper_bound.
Qed.

(** What the rank-4 branch does, whatever the first two axes stand for:
    a new axis of extent 1 in third place. *)
Lemma normalize_axes_rank4 (a : ndarray A) (n0 n1 Y X : nat) :
  shape a = [n0; n1; Y; X] ->
  exists out,
    normalize_axes a = Ok out /\
    shape out = [n0; n1; 1; Y; X] /\
    forall i j y x, item out [i; j; 0; y; x] = item a [i; j; y; x].
Proof.
  intros Hshape. unfold normalize_axes, ndim, getitem. rewrite Hshape. simpl.
  eexists. split; [reflexivity|]. split; reflexivity.
Qed.

End Arrays.

Lemma normalize_axes_folds_samples_witness :
  exists out,
    normalize_axes (mk_ndarray [1; 2; 1; 2; 2; 3] (ravel [1; 2; 1; 2; 2; 3])) = Ok out /\
    shape out = [1; 2 * 3; 1; 2; 2] /\
    (forall t c z y x s,
       t < 1 -> c < 2 -> z < 1 -> y < 2 -> x < 2 -> s < 3 ->
       item out [t; c * 3 + s; z; y; x] = ravel [1; 2; 1; 2; 2; 3] [t; c; z; y; x; s]) /\
    (forall t k z y x,
       valid_index [1; 2 * 3; 1; 2; 2] [t; k; z; y; x] ->
       k = (k / 3) * 3 + k mod 3 /\ k / 3 < 2 /\ k mod 3 < 3).
Proof.
  apply (normalize_axes_folds_samples
           (mk_ndarray [1; 2; 1; 2; 2; 3] (ravel [1; 2; 1; 2; 2; 3])) 1 2 1 2 2 3).
  reflexivity.
Defined.

(** C3. An array declared (Z, C, Y, X) with Z = 2 and C = 1 comes out with
    shape (2, 1, 1, 1, 1): its Z extent stands on the T axis and the Z axis
    has extent 1, where (T, C, Z, Y, X) = (1, 1, 2, 1, 1) is due; the two
    planes are at t = 0 and t = 1. *)
Theorem normalize_axes_zcyx_on_time_axis :
  let zcyx := mk_ndarray [2; 1; 1; 1] (fun idx => nth 0 idx 0) in
  exists out,
    normalize_axes zcyx = Ok out /\
    shape out = [2; 1; 1; 1; 1] /\
    item out [0; 0; 0; 0; 0] = 0 /\
    item out [1; 0; 0; 0; 0] = 1.
Proof.
  eexists. split; [reflexivity|]. repeat split.
Qed.

(** ** The pyramid *)

Section Pyramid.

Context {A : Type}.

Local Open Scope nat_scope.

Lemma floor_log2_ratio_spec (m : nat) :
  256 <= m ->
  256 * 2 ^ floor_log2_ratio m <= m < 256 * 2 ^ S (floor_log2_ratio m).
Proof.
  intros Hm. unfold floor_log2_ratio.
  assert (0 < m / 256) as Hq by (apply Nat.div_str_pos; lia).
  pose proof (Nat.log2_spec (m / 256) Hq) as [Hlo Hhi].
  pose proof (Nat.div_mod_eq m 256) as Hdm.
  pose proof (Nat.mod_upper_bound m 256).
  split; [lia|]. lia.
Qed.

(** Decimation by two of a rank-5 array. *)
Lemma getitem_decimated (cur : ndarray A) (T C Z Y X : nat) :
  shape cur = [T; C; Z; Y; X] ->
  exists next,
    getitem [Full; Full; Full; Step 2; Step 2] cur = Ok next /\
    decimated cur next.
Proof.
  intros Hshape. unfold getitem. rewrite Hshape.
  change (index_shape [Full; Full; Full; Step 2; Step 2] [T; C; Z; Y; X])
    with (Ok [T; C; Z; strided Y 2; strided X 2]).
  cbn [rbind]. eexists. split; [reflexivity|].
  exists T, C, Z, Y, X. split; [done|]. split.
  - cbn [shape]. by rewrite !strided_2.
  - intros t c z y x. reflexivity.
Qed.

(** One turn of the loop on a rank-5 array. *)
Lemma pyramid_loop_step (fuel : nat) (compression : string) (compression_level : nat)
    (cur : ndarray A) (level : nat) (f0 : H5.file A) (T C Z Y X : nat) :
  shape cur = [T; C; Z; Y; X] ->
  exists next,
    decimated cur next /\
    pyramid_loop (S fuel) compression compression_level cur level f0 =
    if 256 <? Nat.min Y X then
      pyramid_loop fuel compression compression_level next (S level)
        (f0 ++ level_entries compression compression_level level [next])
    else (f0, Ok tt).
Proof.
  intros Hshape.
  destruct (getitem_decimated cur T C Z Y X Hshape) as (next & Hget & Hdec).
  exists next. split; [done|].
  destruct Hdec as (T' & C' & Z' & Y' & X' & Hc & Hn & _).
  simpl. unfold bind, lift, shape_at, tuple_at. rewrite Hshape. simpl.
  destruct (256 <? Nat.min Y X); [|reflexivity].
  rewrite Hget. rewrite Hn. simpl. unfold modify, level_entries. simpl.
  rewrite Nat.add_0_r, Hn. reflexivity.
Qed.

Lemma level_entries_cons (compression : string) (compression_level first : nat)
    (next : ndarray A) (levels : list (ndarray A)) :
  level_entries compression compression_level first (next :: levels) =
  level_entries compression compression_level first [next]
  ++ level_entries compression compression_level (S first) levels.
Proof.
  unfold level_entries. simpl. f_equal. apply imap_ext. intros i a _. simpl.
  by replace (first + S i) with (S (first + i)) by lia.
Qed.

Lemma level_entries_paths (compression : string) (compression_level : nat)
    (levels : list (ndarray A)) :
  forall first,
    map H5.entry_path (level_entries compression compression_level first levels) =
    map (fun k => String.append "ImageData/Resolution_" (pretty k))
        (seq first (length levels)).
Proof.
  induction levels as [|next levels IH]; intros first; [reflexivity|].
  rewrite level_entries_cons, map_app, IH. simpl. by rewrite Nat.add_0_r.
Qed.

(** The base level and the pyramid levels have names of their own. *)
Lemma pyramid_names_distinct (compression : string) (compression_level : nat)
    (image_data : ndarray A) (levels : list (ndarray A)) :
  NoDup (map H5.entry_path
           (base_entry compression compression_level image_data
            :: level_entries compression compression_level 1 levels)).
Proof.
  rewrite map_cons, level_entries_paths.
  change (H5.entry_path (base_entry compression compression_level image_data)
          :: map (fun k => String.append "ImageData/Resolution_" (pretty k))
               (seq 1 (length levels)))
    with (map (fun k => String.append "ImageData/Resolution_" (pretty k))
            (seq 0 (S (length levels)))).
  assert (Inj (=) (=) (fun k : nat => String.append "ImageData/Resolution_" (pretty k)))
    as Hinj.
  { intros j k Hjk. apply (inj (String.append "ImageData/Resolution_")) in Hjk.
    by apply (inj pretty). }
  apply (NoDup_fmap_2 _ _ (NoDup_seq 0 (S (length levels)))).
Qed.

Lemma spatial_min_decimated (cur next : ndarray A) :
  decimated cur next -> spatial_min next = (spatial_min cur + 1) / 2.
Proof.
  intros (T & C & Z & Y & X & Hc & Hn & _). unfold spatial_min.
  rewrite Hc, Hn. cbn [nth].
  destruct (Nat.le_ge_cases Y X) as [H|H].
  - rewrite (Nat.min_l Y X) by done. apply Nat.min_l.
    apply Nat.Div0.div_le_mono. lia.
  - rewrite (Nat.min_r Y X) by done. apply Nat.min_r.
    apply Nat.Div0.div_le_mono. lia.
Qed.

Lemma half_up_bounds (m : nat) : m <= 2 * ((m + 1) / 2) <= m + 1.
Proof.
  pose proof (Nat.div_mod_eq (m + 1) 2). pose proof (Nat.mod_upper_bound (m + 1) 2). lia.
Qed.

(** With enough fuel the loop ends normally, having appended the datasets
    of a pyramid above the array it started from. *)
Lemma pyramid_loop_spec (compression : string) (compression_level : nat) (fuel : nat) :
  forall (cur : ndarray A) (level : nat) (f0 : H5.file A) (T C Z Y X : nat),
    shape cur = [T; C; Z; Y; X] ->
    Nat.min Y X < fuel ->
    exists levels,
      pyramid_loop fuel compression compression_level cur level f0 =
        (f0 ++ level_entries compression compression_level level levels, Ok tt) /\
      pyramid_chain cur levels.
Proof.
  induction fuel as [|fuel IH]; intros cur level f0 T C Z Y X Hshape Hfuel; [lia|].
  destruct (pyramid_loop_step fuel compression compression_level cur level f0
              T C Z Y X Hshape) as (next & Hdec & ->).
  assert (spatial_min cur = Nat.min Y X) as Hmin by (unfold spatial_min; by rewrite Hshape).
  destruct (Nat.ltb_spec 256 (Nat.min Y X)) as [Hbig|Hsmall].
  - pose proof (spatial_min_decimated cur next Hdec) as Hnext.
    pose proof (half_up_bounds (spatial_min cur)) as Hhalf.
    destruct Hdec as (T' & C' & Z' & Y' & X' & Hc & Hn & Hitem).
    destruct (IH next (S level)
                (f0 ++ level_entries compression compression_level level [next])
                T' C' Z' ((Y' + 1) / 2) ((X' + 1) / 2) Hn) as (levels & Hrun & Hchain).
    { assert (spatial_min next = Nat.min ((Y' + 1) / 2) ((X' + 1) / 2)) as E
        by (unfold spatial_min; by rewrite Hn).
      rewrite <- E, Hnext. lia. }
    exists (next :: levels). split.
    + rewrite Hrun, (level_entries_cons _ _ _ next levels). by rewrite <- app_assoc.
    + simpl. split; [lia|]. split; [|done].
      by exists T', C', Z', Y', X'.
  - exists []. split; [by rewrite app_nil_r|]. simpl. lia.
Qed.

(** [_create_pyramid] gives the loop enough fuel. *)
Lemma create_pyramid_spec (image_data : ndarray A) (compression : string)
    (compression_level : nat) (f0 : H5.file A) (T C Z Y X : nat) :
  shape image_data = [T; C; Z; Y; X] ->
  exists levels,
    _create_pyramid image_data compression compression_level f0 =
      (f0 ++ level_entries compression compression_level 1 levels, Ok tt) /\
    pyramid_chain image_data levels.
Proof.
  intros Hshape. unfold _create_pyramid.
  apply (pyramid_loop_spec _ _ _ _ _ _ T C Z Y X Hshape).
  unfold pyramid_fuel. rewrite Hshape. simpl. lia.
Qed.

(** The chain read level by level. *)
Lemma pyramid_chain_lookup (levels : list (ndarray A)) :
  forall (cur : ndarray A) (T C Z Y X : nat),
    shape cur = [T; C; Z; Y; X] ->
    pyramid_chain cur levels ->
    forall k a, (cur :: levels) !! k = Some a ->
      exists Yk Xk,
        shape a = [T; C; Z; Yk; Xk] /\
        match levels !! k with
        | Some next =>
            256 < Nat.min Yk Xk /\
            shape next = [T; C; Z; (Yk + 1) / 2; (Xk + 1) / 2] /\
            (forall t c z y x,
               item next [t; c; z; y; x] = item a [t; c; z; 2 * y; 2 * x])
        | None => Nat.min Yk Xk <= 256
        end.
Proof.
  induction levels as [|next rest IH]; intros cur T C Z Y X Hshape Hchain k a Hk.
  - destruct k as [|k]; [|done]. injection Hk as <-. exists Y, X. split; [done|].
    simpl in *. unfold spatial_min in Hchain. by rewrite Hshape in Hchain.
  - destruct Hchain as (Hbig & Hdec & Hrest).
    destruct Hdec as (T' & C' & Z' & Y' & X' & Hc & Hn & Hitem).
    rewrite Hshape in Hc. injection Hc as <- <- <- <- <-.
    destruct k as [|k].
    + injection Hk as <-. exists Y, X. split; [done|]. simpl.
      unfold spatial_min in Hbig. rewrite Hshape in Hbig. done.
    + simpl in Hk. simpl. by apply (IH next T C Z _ _ Hn Hrest k a).
Qed.


End Pyramid.

(** C1, as the code has it. From a base tensor of shape (T, C, Z, Y, X) the
    pyramid builder ends normally, and in the sequence of the base and the
    levels it has written, each level k+1 has the T, C and Z extents of level
    k, Y and X extents (Yk+1)/2 and (Xk+1)/2 (half, rounded up) and the
    elements of level k at the even rows and columns; a level follows level
    k exactly when min(Yk, Xk) > 256. *)
Theorem create_pyramid_levels {A : Type} (image_data : ndarray A)
    (compression : string) (compression_level : nat) (f0 : H5.file A)
    (T C Z Y X : nat) :
  shape image_data = [T; C; Z; Y; X] ->
  exists levels,
    _create_pyramid image_data compression compression_level f0 =
      (f0 ++ level_entries compression compression_level 1 levels, Ok tt) /\
    forall k a, (image_data :: levels) !! k = Some a ->
      exists Yk Xk,
        shape a = [T; C; Z; Yk; Xk] /\
        match levels !! k with
        | Some next =>
            256 < Nat.min Yk Xk /\
            shape next = [T; C; Z; (Yk + 1) / 2; (Xk + 1) / 2] /\
            (forall t c z y x,
               item next [t; c; z; y; x] = item a [t; c; z; 2 * y; 2 * x])
        | None => Nat.min Yk Xk <= 256
        end.
Proof.
  intros Hshape.
  destruct (create_pyramid_spec image_data compression compression_level f0
              T C Z Y X Hshape) as (levels & Hrun & Hchain).
  exists levels. split; [done|].
  by apply pyramid_chain_lookup with (Y := Y) (X := X).
Qed.

Lemma create_pyramid_levels_witness :
  exists levels,
    _create_pyramid (mk_ndarray [1; 3; 1; 600; 700] (fun _ => 0%nat)) "gzip" 4 [] =
      ([] ++ level_entries "gzip" 4 1 levels, Ok tt) /\
    forall k a,
      (mk_ndarray [1; 3; 1; 600; 700] (fun _ => 0%nat) :: levels) !! k = Some a ->
      exists Yk Xk,
        shape a = [1; 3; 1; Yk; Xk] /\
        match levels !! k with
        | Some next =>
            256 < Nat.min Yk Xk /\
            shape next = [1; 3; 1; (Yk + 1) / 2; (Xk + 1) / 2] /\
            (forall t c z y x,
               item next [t; c; z; y; x] = item a [t; c; z; 2 * y; 2 * x])
        | None => Nat.min Yk Xk <= 256
        end.
Proof.
  apply (create_pyramid_levels (mk_ndarray [1; 3; 1; 600; 700] (fun _ => 0%nat))
           "gzip" 4 [] 1 3 1 600 700).
  reflexivity.
Defined.

(** C1, against the claim as stated. From a 513 x 513 base the first level
    is 257 x 257, and the integer part of 513 / 2 is 256. *)
Lemma create_pyramid_odd_extent_rounds_up :
  let base := mk_ndarray [1; 1; 1; 513; 513] (fun _ => 0%nat) in
  snd (_create_pyramid base "gzip" 4 []) = Ok tt /\
  array_shapes (fst (_create_pyramid base "gzip" 4 [])) =
    [("ImageData/Resolution_1"%string, [1; 1; 1; 257; 257]);
     ("ImageData/Resolution_2"%string, [1; 1; 1; 129; 129])] /\
  513 / 2 = 256.
Proof. vm_compute. repeat split. Qed.

(** ** The writer *)

Section WriterSteps.

Context {A : Type}.

Lemma appends_in_ret {T} (P : H5.entry A -> Prop) (v : T) :
  appends_in P (ret v).
Proof.
  exists [], (Ok v). split; [|constructor].
  intros f0. unfold ret. by rewrite app_nil_r.
Qed.

Lemma appends_in_lift {T} (P : H5.entry A -> Prop) (r : result T) :
  appends_in P (lift r).
Proof.
  exists [], r. split; [|constructor].
  intros f0. unfold lift. by rewrite app_nil_r.
Qed.

Lemma appends_in_entry (P : H5.entry A -> Prop) (e : H5.entry A) :
  P e -> appends_in P (modify (fun f => f ++ [e])).
Proof.
  intros He. exists [e], (Ok tt). split; [done|]. by constructor.
Qed.

Lemma appends_in_bind {T U} (P : H5.entry A -> Prop) (m : io (H5.file A) T)
    (k : T -> io (H5.file A) U) :
  appends_in P m -> (forall v, appends_in P (k v)) -> appends_in P (bind m k).
Proof.
  intros (w1 & r1 & Hm & Hw1) Hk. destruct r1 as [v|e].
  - destruct (Hk v) as (w2 & r2 & Hkv & Hw2).
    exists (w1 ++ w2), r2. split; [|by apply Forall_app].
    intros f0. unfold bind. by rewrite Hm, Hkv, app_assoc.
  - exists w1, (Raise e). split; [|done].
    intros f0. unfold bind. by rewrite Hm.
Qed.


Lemma set_attrs_app (path : string) (kvs : list (string * H5.attr_value))
    (f : H5.file A) :
  set_attrs path kvs f = f ++ map (fun kv => H5.Attr path (fst kv) (snd kv)) kvs.
Proof.
  unfold set_attrs. revert f. induction kvs as [|kv kvs IH]; intros f; simpl.
  - by rewrite app_nil_r.
  - rewrite IH. unfold H5.set_attr. by rewrite <- app_assoc.
Qed.

Lemma appends_in_set_attrs (P : H5.entry A -> Prop) (path : string)
    (kvs : list (string * H5.attr_value)) :
  (forall k v, P (H5.Attr path k v)) -> appends_in P (modify (set_attrs path kvs)).
Proof.
  intros HP. exists (map (fun kv => H5.Attr path (fst kv) (snd kv)) kvs), (Ok tt).
  split.
  - intros f0. unfold modify. by rewrite set_attrs_app.
  - apply Forall_forall. intros e He. apply list_elem_of_fmap in He as (kv & -> & _).
    apply HP.
Qed.

End WriterSteps.

(** Goals [appends_in P m] for a command built from the writer's steps. *)
Ltac appends :=
  repeat first
    [ apply appends_in_ret
    | apply appends_in_lift
    | apply appends_in_set_attrs; intros; reflexivity
    | apply appends_in_entry; reflexivity
    | apply appends_in_bind; [|intros ?]
    | match goal with
      | |- appends_in _ (match ?x with _ => _ end) => destruct x
      end ].

Section WriterProperties.

Context {A : Type}.
Variable now : nat -> string.

Local Open Scope nat_scope.

Lemma pyramid_loop_appends (compression : string) (compression_level fuel : nat) :
  forall (cur : ndarray A) (level : nat),
    appends_in (fun e => H5.top_level e = "ImageData"%string)
      (pyramid_loop fuel compression compression_level cur level).
Proof.
  induction fuel as [|fuel IH]; intros cur level; simpl; [appends|].
  apply appends_in_bind; [appends|intros y].
  apply appends_in_bind; [appends|intros x].
  destruct (256 <? Nat.min y x); [|appends].
  apply appends_in_bind; [appends|intros downsampled].
  apply appends_in_bind; [appends|intros dy].
  apply appends_in_bind; [appends|intros dx].
  apply appends_in_bind; [|intros _; apply IH].
  apply appends_in_entry. reflexivity.
Qed.






(** The writer on a rank-5 array: the base level, the emptiness check, the
    pyramid behind its size check, and the rest. *)
Lemma write_body_rank5 (image_data : ndarray A) (metadata : metadata_t)
    (create_pyramid : bool) (compression : string) (compression_level : nat)
    (T C Z Y X : nat) :
  shape image_data = [T; C; Z; Y; X] ->
  write_body now image_data metadata create_pyramid compression compression_level [] =
  if size image_data =? 0 then
    ([base_entry compression compression_level image_data], Raise EmptyDataset)
  else
    (run (if create_pyramid && (512 <? Nat.min Y X)
          then _create_pyramid image_data compression compression_level
          else ret tt) ;
     run _create_thumbnail image_data ;
     run _write_metadata now metadata (shape image_data) ;
     run _write_provenance now metadata ;
     _write_schema)
      [base_entry compression compression_level image_data].
Proof.
  intros Hshape.
  assert (shape_at image_data 2 = Ok Z) as H2
    by (unfold shape_at, tuple_at; by rewrite Hshape).
  assert (shape_at image_data 3 = Ok Y) as H3
    by (unfold shape_at, tuple_at; by rewrite Hshape).
  assert (shape_at image_data 4 = Ok X) as H4
    by (unfold shape_at, tuple_at; by rewrite Hshape).
  assert (base_entry compression compression_level image_data =
          H5.Dataset "ImageData/Resolution_0" (H5.Array image_data)
            (comp_opts compression compression_level
               [1; 1; Nat.min 5 Z; Nat.min 512 Y; Nat.min 512 X])) as Hbase
    by (unfold base_entry; by rewrite Hshape).
  rewrite Hbase. unfold write_body.
  unfold bind at 1, lift at 1. rewrite H2. cbv beta iota.
  unfold bind at 1, lift at 1. rewrite H3. cbv beta iota.
  unfold bind at 1, lift at 1. rewrite H4. cbv beta iota.
  unfold bind at 1, modify at 1. cbv beta iota.
  unfold H5.create_dataset at 1. cbn [app].
  unfold bind at 1.
  destruct (size image_data =? 0); [reflexivity|].
  unfold ret at 1. reflexivity.
Qed.

(** C5, as the code has it. For a rank-5 tensor with zero elements the
    write fails with an exception, raised once the file at the output path
    has been opened; the writer does not remove the file, which is left at
    the output path, with nothing in it outside ImageData: no thumbnail, no
    metadata, no provenance, no schema stamp. *)
Theorem write_univ_empty_dataset (output_path : string) (image_data : ndarray A)
    (metadata : metadata_t) (create_pyramid : bool) (compression : string)
    (compression_level : nat) (d : FS.fs A) (T C Z Y X : nat) :
  shape image_data = [T; C; Z; Y; X] ->
  size image_data = 0 ->
  exists e f,
    _write_univ now output_path image_data metadata create_pyramid compression
      compression_level d = (<[output_path := FS.H5File f]> d, Raise e) /\
    Forall (fun entry => H5.top_level entry = "ImageData"%string) f.
Proof.
  intros Hshape Hsize. unfold _write_univ.
  rewrite (write_body_rank5 _ _ _ _ _ T C Z Y X Hshape), Hsize.
  eexists _, _. split; [reflexivity|]. by repeat constructor.
Qed.


End WriterProperties.

Section WriterLayout.

Context {A : Type}.
Variable now : nat -> string.

Local Open Scope nat_scope.

Lemma bind_ok_inv {S T U} (m : io S T) (k : T -> io S U) (s s' : S) (v : U) :
  bind m k s = (s', Ok v) ->
  exists s1 u, m s = (s1, Ok u) /\ k u s1 = (s', Ok v).
Proof.
  unfold bind. destruct (m s) as [s1 [u|e]]; intros H; [eauto | discriminate].
Qed.

Lemma appends_in_run {T} (P : H5.entry A -> Prop) (m : io (H5.file A) T)
    (f0 f : H5.file A) (r : result T) :
  appends_in P m -> m f0 = (f, r) -> exists w, f = f0 ++ w /\ Forall P w.
Proof.
  intros (w & r' & Hm & Hw) Hrun. rewrite Hm in Hrun. injection Hrun as <- _.
  by exists w.
Qed.

(** A command that starts by writing [e]. *)
Lemma appends_in_first {T} (P : H5.entry A -> Prop) (e : H5.entry A)
    (m : io (H5.file A) T) (f0 f : H5.file A) (r : result T) :
  appends_in P m ->
  (run modify (fun f => f ++ [e]) ; m) f0 = (f, r) ->
  exists w, f = f0 ++ e :: w /\ Forall P w.
Proof.
  intros Hm Hrun. unfold bind at 1, modify at 1 in Hrun.
  destruct (appends_in_run P m _ _ _ Hm Hrun) as (w & -> & Hw).
  exists w. by rewrite <- app_assoc.
Qed.

Lemma attr_app (f1 f2 : H5.file A) (path key : string) :
  H5.attr (f1 ++ f2) path key =
  match H5.attr f2 path key with
  | Some v => Some v
  | None => H5.attr f1 path key
  end.
Proof.
  induction f1 as [|e f1 IH]; simpl.
  - by destruct (H5.attr f2 path key).
  - rewrite IH. by destruct (H5.attr f2 path key).
Qed.

(** C9. When the writer returns normally, the file at the output path is
    the sequence of, in this order: the entries of ImageData, starting with
    Resolution_0; the Thumbnail dataset; the entries of Metadata, starting
    with the group; the entries of Provenance, starting with the group; and
    the schema stamp, the root attributes format = "univ",
    version = "1.0" and schema_version = "1.0", which are what the root
    attributes of the file read. *)
Theorem write_univ_layout (output_path : string) (image_data : ndarray A)
    (metadata : metadata_t) (create_pyramid : bool) (compression : string)
    (compression_level : nat) (d d' : FS.fs A) :
  _write_univ now output_path image_data metadata create_pyramid compression
    compression_level d = (d', Ok tt) ->
  exists f opts levels thumbnail metadata_entries provenance_entries,
    d' = <[output_path := FS.H5File f]> d /\
    f = (H5.Dataset "ImageData/Resolution_0" (H5.Array image_data) opts :: levels)
        ++ [H5.Dataset "Thumbnail" (H5.Array thumbnail)
              (H5.mk_options None (Some "gzip"%string) None)]
        ++ (H5.Group "Metadata" :: metadata_entries)
        ++ (H5.Group "Provenance" :: provenance_entries)
        ++ schema_stamp /\
    Forall (fun e => H5.top_level e = "ImageData"%string) levels /\
    Forall (fun e => H5.top_level e = "Metadata"%string) metadata_entries /\
    Forall (fun e => H5.top_level e = "Provenance"%string) provenance_entries /\
    H5.attr f "/" "format" = Some (H5.AStr "univ") /\
    H5.attr f "/" "version" = Some (H5.AStr "1.0") /\
    H5.attr f "/" "schema_version" = Some (H5.AStr "1.0").
Proof.
  unfold _write_univ.
  destruct (write_body now image_data metadata create_pyramid compression
              compression_level []) as [f r] eqn:Hbody.
  intros Hrun. injection Hrun as <- ->.
  unfold write_body in Hbody.
  apply bind_ok_inv in Hbody as (f1 & z & Hz & Hbody). injection Hz as <- _.
  apply bind_ok_inv in Hbody as (f1 & y & Hy & Hbody). injection Hy as <- _.
  apply bind_ok_inv in Hbody as (f1 & x & Hx & Hbody). injection Hx as <- _.
  apply bind_ok_inv in Hbody as (f1 & [] & Hbase & Hbody).
  unfold modify, H5.create_dataset in Hbase. cbn [app] in Hbase. injection Hbase as <-.
  apply bind_ok_inv in Hbody as (f2 & [] & Hcheck & Hbody).
  destruct (size image_data =? 0); [discriminate|]. injection Hcheck as <-.
  apply bind_ok_inv in Hbody as (f3 & [] & Hpyr & Hbody).
  assert (exists levels, f3 = [H5.Dataset "ImageData/Resolution_0" (H5.Array image_data)
                                 (comp_opts compression compression_level
                                    [1; 1; Nat.min 5 z; Nat.min 512 y; Nat.min 512 x])]
                              ++ levels /\
            Forall (fun e => H5.top_level e = "ImageData"%string) levels)
    as (levels & -> & Hlevels).
  { destruct (create_pyramid && (512 <? Nat.min y x)).
    - apply (appends_in_run _ _ _ _ _ (pyramid_loop_appends _ _ _ _ _) Hpyr).
    - injection Hpyr as <-. exists []. by rewrite app_nil_r. }
  apply bind_ok_inv in Hbody as (f4 & [] & Hthumb & Hbody).
  unfold _create_thumbnail in Hthumb.
  apply bind_ok_inv in Hthumb as (f3' & thumbnail & Hth & Hthumb).
  injection Hth as <- _. unfold modify, H5.create_dataset in Hthumb.
  injection Hthumb as <-.
  apply bind_ok_inv in Hbody as (f5 & [] & Hmeta & Hbody).
  apply bind_ok_inv in Hbody as (f6 & [] & Hprov & Hbody).
  unfold _write_metadata in Hmeta.
  apply (appends_in_first (fun e => H5.top_level e = "Metadata"%string)) in Hmeta
    as (metadata_entries & -> & Hmetadata);
    [|unfold write_size; appends].
  unfold _write_provenance in Hprov.
  apply (appends_in_first (fun e => H5.top_level e = "Provenance"%string)) in Hprov
    as (provenance_entries & -> & Hprovenance); [|appends].
  unfold _write_schema, bind, modify, H5.set_attr in Hbody. injection Hbody as <-.
  eexists _, _, levels, thumbnail, metadata_entries, provenance_entries.
  split; [reflexivity|].
  assert (forall (a b c e : H5.file A) (s1 s2 s3 : H5.entry A),
            (((((a ++ b) ++ c) ++ e) ++ [s1]) ++ [s2]) ++ [s3]
            = a ++ b ++ c ++ e ++ [s1; s2; s3]) as Hassoc.
  { intros. rewrite <- !app_assoc. reflexivity. }
  rewrite Hassoc. split; [reflexivity|].
  split; [done|]. split; [done|]. split; [done|].
  rewrite !app_comm_cons.
  repeat split; rewrite !app_assoc, attr_app; reflexivity.
Qed.

End WriterLayout.

(** *** The writer on concrete tensors *)

Lemma write_univ_empty_dataset_witness :
  shape (mk_ndarray [0; 1; 1; 4; 4] (fun _ => 0%nat)) = [0; 1; 1; 4; 4] /\
  size (mk_ndarray [0; 1; 1; 4; 4] (fun _ => 0%nat)) = 0 /\
  exists e f,
    _write_univ (fun _ => "2024-01-01T00:00:00"%string) "out.univ"
      (mk_ndarray [0; 1; 1; 4; 4] (fun _ => 0%nat))
      (mk_metadata None None None None) true "gzip" 4 ∅ =
    (<["out.univ"%string := FS.H5File f]> ∅, Raise e) /\
    Forall (fun entry => H5.top_level entry = "ImageData"%string) f.
Proof.
  split; [reflexivity|]. split; [reflexivity|].
  apply (write_univ_empty_dataset (fun _ => "2024-01-01T00:00:00"%string) "out.univ"
           (mk_ndarray [0; 1; 1; 4; 4] (fun _ => 0%nat))
           (mk_metadata None None None None) true "gzip" 4 ∅ 0 1 1 4 4);
    reflexivity.
Defined.

(** C5, against the claim as stated. After the failed write of a tensor
    with no element, the output path exists. *)
Lemma write_univ_empty_leaves_file :
  let out :=
    _write_univ (fun _ => "2024-01-01T00:00:00"%string) "out.univ"
      (mk_ndarray [0; 1; 1; 4; 4] (fun _ => 0%nat))
      (mk_metadata None None None None) true "gzip" 4 ∅ in
  (exists e, snd out = Raise e) /\
  FS.exists_ (fst out) "out.univ" = true.
Proof. vm_compute. split; [by eexists | reflexivity]. Qed.



Lemma write_univ_layout_witness :
  exists f opts levels thumbnail metadata_entries provenance_entries,
    fst (_write_univ (fun _ => "2024-01-01T00:00:00"%string) "out.univ"
           (mk_ndarray [1; 3; 1; 600; 700] (fun _ => 0%nat))
           (mk_metadata (Some "slide.vsi"%string) None None None) true "gzip" 4 ∅) =
      <["out.univ"%string := FS.H5File f]> ∅ /\
    f = (H5.Dataset "ImageData/Resolution_0"
           (H5.Array (mk_ndarray [1; 3; 1; 600; 700] (fun _ => 0%nat))) opts :: levels)
        ++ [H5.Dataset "Thumbnail" (H5.Array thumbnail)
              (H5.mk_options None (Some "gzip"%string) None)]
        ++ (H5.Group "Metadata" :: metadata_entries)
        ++ (H5.Group "Provenance" :: provenance_entries)
        ++ schema_stamp /\
    Forall (fun e => H5.top_level e = "ImageData"%string) levels /\
    Forall (fun e => H5.top_level e = "Metadata"%string) metadata_entries /\
    Forall (fun e => H5.top_level e = "Provenance"%string) provenance_entries /\
    H5.attr f "/" "format" = Some (H5.AStr "univ") /\
    H5.attr f "/" "version" = Some (H5.AStr "1.0") /\
    H5.attr f "/" "schema_version" = Some (H5.AStr "1.0").
Proof.
  apply (write_univ_layout (fun _ => "2024-01-01T00:00:00"%string) "out.univ"
           (mk_ndarray [1; 3; 1; 600; 700] (fun _ => 0%nat))
           (mk_metadata (Some "slide.vsi"%string) None None None) true "gzip" 4 ∅).
  vm_compute. reflexivity.
Defined.

(** ** The thumbnail *)

Section Thumbnail.

Context {A : Type}.

Local Open Scope nat_scope.

(** X29. Whatever step it takes, the thumbnail of a rank-5 tensor is the plane at
    the first T and Z index, with every channel, and with every [k]-th row
    and column for the step [k] (1 when the scale is at least 1: the plane
    as it is). *)
Lemma thumbnail_of_spec (image_data thumbnail : ndarray A) (T C Z Y X : nat) :
  shape image_data = [T; C; Z; Y; X] ->
  thumbnail_of image_data = Ok thumbnail ->
  exists k,
    0 < k /\
    (thumbnail_step Y X = Ok (Some k) \/ (thumbnail_step Y X = Ok None /\ k = 1)) /\
    shape thumbnail = [C; strided Y k; strided X k] /\
    forall c y x, item thumbnail [c; y; x] = item image_data [0; c; 0; k * y; k * x].
Proof.
  intros Hshape. unfold thumbnail_of, shape_at, tuple_at. rewrite Hshape.
  cbn [lookup list_lookup rbind].
  destruct (thumbnail_step Y X) as [[k|]|e]; cbn [rbind]; [| |discriminate].
  - unfold getitem. rewrite Hshape. cbn [index_shape].
    destruct (0 <? T); [|discriminate]. destruct (0 <? Z); [|discriminate].
    destruct (Nat.eqb_spec k 0) as [->|Hk]; [discriminate|].
    cbn [rmap rbind]. unfold ndim. cbn [shape length Nat.eqb].
    intros H. injection H as <-. exists k. split; [lia|]. split; [by left|].
    split; reflexivity.
  - unfold getitem. rewrite Hshape. cbn [index_shape].
    destruct (0 <? T); [|discriminate]. destruct (0 <? Z); [|discriminate].
    cbn [rmap rbind]. unfold ndim. cbn [shape length Nat.eqb].
    intros H. injection H as <-. exists 1. split; [lia|]. split; [by right|].
    split.
    + cbn [shape]. unfold strided. by rewrite !Nat.add_sub, !Nat.div_1_r.
    + intros c y x. cbn [item index_source hd tail]. by rewrite !Nat.mul_1_l.
Qed.

End Thumbnail.

(** C6. For a 511 x 511 base the scale is 256/511, its inverse is below 2
    and truncates to the step 1, so the stored thumbnail is the whole
    511 x 511 plane: larger than 256 in both Y and X. A 1025-wide base
    gives the step 4 and a thumbnail 257 wide. *)
Theorem create_thumbnail_exceeds_256 :
  thumbnail_step 511 511 = Ok (Some 1) /\
  rmap shape (thumbnail_of (mk_ndarray [1; 3; 1; 511; 511] (fun _ => 0%nat)))
    = Ok [3; 511; 511] /\
  thumbnail_step 513 1025 = Ok (Some 4) /\
  rmap shape (thumbnail_of (mk_ndarray [1; 3; 1; 513; 1025] (fun _ => 0%nat)))
    = Ok [3; 129; 257].
Proof. vm_compute. repeat split. Qed.

(** At and below 256 in both extents the scale is at least 1 and the plane
    is taken as it is. *)
Lemma thumbnail_step_small :
  thumbnail_step 256 256 = Ok None /\ thumbnail_step 100 256 = Ok None /\
  thumbnail_step 256 257 = Ok (Some 1).
Proof. vm_compute. repeat split. Qed.

(** ** The two-hop routes of the front end *)

Section TwoHop.

Import FormatConverterGUI.

Context {A : Type}.
Variable self : converters (A := A).
Variable st_size : FS.node A -> nat.

(** OME-Zarr to OME-TIFF: when the second hop raises, nothing more is done
    to the file system; it is left as the second hop left it. *)
Lemma dispatch_file_second_hop_raises (d d0 d1 d2 : FS.fs A) (e : exn) :
  mkdir_parent "out/res.ome.tif" d = (d0, Ok tt) ->
  _convert_omezarr_to_univ self "in.zarr" "out/res.ome.temp.univ" d0 = (d1, Ok tt) ->
  _convert_univ_to_ometiff self "out/res.ome.temp.univ" "out/res.ome.tif" d1
    = (d2, Raise e) ->
  _convert_file self st_size "in.zarr" "out/res.ome.tif" "ome-tiff" d = (d2, Raise e).
Proof.
  intros Hmk H1 H2. unfold _convert_file, dispatch_file.
  unfold bind at 1. unfold bind at 1, gets at 1.
  change (Path.suffix "in.zarr") with ".zarr"%string.
  change (Path.name "in.zarr") with "in.zarr"%string.
  cbn [String.eqb Ascii.eqb Bool.eqb contains starts_with orb].
  unfold bind at 1. rewrite Hmk.
  change (Path.with_suffix "out/res.ome.tif" ".temp.univ")
    with (Ok "out/res.ome.temp.univ"%string : result string).
  unfold bind at 1, lift at 1. unfold bind at 1. rewrite H1.
  unfold bind at 1. rewrite H2. reflexivity.
Qed.

(** When both hops return, the intermediate container is gone. *)
Lemma dispatch_file_two_hops_return (d d0 d1 d2 : FS.fs A) :
  mkdir_parent "out/res.ome.tif" d = (d0, Ok tt) ->
  _convert_omezarr_to_univ self "in.zarr" "out/res.ome.temp.univ" d0 = (d1, Ok tt) ->
  _convert_univ_to_ometiff self "out/res.ome.temp.univ" "out/res.ome.tif" d1
    = (d2, Ok tt) ->
  dispatch_file self "in.zarr" "out/res.ome.tif" "ome-tiff" d
    = (delete "out/res.ome.temp.univ"%string d2, Ok tt).
Proof.
  intros Hmk H1 H2. unfold dispatch_file.
  unfold bind at 1, gets at 1.
  change (Path.suffix "in.zarr") with ".zarr"%string.
  change (Path.name "in.zarr") with "in.zarr"%string.
  cbn [String.eqb Ascii.eqb Bool.eqb contains starts_with orb].
  unfold bind at 1. rewrite Hmk.
  change (Path.with_suffix "out/res.ome.tif" ".temp.univ")
    with (Ok "out/res.ome.temp.univ"%string : result string).
  unfold bind at 1, lift at 1. unfold bind at 1. rewrite H1.
  unfold bind at 1. rewrite H2.
  unfold unlink_if_exists, FS.exists_, FS.unlink.
  destruct (d2 !! "out/res.ome.temp.univ"%string) eqn:E; [done|].
  by rewrite delete_id.
Qed.

End TwoHop.

(** C4. On the OME-Zarr to OME-TIFF route, when the first hop has written
    the intermediate container and the second hop raises, both the single
    conversion and the batch conversion end with the intermediate container
    still on disk (and no destination file). *)
Theorem convert_file_leaves_temp_container :
  let single :=
    FormatConverterGUI._convert_file failing_second_hop (fun _ => 0)
      "in.zarr" "out/res.ome.tif" "ome-tiff" ∅ in
  let batch :=
    FormatConverterGUI._convert_batch failing_second_hop
      [("in.zarr"%string, "out/res.ome.tif"%string)] "ome-tiff" 0 0 ∅ in
  snd single = Raise decode_fails /\
  FS.exists_ (fst single) "out/res.ome.temp.univ" = true /\
  FS.exists_ (fst single) "out/res.ome.tif" = false /\
  snd batch = (0, 1) /\
  FS.exists_ (fst batch) "out/res.ome.temp.univ" = true /\
  FS.exists_ (fst batch) "out/res.ome.tif" = false.
Proof. vm_compute. repeat split. Qed.

(** * Further properties of the converter *)

(** ** Scene analysis *)

(** X1. [_analyze_vsi_structure] gives one descriptor per scene, in the
    order of the scenes and under their names; each has its position as
    index and width times height as pixel count. Without scenes there is at
    most the one descriptor of the default scene. *)
Theorem analyze_vsi_structure_one_per_scene (img : aics_image) :
  well_formed (_analyze_vsi_structure img) /\
  match scenes img with
  | [] => length (_analyze_vsi_structure img) <= 1
  | _ :: _ => map name (_analyze_vsi_structure img) = map fst (scenes img)
  end.
Proof.
  split; [apply analyze_vsi_structure_well_formed|].
  unfold _analyze_vsi_structure. destruct (scenes img) as [|s l] eqn:E.
  - simpl. destruct (from_end (current_shape img) 0); simpl; [|lia].
    destruct (from_end (current_shape img) 1); simpl; lia.
  - change (0 <? length (s :: l)) with true. cbv iota.
    generalize (s :: l). intros scs.
    assert (forall k, map name (imap (fun i sc => scene_data (k + i) (fst sc) (snd sc)) scs)
                      = map fst scs) as H.
    { induction scs as [|sc scs IH]; intros k; [reflexivity|].
      rewrite imap_cons. simpl. f_equal. rewrite <- (IH (S k)). f_equal.
      apply imap_ext. intros i x _. simpl. by rewrite Nat.add_succ_r. }
    apply (H 0).
Qed.

Lemma select_vsi_scene_agrees_witness :
  (2 <= length (scenes (mk_image [("Label_1"%string, [100; 100]%N);
                                  ("20x_BF_01"%string, [30000; 40000]%N);
                                  ("Overview"%string, [1500; 2000]%N)] [])))%nat /\
  FormatConverterGUI._select_vsi_scene
    (scenes (mk_image [("Label_1"%string, [100; 100]%N);
                       ("20x_BF_01"%string, [30000; 40000]%N);
                       ("Overview"%string, [1500; 2000]%N)] [])) =
  rmap Some (_find_main_image_scene
               (_analyze_vsi_structure
                  (mk_image [("Label_1"%string, [100; 100]%N);
                             ("20x_BF_01"%string, [30000; 40000]%N);
                             ("Overview"%string, [1500; 2000]%N)] []))).
Proof.
  split; [simpl; lia|].
  apply (select_vsi_scene_agrees
           (mk_image [("Label_1"%string, [100; 100]%N);
                      ("20x_BF_01"%string, [30000; 40000]%N);
                      ("Overview"%string, [1500; 2000]%N)] [])).
  - simpl. lia.
  - repeat constructor.
Defined.

(** ** Axis normalisation *)

Section Normalisation.

Context {A : Type}.

Local Open Scope nat_scope.

(** X3. The normalisation succeeds exactly on arrays of rank 2 to 6. *)
Theorem normalize_axes_succeeds_iff (image_data : ndarray A) :
  (exists out, normalize_axes image_data = Ok out) <->
  2 <= ndim image_data <= 6.
Proof.
  unfold normalize_axes, ndim, getitem, transpose, reshape, ndim, size.
  destruct (shape image_data) as [|n0 [|n1 [|n2 [|n3 [|n4 [|n5 [|n6 l]]]]]]] eqn:E;
    simpl length.
  1,2,8: split; [intros [out H]; discriminate | lia].
  1-4: split; [lia | intros _; eexists; reflexivity].
  split; [lia | intros _].
  change (is_permutation [0; 1; 5; 2; 3; 4] 6) with true. cbn [rbind shape map nth].
  assert (prod [n0; n1 * n5; n2; n3; n4] = prod [n0; n1; n5; n2; n3; n4]) as ->
    by (unfold prod; simpl; lia).
  rewrite Nat.eqb_refl. eexists. reflexivity.
Qed.

(** X4. Whenever the normalisation succeeds, the result has rank 5 and
    as many elements as the array it was given. *)
Theorem normalize_axes_canonical (image_data out : ndarray A) :
  normalize_axes image_data = Ok out ->
  ndim out = 5 /\ size out = size image_data.
Proof.
  unfold normalize_axes, ndim, getitem, transpose, reshape, ndim, size.
  destruct (shape image_data) as [|n0 [|n1 [|n2 [|n3 [|n4 [|n5 [|n6 l]]]]]]] eqn:E;
    simpl length; try discriminate.
  1-3: intros H; injection H as <-; simpl; unfold prod; simpl; split; [done | lia].
  - intros H. injection H as <-. by rewrite E.
  - change (is_permutation [0; 1; 5; 2; 3; 4] 6) with true. cbn [rbind shape map nth].
    assert (prod [n0; n1 * n5; n2; n3; n4] = prod [n0; n1; n5; n2; n3; n4]) as Hp
      by (unfold prod; simpl; lia).
    rewrite Hp, Nat.eqb_refl. intros H. injection H as <-. cbn [shape].
    split; [done|]. rewrite Hp. unfold prod. simpl. lia.
Qed.

(** X5. Where the data go: a (Y, X) array becomes (1, 1, 1, Y, X) with
    [in[y, x]] at [(0, 0, 0, y, x)]; a (C, Y, X) array becomes
    (1, C, 1, Y, X) with [in[c, y, x]] at [(0, c, 0, y, x)]; a rank-5
    array is returned as it is. *)
Theorem normalize_axes_places_data (image_data : ndarray A) :
  (forall Y X, shape image_data = [Y; X] ->
     exists out, normalize_axes image_data = Ok out /\
       shape out = [1; 1; 1; Y; X] /\
       forall y x, item out [0; 0; 0; y; x] = item image_data [y; x]) /\
  (forall C Y X, shape image_data = [C; Y; X] ->
     exists out, normalize_axes image_data = Ok out /\
       shape out = [1; C; 1; Y; X] /\
       forall c y x, item out [0; c; 0; y; x] = item image_data [c; y; x]) /\
  (ndim image_data = 5 -> normalize_axes image_data = Ok image_data).
Proof.
  unfold normalize_axes, ndim, getitem. repeat split.
  - intros Y X ->. simpl. eexists. split; [reflexivity|]. split; reflexivity.
  - intros C Y X ->. simpl. eexists. split; [reflexivity|]. split; reflexivity.
  - by intros ->.
Qed.

End Normalisation.

Lemma normalize_axes_canonical_witness :
  normalize_axes (mk_ndarray [4; 6] (ravel [4; 6])) =
    Ok (mk_ndarray [1; 1; 1; 4; 6]
          (fun out => ravel [4; 6]
             (index_source [NewAxis; NewAxis; NewAxis; Full; Full] out))) /\
  ndim (mk_ndarray [1; 1; 1; 4; 6]
          (fun out => ravel [4; 6]
             (index_source [NewAxis; NewAxis; NewAxis; Full; Full] out))) = 5 /\
  size (mk_ndarray [1; 1; 1; 4; 6]
          (fun out => ravel [4; 6]
             (index_source [NewAxis; NewAxis; NewAxis; Full; Full] out)))
  = size (mk_ndarray [4; 6] (ravel [4; 6])).
Proof.
  split; [reflexivity|].
  apply (normalize_axes_canonical (mk_ndarray [4; 6] (ravel [4; 6]))). reflexivity.
Defined.

(** ** Resolution levels *)

Section Resolutions.

Local Open Scope N_scope.

Lemma resolutions_loop_spec (fuel : nat) :
  forall (w h : N) (lvl : nat),
    (N.to_nat (N.min w h) < fuel)%nat ->
    exists l,
      resolutions_loop fuel w h lvl = Ok l /\
      N.min w h / 2 ^ N.of_nat (length l) < 512 /\
      forall k r, l !! k = Some r ->
        level r = (lvl + k)%nat /\
        res_width r = w / 2 ^ N.of_nat k /\
        res_height r = h / 2 ^ N.of_nat k /\
        downsample_factor r = 2 ^ N.of_nat (lvl + k) /\
        megapixels r = megapixels_of (res_width r) (res_height r) /\
        512 <= N.min (res_width r) (res_height r).
Proof.
  induction fuel as [|fuel IH]; intros w h lvl Hfuel; [lia|].
  cbn [resolutions_loop]. destruct (N.leb_spec 512 (N.min w h)) as [Hbig|Hsmall].
  - assert (N.min (w / 2) (h / 2) = N.min w h / 2) as Hmin.
    { destruct (N.min_spec w h) as [[Hlt ->]|[Hle ->]].
      - apply N.min_l. apply N.Div0.div_le_mono. lia.
      - apply N.min_r. by apply N.Div0.div_le_mono. }
    destruct (IH (w / 2) (h / 2) (S lvl)) as (l & -> & Hstop & Hl).
    { rewrite Hmin. assert (N.min w h / 2 < N.min w h) by (apply N.div_lt; lia). lia. }
    cbn [rbind]. eexists. split; [reflexivity|]. split.
    + cbn [length]. rewrite Nat2N.inj_succ, N.pow_succ_r',  <- N.Div0.div_div.
      by rewrite <- Hmin.
    + intros [|k] r Hr.
      * injection Hr as <-. cbn [level res_width res_height downsample_factor megapixels].
        rewrite Nat.add_0_r. change (2 ^ N.of_nat 0) with 1. rewrite !N.div_1_r.
        repeat split; done.
      * destruct (Hl k r Hr) as (H1 & H2 & H3 & H4 & H5 & H6).
        rewrite Nat2N.inj_succ, N.pow_succ_r', <- !N.Div0.div_div.
        rewrite Nat.add_succ_r. repeat split; done.
  - exists []. split; [reflexivity|]. split.
    + change (2 ^ N.of_nat (length [])) with 1. by rewrite N.div_1_r.
    + intros k r Hr. by destruct k.
Qed.

(** X6. The resolutions that [get_vsi_info] offers are those of the main
    scene: entry k has level k and downsample factor 2^k, the width and
    height of the main scene divided by 2^k and rounded down, both at least
    512; and the list stops at the first level at which the smaller side,
    so divided, is below 512. Without a main scene nothing is offered. *)
Theorem get_vsi_info_resolutions (img : aics_image) :
  let info := get_vsi_info img in
  match info_scenes info !! main_scene_index info with
  | None => available_resolutions info = []
  | Some main =>
      N.min (width main) (height main)
        / 2 ^ N.of_nat (length (available_resolutions info)) < 512 /\
      forall k r, available_resolutions info !! k = Some r ->
        level r = k /\
        res_width r = width main / 2 ^ N.of_nat k /\
        res_height r = height main / 2 ^ N.of_nat k /\
        downsample_factor r = 2 ^ N.of_nat k /\
        megapixels r = megapixels_of (res_width r) (res_height r) /\
        512 <= N.min (res_width r) (res_height r)
  end.
Proof.
  cbv zeta. unfold get_vsi_info.
  destruct (_find_main_image_scene (_analyze_vsi_structure img)) as [idx|e];
    cbn [rbind]; [|reflexivity].
  destruct (_analyze_vsi_structure img) as [|s l] eqn:E; [reflexivity|].
  destruct ((s :: l) !! idx) as [main|] eqn:Hmain; [|reflexivity].
  destruct (resolutions_loop_spec
              (S (N.to_nat (N.min (width main) (height main))))
              (width main) (height main) 0) as (res & -> & Hstop & Hres); [lia|].
  cbn [rbind info_scenes main_scene_index available_resolutions].
  rewrite Hmain. split; [done|]. intros k r Hr. apply (Hres k r Hr).
Qed.

End Resolutions.

(** ** Loading at a lower resolution *)

Section Downsample.

Context {A : Type}.

Local Open Scope nat_scope.

Lemma index_shape_spatial_steps (k : nat) (pre : list nat) (Y X : nat) :
  k <> 0 ->
  index_shape (repeat Full (length pre) ++ [Step k; Step k]) (pre ++ [Y; X])
  = Ok (pre ++ [strided Y k; strided X k]).
Proof.
  intros Hk. induction pre as [|n pre IH].
  - simpl. destruct (Nat.eqb_spec k 0); [done|reflexivity].
  - cbn [length repeat app index_shape]. rewrite IH. reflexivity.
Qed.

Lemma index_source_spatial_steps (k : nat) (idx : list nat) (y x : nat) :
  index_source (repeat Full (length idx) ++ [Step k; Step k]) (idx ++ [y; x])
  = idx ++ [k * y; k * x].
Proof.
  induction idx as [|i idx IH]; [reflexivity|].
  cbn [length repeat app index_source hd tail]. by rewrite IH.
Qed.

(** X7. Loading at resolution level [lvl] takes every 2^lvl-th index
    along the last two axes of the decoded array, whatever they are, and
    leaves every other axis alone: for extents m and n of the last two
    axes the result has ceil(m / 2^lvl) and ceil(n / 2^lvl), and its element
    at (..., i, j) is the one that was at (..., 2^lvl i, 2^lvl j). For
    (T, C, Z, Y, X) data these axes are the rows and columns; for the
    (T, C, Z, Y, X, S) data of an RGB image they are X and S, and the rows
    are kept as they are. At level 0 the array is returned as it is. *)
Theorem downsample_spec (data : ndarray A) (lvl : nat) (pre : list nat) (m n : nat) :
  shape data = pre ++ [m; n] ->
  exists out,
    downsample data lvl = Ok out /\
    shape out = pre ++ [strided m (2 ^ lvl); strided n (2 ^ lvl)] /\
    (forall i, i < strided m (2 ^ lvl) <-> 2 ^ lvl * i < m) /\
    (forall j, j < strided n (2 ^ lvl) <-> 2 ^ lvl * j < n) /\
    (forall idx i j, length idx = length pre ->
       item out (idx ++ [i; j]) = item data (idx ++ [2 ^ lvl * i; 2 ^ lvl * j])) /\
    (lvl = 0 -> out = data).
Proof.
  intros Hshape. unfold downsample.
  assert (2 ^ lvl <> 0) as Hpow by (apply Nat.pow_nonzero; lia).
  assert (0 < 2 ^ lvl) as Hpos by lia.
  destruct (Nat.ltb_spec 0 lvl) as [Hlvl|Hlvl].
  - unfold getitem, ndim. rewrite Hshape.
    replace (length (pre ++ [m; n]) - 2) with (length pre)
      by (rewrite length_app; simpl; lia).
    rewrite index_shape_spatial_steps by done. cbn [rbind].
    eexists. split; [reflexivity|]. cbn [shape item].
    split; [reflexivity|].
    split; [intros i; by apply strided_spec|].
    split; [intros i; by apply strided_spec|].
    split; [|lia].
    intros idx i j Hlen. rewrite <- Hlen. by rewrite index_source_spatial_steps.
  - assert (lvl = 0) as -> by lia. exists data.
    change (2 ^ 0) with 1. unfold strided. rewrite !Nat.add_sub, !Nat.div_1_r.
    split; [reflexivity|]. split; [done|].
    split; [intros i; lia|]. split; [intros i; lia|].
    split; [|done]. intros idx i j _. by rewrite !Nat.mul_1_l.
Qed.

End Downsample.

Lemma downsample_spec_witness :
  exists out,
    downsample (mk_ndarray [1; 1; 1; 8; 8; 3] (ravel [1; 1; 1; 8; 8; 3])) 1 = Ok out /\
    shape out = [1; 1; 1; 8] ++ [strided 8 (2 ^ 1); strided 3 (2 ^ 1)] /\
    (forall i, i < strided 8 (2 ^ 1) <-> 2 ^ 1 * i < 8) /\
    (forall j, j < strided 3 (2 ^ 1) <-> 2 ^ 1 * j < 3) /\
    (forall idx i j, length idx = length [1; 1; 1; 8] ->
       item out (idx ++ [i; j]) =
       item (mk_ndarray [1; 1; 1; 8; 8; 3] (ravel [1; 1; 1; 8; 8; 3]))
         (idx ++ [2 ^ 1 * i; 2 ^ 1 * j])) /\
    (1 = 0 -> out = mk_ndarray [1; 1; 1; 8; 8; 3] (ravel [1; 1; 1; 8; 8; 3])).
Proof.
  apply (downsample_spec (mk_ndarray [1; 1; 1; 8; 8; 3] (ravel [1; 1; 1; 8; 8; 3]))
           1 [1; 1; 1; 8] 8 3).
  reflexivity.
Defined.

(** ** What a written container holds *)

Section ContainerContents.

Context {A : Type}.
Variable now : nat -> string.

Local Open Scope nat_scope.

Lemma write_metadata_rank5 (metadata : metadata_t) (T C Z Y X : nat) (f0 : H5.file A) :
  _write_metadata now metadata [T; C; Z; Y; X] f0 =
  (f0 ++ metadata_entries now metadata T C Z Y X, Ok tt).
Proof.
  unfold _write_metadata, metadata_entries, dimension_entries, physical_size_entries,
    source_entries, channel_entries, attr_entries, write_size.
  unfold bind, modify, lift, ret, tuple_at, H5.create_group, H5.set_attr.
  cbn [lookup list_lookup].
  destruct (physical_size metadata) as [phys_data|];
    destruct (channel_names metadata) as [[|n names]|];
    rewrite ?set_attrs_app; cbn [map fst snd]; rewrite <- ?app_assoc;
    cbn [app]; rewrite ?app_nil_r; reflexivity.
Qed.

Lemma write_provenance_eq (metadata : metadata_t) (f0 : H5.file A) :
  _write_provenance now metadata f0 = (f0 ++ provenance_entries now metadata, Ok tt).
Proof.
  unfold _write_provenance, provenance_entries, attr_entries.
  unfold bind, modify, H5.create_group, H5.create_dataset.
  rewrite set_attrs_app. cbn [map fst snd]. rewrite <- !app_assoc. reflexivity.
Qed.

Lemma write_schema_eq (f0 : H5.file A) :
  _write_schema f0 = (f0 ++ schema_stamp, Ok tt).
Proof.
  unfold _write_schema, schema_stamp, bind, modify, H5.set_attr.
  rewrite <- !app_assoc. reflexivity.
Qed.

(** The writer on a rank-5 tensor that is not empty: the pyramid is
    written, and everything else follows when the thumbnail can be made. *)
Lemma write_body_eq (image_data : ndarray A) (metadata : metadata_t)
    (create_pyramid : bool) (compression : string) (compression_level : nat)
    (T C Z Y X : nat) :
  shape image_data = [T; C; Z; Y; X] ->
  size image_data <> 0 ->
  exists levels,
    (if create_pyramid && (512 <? Nat.min Y X)
     then pyramid_chain image_data levels else levels = []) /\
    write_body now image_data metadata create_pyramid compression compression_level [] =
    match thumbnail_of image_data with
    | Ok thumbnail =>
        (univ_entries now compression compression_level metadata image_data levels
           thumbnail T C Z Y X, Ok tt)
    | Raise e =>
        (base_entry compression compression_level image_data
         :: level_entries compression compression_level 1 levels, Raise e)
    end.
Proof.
  intros Hshape Hsize.
  rewrite (write_body_rank5 now _ _ _ _ _ T C Z Y X Hshape).
  destruct (Nat.eqb_spec (size image_data) 0) as [|_]; [done|].
  assert (exists levels,
            (if create_pyramid && (512 <? Nat.min Y X)
             then pyramid_chain image_data levels else levels = []) /\
            (if create_pyramid && (512 <? Nat.min Y X)
             then _create_pyramid image_data compression compression_level
             else ret tt) [base_entry compression compression_level image_data] =
            (base_entry compression compression_level image_data
             :: level_entries compression compression_level 1 levels, Ok tt))
    as (levels & Hlevels & Hpyr).
  { destruct (create_pyramid && (512 <? Nat.min Y X)).
    - destruct (create_pyramid_spec image_data compression compression_level
                  [base_entry compression compression_level image_data]
                  T C Z Y X Hshape) as (levels & Hrun & Hchain).
      by exists levels.
    - by exists []. }
  exists levels. split; [done|].
  unfold bind at 1. rewrite Hpyr.
  unfold bind at 1. unfold _create_thumbnail at 1. unfold bind at 1, lift at 1.
  destruct (thumbnail_of image_data) as [thumbnail|e]; [|reflexivity].
  unfold modify at 1, H5.create_dataset at 1.
  unfold bind at 1. rewrite Hshape, write_metadata_rank5.
  unfold bind at 1. rewrite write_provenance_eq, write_schema_eq.
  unfold univ_entries, thumbnail_entry. rewrite <- !app_assoc. reflexivity.
Qed.

(** *** When the writer returns *)

Lemma thumbnail_step_pos (Y X k : nat) : thumbnail_step Y X = Ok (Some k) -> 0 < k.
Proof.
  unfold thumbnail_step.
  destruct (truediv 256 X) as [sx|]; [|discriminate]. cbn [rbind].
  destruct (truediv 256 Y) as [sy|]; [|discriminate]. cbn [rbind].
  destruct (PrimFloat.leb 1 (fmin sx sy)); [discriminate|].
  destruct (fdiv 1 (fmin sx sy)) as [inv|]; [|discriminate]. cbn [rbind].
  destruct (int_of_float inv) as [n|]; [|discriminate]. cbn [rbind].
  intros H. injection H as <-. lia.
Qed.

Lemma size_rank5_pos (image_data : ndarray A) (T C Z Y X : nat) :
  shape image_data = [T; C; Z; Y; X] ->
  size image_data <> 0 <-> 0 < T /\ 0 < C /\ 0 < Z /\ 0 < Y /\ 0 < X.
Proof.
  intros Hshape. unfold size. rewrite Hshape. unfold prod. cbn [foldr]. nia.
Qed.

(** On a tensor that is not empty the thumbnail is made whenever its step
    can be computed. *)
Lemma thumbnail_of_defined (image_data : ndarray A) (T C Z Y X : nat) :
  shape image_data = [T; C; Z; Y; X] ->
  size image_data <> 0 ->
  (exists thumbnail, thumbnail_of image_data = Ok thumbnail) <->
  (exists step, thumbnail_step Y X = Ok step).
Proof.
  intros Hshape Hsize.
  apply (size_rank5_pos _ T C Z Y X Hshape) in Hsize as (HT & _ & HZ & _ & _).
  apply Nat.ltb_lt in HT, HZ.
  unfold thumbnail_of, shape_at, tuple_at. rewrite Hshape.
  cbn [lookup list_lookup rbind].
  destruct (thumbnail_step Y X) as [[k|]|e] eqn:Hstep; cbn [rbind].
  - apply thumbnail_step_pos in Hstep.
    unfold getitem. rewrite Hshape. cbn [index_shape]. rewrite HT, HZ.
    destruct (Nat.eqb_spec k 0) as [|_]; [lia|].
    cbn [rmap rbind]. unfold ndim. cbn [shape length Nat.eqb].
    split; intros _; eexists; reflexivity.
  - unfold getitem. rewrite Hshape. cbn [index_shape]. rewrite HT, HZ.
    cbn [rmap rbind]. unfold ndim. cbn [shape length Nat.eqb].
    split; intros _; eexists; reflexivity.
  - split; intros [x Hx]; discriminate.
Qed.

(** X8. On a rank-5 tensor the writer returns normally only when the
    tensor has an element, so that none of its five extents is 0, and the
    step of the thumbnail could be computed: the two divisions and the
    truncation to an integer raised nothing. *)
Theorem write_univ_returns_only_if (output_path : string) (image_data : ndarray A)
    (metadata : metadata_t) (create_pyramid : bool) (compression : string)
    (compression_level : nat) (d d' : FS.fs A) (T C Z Y X : nat) :
  shape image_data = [T; C; Z; Y; X] ->
  _write_univ now output_path image_data metadata create_pyramid compression
    compression_level d = (d', Ok tt) ->
  size image_data <> 0 /\
  (0 < T /\ 0 < C /\ 0 < Z /\ 0 < Y /\ 0 < X) /\
  exists step, thumbnail_step Y X = Ok step.
Proof.
  intros Hshape. unfold _write_univ.
  destruct (Nat.eq_dec (size image_data) 0) as [Hempty|Hsize].
  - rewrite (write_body_rank5 now _ _ _ _ _ T C Z Y X Hshape), Hempty.
    cbn [Nat.eqb]. discriminate.
  - destruct (write_body_eq image_data metadata create_pyramid compression
                compression_level T C Z Y X Hshape Hsize) as (levels & _ & ->).
    pose proof (thumbnail_of_defined image_data T C Z Y X Hshape Hsize) as Hthumb.
    destruct (thumbnail_of image_data) as [thumbnail|e]; [|discriminate].
    intros _. split; [done|]. split; [by apply (size_rank5_pos image_data)|].
    apply Hthumb. by eexists.
Qed.

(** A normal return on a rank-5 tensor leaves a complete container. *)
Lemma write_univ_contents (output_path : string) (image_data : ndarray A)
    (metadata : metadata_t) (create_pyramid : bool) (compression : string)
    (compression_level : nat) (d d' : FS.fs A) (T C Z Y X : nat) :
  shape image_data = [T; C; Z; Y; X] ->
  _write_univ now output_path image_data metadata create_pyramid compression
    compression_level d = (d', Ok tt) ->
  exists levels thumbnail,
    d' = <[output_path :=
             FS.H5File (univ_entries now compression compression_level metadata
                          image_data levels thumbnail T C Z Y X)]> d /\
    size image_data <> 0 /\
    thumbnail_of image_data = Ok thumbnail /\
    (if create_pyramid && (512 <? Nat.min Y X)
     then pyramid_chain image_data levels else levels = []).
Proof.
  intros Hshape. unfold _write_univ.
  destruct (Nat.eq_dec (size image_data) 0) as [Hempty|Hsize].
  - rewrite (write_body_rank5 now _ _ _ _ _ T C Z Y X Hshape), Hempty.
    cbn [Nat.eqb]. discriminate.
  - destruct (write_body_eq image_data metadata create_pyramid compression
                compression_level T C Z Y X Hshape Hsize) as (levels & Hlevels & ->).
    destruct (thumbnail_of image_data) as [thumbnail|e]; [|discriminate].
    intros H. injection H as <-. by exists levels, thumbnail.
Qed.

(** *** Reading attributes back *)

Lemma attr_other_path (w : H5.file A) (path key : string) :
  Forall (fun e => H5.entry_path e <> path) w -> H5.attr w path key = None.
Proof.
  induction 1 as [|e w He _ IH]; [done|]. cbn [H5.attr]. rewrite IH.
  destruct e as [| |p k v]; [done..|]. cbn [H5.entry_path] in He.
  destruct (String.eqb_spec p path); done.
Qed.

Lemma attr_frame (pre mid post : H5.file A) (path key : string) :
  Forall (fun e => H5.entry_path e <> path) pre ->
  Forall (fun e => H5.entry_path e <> path) post ->
  H5.attr (pre ++ mid ++ post) path key = H5.attr mid path key.
Proof.
  intros Hpre Hpost. rewrite !attr_app, (attr_other_path post), (attr_other_path pre) by done.
  by destruct (H5.attr mid path key).
Qed.

Lemma forall_path_ne (q p : string) (w : H5.file A) :
  q <> p -> Forall (fun e => H5.entry_path e = q) w ->
  Forall (fun e => H5.entry_path e <> p) w.
Proof. intros Hqp Hw. apply (Forall_impl _ _ _ Hw). by intros e ->. Qed.

Lemma forall_top_ne (t p : string) (w : H5.file A) :
  H5.first_component p <> t -> Forall (fun e => H5.top_level e = t) w ->
  Forall (fun e => H5.entry_path e <> p) w.
Proof.
  intros Htp Hw. apply (Forall_impl _ _ _ Hw). intros e He Hp. apply Htp.
  by rewrite <- Hp.
Qed.

Lemma attr_entries_path (path : string) (kvs : list (string * H5.attr_value)) :
  Forall (fun e : H5.entry A => H5.entry_path e = path) (attr_entries path kvs).
Proof. unfold attr_entries. apply Forall_fmap, Forall_true. done. Qed.

Lemma level_entries_top (compression : string) (compression_level first : nat)
    (levels : list (ndarray A)) :
  Forall (fun e => H5.top_level e = "ImageData"%string)
    (level_entries compression compression_level first levels).
Proof.
  apply Forall_forall. intros e He. unfold level_entries in He.
  apply elem_of_lookup_imap_1 in He as (i & a & -> & _). reflexivity.
Qed.

Lemma dimension_entries_top (T C Z Y X : nat) :
  Forall (fun e : H5.entry A => H5.entry_path e = "Metadata"%string \/
                                H5.entry_path e = "Metadata/Dimensions"%string)
    (dimension_entries T C Z Y X).
Proof.
  unfold dimension_entries, attr_entries. cbn [app map].
  repeat (apply Forall_cons; split; [cbn [H5.entry_path]; auto|]). constructor.
Qed.

Lemma physical_size_entries_path (metadata : metadata_t) :
  Forall (fun e : H5.entry A => H5.entry_path e = "Metadata/PhysicalSize"%string)
    (physical_size_entries metadata).
Proof.
  unfold physical_size_entries. destruct (physical_size metadata); [|constructor].
  constructor; [done | apply attr_entries_path].
Qed.

Lemma source_entries_path (metadata : metadata_t) :
  Forall (fun e : H5.entry A => H5.entry_path e = "Metadata/Source"%string)
    (source_entries now metadata).
Proof. constructor; [done | apply attr_entries_path]. Qed.

Lemma channel_entries_path (metadata : metadata_t) :
  Forall (fun e : H5.entry A => H5.entry_path e = "Metadata/Channels"%string)
    (channel_entries metadata).
Proof.
  unfold channel_entries. destruct (channel_names metadata) as [[|n names]|];
    [constructor| |constructor].
  constructor; [done | apply attr_entries_path].
Qed.

Lemma provenance_entries_top (metadata : metadata_t) :
  Forall (fun e : H5.entry A => H5.top_level e = "Provenance"%string)
    (provenance_entries now metadata).
Proof. unfold provenance_entries, attr_entries. repeat constructor. Qed.

Lemma schema_stamp_path :
  Forall (fun e : H5.entry A => H5.entry_path e = "/"%string) schema_stamp.
Proof. repeat constructor. Qed.

(** The container in blocks, to read a group's attributes from. *)
Lemma univ_entries_blocks (compression : string) (compression_level : nat)
    (metadata : metadata_t) (image_data : ndarray A) (levels : list (ndarray A))
    (thumbnail : ndarray A) (T C Z Y X : nat) :
  univ_entries now compression compression_level metadata image_data levels
    thumbnail T C Z Y X =
  (base_entry compression compression_level image_data
   :: level_entries compression compression_level 1 levels ++ [thumbnail_entry thumbnail])
  ++ dimension_entries T C Z Y X
  ++ physical_size_entries metadata
  ++ source_entries now metadata
  ++ channel_entries metadata
  ++ provenance_entries now metadata
  ++ schema_stamp.
Proof.
  unfold univ_entries, metadata_entries. cbn [app]. by rewrite <- !app_assoc.
Qed.

Lemma image_entries_top (compression : string) (compression_level : nat)
    (image_data : ndarray A) (levels : list (ndarray A)) (thumbnail : ndarray A) :
  Forall (fun e => H5.top_level e = "ImageData"%string \/
                   H5.top_level e = "Thumbnail"%string)
    (base_entry compression compression_level image_data
     :: level_entries compression compression_level 1 levels ++ [thumbnail_entry thumbnail]).
Proof.
  constructor; [by left|]. apply Forall_app. split.
  - apply (Forall_impl _ _ _ (level_entries_top _ _ _ _)). by left.
  - constructor; [by right | constructor].
Qed.

End ContainerContents.

(** Goals [Forall (fun e => H5.entry_path e <> p) w] for a part [w] of a
    container and a path [p] written out. *)
Ltac other_paths :=
  repeat first
    [ apply Forall_nil_2
    | match goal with |- Forall _ (_ ++ _) => apply Forall_app; split end
    | apply (forall_path_ne "Metadata/PhysicalSize"); [discriminate | apply physical_size_entries_path]
    | apply (forall_path_ne "Metadata/Source"); [discriminate | apply source_entries_path]
    | apply (forall_path_ne "Metadata/Channels"); [discriminate | apply channel_entries_path]
    | apply (forall_path_ne "/"); [discriminate | apply schema_stamp_path]
    | apply (forall_top_ne "Provenance"); [cbv; discriminate | apply provenance_entries_top]
    | apply (Forall_impl _ _ _ (dimension_entries_top _ _ _ _ _));
      intros ? [-> | ->]; discriminate
    | apply (Forall_impl _ _ _ (image_entries_top _ _ _ _ _));
      let H := fresh in intros ? [H | H] ?;
      match goal with Hp : H5.entry_path _ = _ |- _ =>
        unfold H5.top_level in H; rewrite Hp in H; cbv in H; discriminate H end ].

Section ContainerAttributes.

Context {A : Type}.
Variable now : nat -> string.

Local Open Scope nat_scope.

Lemma univ_attr_dimensions (compression : string) (compression_level : nat)
    (metadata : metadata_t) (image_data : ndarray A) (levels : list (ndarray A))
    (thumbnail : ndarray A) (T C Z Y X : nat) (key : string) :
  H5.attr (univ_entries now compression compression_level metadata image_data levels
             thumbnail T C Z Y X) "Metadata/Dimensions" key =
  H5.attr (dimension_entries (A := A) T C Z Y X) "Metadata/Dimensions" key.
Proof. rewrite univ_entries_blocks. apply attr_frame; other_paths. Qed.

Lemma univ_attr_source (compression : string) (compression_level : nat)
    (metadata : metadata_t) (image_data : ndarray A) (levels : list (ndarray A))
    (thumbnail : ndarray A) (T C Z Y X : nat) (key : string) :
  H5.attr (univ_entries now compression compression_level metadata image_data levels
             thumbnail T C Z Y X) "Metadata/Source" key =
  H5.attr (source_entries (A := A) now metadata) "Metadata/Source" key.
Proof.
  rewrite univ_entries_blocks.
  rewrite (app_assoc (dimension_entries T C Z Y X)), app_assoc.
  apply attr_frame; other_paths.
Qed.

Lemma univ_attr_channels (compression : string) (compression_level : nat)
    (metadata : metadata_t) (image_data : ndarray A) (levels : list (ndarray A))
    (thumbnail : ndarray A) (T C Z Y X : nat) (key : string) :
  H5.attr (univ_entries now compression compression_level metadata image_data levels
             thumbnail T C Z Y X) "Metadata/Channels" key =
  H5.attr (channel_entries (A := A) metadata) "Metadata/Channels" key.
Proof.
  rewrite univ_entries_blocks.
  rewrite (app_assoc (physical_size_entries metadata)),
    (app_assoc (dimension_entries T C Z Y X)), app_assoc.
  apply attr_frame; other_paths.
Qed.

Lemma univ_attr_provenance (compression : string) (compression_level : nat)
    (metadata : metadata_t) (image_data : ndarray A) (levels : list (ndarray A))
    (thumbnail : ndarray A) (T C Z Y X : nat) (key : string) :
  H5.attr (univ_entries now compression compression_level metadata image_data levels
             thumbnail T C Z Y X) "Provenance" key =
  H5.attr (provenance_entries (A := A) now metadata) "Provenance" key.
Proof.
  rewrite univ_entries_blocks.
  rewrite (app_assoc (source_entries now metadata)),
    (app_assoc (physical_size_entries metadata)),
    (app_assoc (dimension_entries T C Z Y X)), app_assoc.
  apply attr_frame; other_paths.
Qed.

(** X9. After a normal return the attributes of Metadata/Dimensions read
    back the extents of the tensor that was written, axis by axis, and the
    order TCZYX. *)
Theorem write_univ_dimensions (output_path : string) (image_data : ndarray A)
    (metadata : metadata_t) (create_pyramid : bool) (compression : string)
    (compression_level : nat) (d d' : FS.fs A) (T C Z Y X : nat) :
  shape image_data = [T; C; Z; Y; X] ->
  _write_univ now output_path image_data metadata create_pyramid compression
    compression_level d = (d', Ok tt) ->
  exists f,
    d' !! output_path = Some (FS.H5File f) /\
    H5.attr f "Metadata/Dimensions" "SizeT" = Some (H5.AInt T) /\
    H5.attr f "Metadata/Dimensions" "SizeC" = Some (H5.AInt C) /\
    H5.attr f "Metadata/Dimensions" "SizeZ" = Some (H5.AInt Z) /\
    H5.attr f "Metadata/Dimensions" "SizeY" = Some (H5.AInt Y) /\
    H5.attr f "Metadata/Dimensions" "SizeX" = Some (H5.AInt X) /\
    H5.attr f "Metadata/Dimensions" "DimensionOrder" = Some (H5.AStr "TCZYX").
Proof.
  intros Hshape Hrun.
  destruct (write_univ_contents now _ _ _ _ _ _ _ _ T C Z Y X Hshape Hrun)
    as (levels & thumbnail & -> & _).
  eexists. split; [apply lookup_insert_eq|].
  rewrite !univ_attr_dimensions. repeat split; reflexivity.
Qed.

(** X10. After a normal return the name of the source file is recorded
    three times and the same each time: as OriginalFile of Metadata/Source,
    as source_file of Provenance and as the source of the conversion
    history; it is "unknown" when the metadata give none. The format
    recorded is the one of the metadata, "VSI" when they give none. *)
Theorem write_univ_source_recorded (output_path : string) (image_data : ndarray A)
    (metadata : metadata_t) (create_pyramid : bool) (compression : string)
    (compression_level : nat) (d d' : FS.fs A) (T C Z Y X : nat) :
  shape image_data = [T; C; Z; Y; X] ->
  _write_univ now output_path image_data metadata create_pyramid compression
    compression_level d = (d', Ok tt) ->
  exists f source timestamp,
    d' !! output_path = Some (FS.H5File f) /\
    source = default "unknown"%string (source_file metadata) /\
    H5.attr f "Metadata/Source" "OriginalFile" = Some (H5.AStr source) /\
    H5.attr f "Metadata/Source" "OriginalFormat"
      = Some (H5.AStr (default "VSI"%string (file_format metadata))) /\
    H5.attr f "Provenance" "source_file" = Some (H5.AStr source) /\
    H5.Dataset "Provenance/conversion_history"
      (H5.JsonText [("conversion_tool"%string, "vsi_to_univ.py"%string);
                    ("timestamp"%string, timestamp);
                    ("source"%string, source)])
      (H5.mk_options None None None) ∈ f.
Proof.
  intros Hshape Hrun.
  destruct (write_univ_contents now _ _ _ _ _ _ _ _ T C Z Y X Hshape Hrun)
    as (levels & thumbnail & -> & _).
  eexists _, _, (now 2). split; [apply lookup_insert_eq|]. split; [reflexivity|].
  rewrite !univ_attr_source, univ_attr_provenance.
  split; [reflexivity|]. split; [reflexivity|]. split; [reflexivity|].
  rewrite univ_entries_blocks, !elem_of_app. do 5 right. left.
  unfold provenance_entries. apply elem_of_app. right. apply list_elem_of_singleton.
  reflexivity.
Qed.

(** The attributes of the channel names, numbered from [first]. *)
Lemma attr_channel_absent (names : list string) :
  forall first k : nat,
    k < first ->
    H5.attr (attr_entries (A := A) "Metadata/Channels"
               (imap (fun i nm => (String.append "Channel_" (pretty (first + i)), H5.AStr nm))
                     names))
      "Metadata/Channels" (String.append "Channel_" (pretty k)) = None.
Proof.
  induction names as [|n names IH]; intros first k Hk; [reflexivity|].
  rewrite imap_cons. cbn [attr_entries map fst snd H5.attr].
  rewrite (imap_ext _ (fun i nm => (String.append "Channel_" (pretty (S first + i)),
                                    H5.AStr nm)))
    by (intros i x _; cbn; by rewrite Nat.add_succ_r).
  fold (attr_entries (A := A) "Metadata/Channels"
          (imap (fun i nm => (String.append "Channel_" (pretty (S first + i)), H5.AStr nm))
                names)).
  rewrite IH by lia. cbn [andb String.eqb Ascii.eqb Bool.eqb].
  destruct (String.eqb_spec (String.append "Channel_" (pretty (first + 0)))
              (String.append "Channel_" (pretty k))) as [E|_]; [|reflexivity].
  apply (inj (String.append "Channel_")) in E. apply (inj pretty) in E. lia.
Qed.

Lemma attr_channel_lookup (names : list string) :
  forall (first i : nat) (nm : string),
    names !! i = Some nm ->
    H5.attr (attr_entries (A := A) "Metadata/Channels"
               (imap (fun i nm => (String.append "Channel_" (pretty (first + i)), H5.AStr nm))
                     names))
      "Metadata/Channels" (String.append "Channel_" (pretty (first + i)))
    = Some (H5.AStr nm).
Proof.
  induction names as [|n names IH]; intros first i nm Hi; [done|].
  rewrite imap_cons. cbn [attr_entries map fst snd H5.attr].
  rewrite (imap_ext _ (fun i nm => (String.append "Channel_" (pretty (S first + i)),
                                    H5.AStr nm)))
    by (intros j x _; cbn; by rewrite Nat.add_succ_r).
  fold (attr_entries (A := A) "Metadata/Channels"
          (imap (fun i nm => (String.append "Channel_" (pretty (S first + i)), H5.AStr nm))
                names)).
  destruct i as [|i].
  - injection Hi as ->. rewrite attr_channel_absent by lia.
    cbn [andb String.eqb Ascii.eqb Bool.eqb]. by rewrite String.eqb_refl.
  - cbn [lookup list_lookup] in Hi.
    replace (first + S i) with (S first + i) by lia. by rewrite (IH (S first) i nm Hi).
Qed.

(** X11. After a normal return the channel names read back: name i of a
    list that is not empty is the attribute Channel_i of Metadata/Channels;
    without names, or with an empty list, the group is not created. *)
Theorem write_univ_channels (output_path : string) (image_data : ndarray A)
    (metadata : metadata_t) (create_pyramid : bool) (compression : string)
    (compression_level : nat) (d d' : FS.fs A) (T C Z Y X : nat) :
  shape image_data = [T; C; Z; Y; X] ->
  _write_univ now output_path image_data metadata create_pyramid compression
    compression_level d = (d', Ok tt) ->
  exists f,
    d' !! output_path = Some (FS.H5File f) /\
    match channel_names metadata with
    | Some (n :: names) =>
        H5.Group "Metadata/Channels" ∈ f /\
        forall i nm, (n :: names) !! i = Some nm ->
          H5.attr f "Metadata/Channels" (String.append "Channel_" (pretty i))
          = Some (H5.AStr nm)
    | _ => Forall (fun e => H5.entry_path e <> "Metadata/Channels"%string) f
    end.
Proof.
  intros Hshape Hrun.
  destruct (write_univ_contents now _ _ _ _ _ _ _ _ T C Z Y X Hshape Hrun)
    as (levels & thumbnail & -> & _).
  eexists. split; [apply lookup_insert_eq|].
  assert (forall names, channel_names metadata = Some names \/ channel_names metadata = None ->
            names = [] ->
            Forall (fun e : H5.entry A => H5.entry_path e <> "Metadata/Channels"%string)
              (univ_entries now compression compression_level metadata image_data levels
                 thumbnail T C Z Y X)) as Hnone.
  { intros names Hnames ->. rewrite univ_entries_blocks.
    assert (channel_entries (A := A) metadata = []) as ->
      by (unfold channel_entries; by destruct Hnames as [-> | ->]).
    other_paths. }
  destruct (channel_names metadata) as [[|n names]|] eqn:Hch.
  - apply (Hnone []); auto.
  - split.
    + rewrite univ_entries_blocks, !elem_of_app. do 4 right. left.
      unfold channel_entries. rewrite Hch. apply list_elem_of_here.
    + intros i nm Hi. rewrite univ_attr_channels. unfold channel_entries. rewrite Hch.
      cbn [H5.attr].
      pose proof (attr_channel_lookup (n :: names) 0 i nm Hi) as Hread.
      cbn [Nat.add] in Hread. rewrite Hread. reflexivity.
  - apply (Hnone []); auto.
Qed.

End ContainerAttributes.

Lemma sample_run_returns :
  _write_univ sample_now "out.univ" sample_tensor sample_metadata true "gzip" 4 ∅
  = (fst sample_run, Ok tt).
Proof. vm_compute. reflexivity. Qed.

Lemma write_univ_returns_only_if_witness :
  size sample_tensor <> 0 /\
  (0 < 1 /\ 0 < 3 /\ 0 < 1 /\ 0 < 600 /\ 0 < 700) /\
  exists step, thumbnail_step 600 700 = Ok step.
Proof.
  apply (write_univ_returns_only_if sample_now "out.univ" sample_tensor sample_metadata
           true "gzip" 4 ∅ (fst sample_run) 1 3 1 600 700).
  - reflexivity.
  - apply sample_run_returns.
Defined.

Lemma write_univ_dimensions_witness :
  exists f,
    fst sample_run !! "out.univ"%string = Some (FS.H5File f) /\
    H5.attr f "Metadata/Dimensions" "SizeT" = Some (H5.AInt 1) /\
    H5.attr f "Metadata/Dimensions" "SizeC" = Some (H5.AInt 3) /\
    H5.attr f "Metadata/Dimensions" "SizeZ" = Some (H5.AInt 1) /\
    H5.attr f "Metadata/Dimensions" "SizeY" = Some (H5.AInt 600) /\
    H5.attr f "Metadata/Dimensions" "SizeX" = Some (H5.AInt 700) /\
    H5.attr f "Metadata/Dimensions" "DimensionOrder" = Some (H5.AStr "TCZYX").
Proof.
  apply (write_univ_dimensions sample_now "out.univ" sample_tensor sample_metadata
           true "gzip" 4 ∅ (fst sample_run) 1 3 1 600 700).
  - reflexivity.
  - apply sample_run_returns.
Defined.

Lemma write_univ_source_recorded_witness :
  exists f source timestamp,
    fst sample_run !! "out.univ"%string = Some (FS.H5File f) /\
    source = default "unknown"%string (source_file sample_metadata) /\
    H5.attr f "Metadata/Source" "OriginalFile" = Some (H5.AStr source) /\
    H5.attr f "Metadata/Source" "OriginalFormat"
      = Some (H5.AStr (default "VSI"%string (file_format sample_metadata))) /\
    H5.attr f "Provenance" "source_file" = Some (H5.AStr source) /\
    H5.Dataset "Provenance/conversion_history"
      (H5.JsonText [("conversion_tool"%string, "vsi_to_univ.py"%string);
                    ("timestamp"%string, timestamp);
                    ("source"%string, source)])
      (H5.mk_options None None None) ∈ f.
Proof.
  apply (write_univ_source_recorded sample_now "out.univ" sample_tensor sample_metadata
           true "gzip" 4 ∅ (fst sample_run) 1 3 1 600 700).
  - reflexivity.
  - apply sample_run_returns.
Defined.

Lemma write_univ_channels_witness :
  exists f,
    fst sample_run !! "out.univ"%string = Some (FS.H5File f) /\
    match channel_names sample_metadata with
    | Some (n :: names) =>
        H5.Group "Metadata/Channels" ∈ f /\
        forall i nm, (n :: names) !! i = Some nm ->
          H5.attr f "Metadata/Channels" (String.append "Channel_" (pretty i))
          = Some (H5.AStr nm)
    | _ => Forall (fun e => H5.entry_path e <> "Metadata/Channels"%string) f
    end.
Proof.
  apply (write_univ_channels sample_now "out.univ" sample_tensor sample_metadata
           true "gzip" 4 ∅ (fst sample_run) 1 3 1 600 700).
  - reflexivity.
  - apply sample_run_returns.
Defined.

(** ** The objects of a container *)

Section ContainerObjects.

Context {A : Type}.
Variable now : nat -> string.

Local Open Scope nat_scope.

Lemma object_paths_attr_entries (path : string) (kvs : list (string * H5.attr_value)) :
  object_paths (attr_entries (A := A) path kvs) = [].
Proof. induction kvs as [|kv kvs IH]; [reflexivity | exact IH]. Qed.

Lemma object_paths_objects (w : H5.file A) :
  Forall (fun e => match e with H5.Attr _ _ _ => False | _ => True end) w ->
  object_paths w = map H5.entry_path w.
Proof.
  unfold object_paths. induction 1 as [|e w He _ IH]; [reflexivity|].
  destruct e; [| |done]; simpl; f_equal; exact IH.
Qed.

Lemma object_paths_level_entries (compression : string) (compression_level first : nat)
    (levels : list (ndarray A)) :
  object_paths (level_entries compression compression_level first levels) =
  map (fun k => String.append "ImageData/Resolution_" (pretty k))
      (seq first (length levels)).
Proof.
  rewrite <- (level_entries_paths compression compression_level).
  apply object_paths_objects.
  apply Forall_forall. intros e He. unfold level_entries in He.
  by apply elem_of_lookup_imap_1 in He as (i & a & -> & _).
Qed.

Lemma object_paths_app (w1 w2 : H5.file A) :
  object_paths (w1 ++ w2) = object_paths w1 ++ object_paths w2.
Proof. apply omap_app. Qed.

Lemma object_paths_group (path : string) (kvs : list (string * H5.attr_value)) :
  object_paths (H5.Group path :: attr_entries (A := A) path kvs) = [path].
Proof.
  change (H5.Group path :: attr_entries (A := A) path kvs)
    with ([H5.Group path] ++ attr_entries (A := A) path kvs).
  by rewrite object_paths_app, object_paths_attr_entries.
Qed.

(** The groups and datasets of a complete container. *)
Lemma object_paths_univ (compression : string) (compression_level : nat)
    (metadata : metadata_t) (image_data : ndarray A) (levels : list (ndarray A))
    (thumbnail : ndarray A) (T C Z Y X : nat) :
  object_paths (univ_entries now compression compression_level metadata image_data
                  levels thumbnail T C Z Y X) =
  map (fun k => String.append "ImageData/Resolution_" (pretty k))
      (seq 0 (S (length levels)))
  ++ ["Thumbnail"; "Metadata"; "Metadata/Dimensions"]%string
  ++ match physical_size metadata with
     | Some _ => ["Metadata/PhysicalSize"%string]
     | None => []
     end
  ++ ["Metadata/Source"%string]
  ++ match channel_names metadata with
     | Some (_ :: _) => ["Metadata/Channels"%string]
     | _ => []
     end
  ++ ["Provenance"; "Provenance/conversion_history"]%string.
Proof.
  rewrite univ_entries_blocks, !object_paths_app.
  assert (object_paths (base_entry compression compression_level image_data
                        :: level_entries compression compression_level 1 levels
                        ++ [thumbnail_entry thumbnail])
          = map (fun k => String.append "ImageData/Resolution_" (pretty k))
                (seq 0 (S (length levels))) ++ ["Thumbnail"%string]) as ->.
  { change (base_entry compression compression_level image_data
            :: level_entries compression compression_level 1 levels
            ++ [thumbnail_entry thumbnail])
      with ([base_entry compression compression_level image_data]
            ++ level_entries compression compression_level 1 levels
            ++ [thumbnail_entry thumbnail]).
    rewrite !object_paths_app, object_paths_level_entries. reflexivity. }
  assert (object_paths (dimension_entries (A := A) T C Z Y X)
          = ["Metadata"; "Metadata/Dimensions"]%string) as -> by reflexivity.
  assert (object_paths (physical_size_entries (A := A) metadata)
          = match physical_size metadata with
            | Some _ => ["Metadata/PhysicalSize"%string]
            | None => []
            end) as ->.
  { unfold physical_size_entries. destruct (physical_size metadata); [|reflexivity].
    apply object_paths_group. }
  assert (object_paths (source_entries (A := A) now metadata)
          = ["Metadata/Source"%string]) as -> by apply object_paths_group.
  assert (object_paths (channel_entries (A := A) metadata)
          = match channel_names metadata with
            | Some (_ :: _) => ["Metadata/Channels"%string]
            | _ => []
            end) as ->.
  { unfold channel_entries. destruct (channel_names metadata) as [[|n names]|];
      [reflexivity| |reflexivity].
    apply object_paths_group. }
  assert (object_paths (provenance_entries (A := A) now metadata)
          = ["Provenance"; "Provenance/conversion_history"]%string) as -> by reflexivity.
  assert (object_paths (schema_stamp (A := A)) = []) as -> by reflexivity.
  rewrite <- !app_assoc, app_nil_r. reflexivity.
Qed.

(** X12. A complete container has no two groups or datasets of the same
    name: every request the writer makes of h5py is for a name that is
    still free. *)
Theorem write_univ_names_distinct (output_path : string) (image_data : ndarray A)
    (metadata : metadata_t) (create_pyramid : bool) (compression : string)
    (compression_level : nat) (d d' : FS.fs A) (T C Z Y X : nat) :
  shape image_data = [T; C; Z; Y; X] ->
  _write_univ now output_path image_data metadata create_pyramid compression
    compression_level d = (d', Ok tt) ->
  exists f,
    d' !! output_path = Some (FS.H5File f) /\ NoDup (object_paths f).
Proof.
  intros Hshape Hrun.
  destruct (write_univ_contents now _ _ _ _ _ _ _ _ T C Z Y X Hshape Hrun)
    as (levels & thumbnail & -> & _).
  eexists. split; [apply lookup_insert_eq|].
  rewrite object_paths_univ. apply NoDup_app. split; [|split].
  - assert (Inj (=) (=) (fun k : nat => String.append "ImageData/Resolution_" (pretty k)))
      as Hinj.
    { intros j k Hjk. apply (inj (String.append "ImageData/Resolution_")) in Hjk.
      by apply (inj pretty). }
    apply (NoDup_fmap_2 _ _ (NoDup_seq 0 (S (length levels)))).
  - intros x Hx Hin. apply list_elem_of_fmap in Hx as (k & -> & _).
    destruct (physical_size metadata);
      destruct (channel_names metadata) as [[|n names]|]; cbn [app] in Hin;
      repeat (apply elem_of_cons in Hin as [Hin|Hin]; [discriminate Hin|]);
      by apply elem_of_nil in Hin.
  - destruct (physical_size metadata);
      destruct (channel_names metadata) as [[|n names]|]; cbn [app];
      repeat (apply NoDup_cons; split;
              [rewrite ?elem_of_cons, elem_of_nil; intros Hin;
               repeat (destruct Hin as [Hin|Hin]; [discriminate Hin|]); done|]);
      apply NoDup_nil_2.
Qed.

End ContainerObjects.

Lemma write_univ_names_distinct_witness :
  exists f,
    fst sample_run !! "out.univ"%string = Some (FS.H5File f) /\ NoDup (object_paths f).
Proof.
  apply (write_univ_names_distinct sample_now "out.univ" sample_tensor sample_metadata
           true "gzip" 4 ∅ (fst sample_run) 1 3 1 600 700).
  - reflexivity.
  - apply sample_run_returns.
Defined.

(** ** The levels of a container *)

Section ContainerLevels.

Context {A : Type}.
Variable now : nat -> string.

Local Open Scope nat_scope.

Lemma strided_strided (n a b : nat) :
  0 < a -> 0 < b -> strided (strided n a) b = strided n (a * b).
Proof.
  intros Ha Hb.
  assert (forall i, i < strided (strided n a) b <-> i < strided n (a * b)) as H.
  { intros i. rewrite (strided_spec _ b) by done. rewrite (strided_spec _ a) by done.
    rewrite (strided_spec _ (a * b)) by lia. by rewrite Nat.mul_assoc. }
  pose proof (H (strided (strided n a) b)). pose proof (H (strided n (a * b))). lia.
Qed.

(** Level i + 1 of a pyramid is its base at stride 2^(i+1). *)
Lemma pyramid_chain_power (levels : list (ndarray A)) :
  forall (cur : ndarray A) (T C Z Y X : nat),
    shape cur = [T; C; Z; Y; X] ->
    pyramid_chain cur levels ->
    forall i a, levels !! i = Some a ->
      shape a = [T; C; Z; strided Y (2 ^ S i); strided X (2 ^ S i)] /\
      forall t c z y x,
        item a [t; c; z; y; x] = item cur [t; c; z; 2 ^ S i * y; 2 ^ S i * x].
Proof.
  induction levels as [|next rest IH]; intros cur T C Z Y X Hshape Hchain i a Hi; [done|].
  destruct Hchain as (_ & Hdec & Hrest).
  destruct Hdec as (T' & C' & Z' & Y' & X' & Hc & Hn & Hitem).
  rewrite Hshape in Hc. injection Hc as <- <- <- <- <-.
  destruct i as [|i].
  - injection Hi as <-. change (2 ^ 1) with 2. rewrite !strided_2. done.
  - cbn [lookup list_lookup] in Hi.
    destruct (IH next T C Z _ _ Hn Hrest i a Hi) as [Ha Hitems].
    assert (0 < 2 ^ S i) as Hpos by (apply Nat.neq_0_lt_0, Nat.pow_nonzero; lia).
    rewrite <- !strided_2, !strided_strided in Ha by lia.
    rewrite (Nat.pow_succ_r' 2 (S i)). split; [done|].
    intros t c z y x. by rewrite Hitems, Hitem, !Nat.mul_assoc.
Qed.

(** The arrays a complete container holds. *)
Lemma univ_entries_array (compression : string) (compression_level : nat)
    (metadata : metadata_t) (image_data : ndarray A) (levels : list (ndarray A))
    (thumbnail : ndarray A) (T C Z Y X : nat) (p : string) (a : ndarray A)
    (opts : H5.options) :
  H5.Dataset p (H5.Array a) opts
    ∈ univ_entries now compression compression_level metadata image_data levels
        thumbnail T C Z Y X ->
  (p = "ImageData/Resolution_0"%string /\ a = image_data) \/
  (exists i, levels !! i = Some a /\
             p = String.append "ImageData/Resolution_" (pretty (S i))) \/
  (p = "Thumbnail"%string /\ a = thumbnail).
Proof.
  rewrite univ_entries_blocks, app_comm_cons, !elem_of_app, elem_of_cons.
  intros [[[Hin|Hin]|Hin]|[Hin|[Hin|[Hin|[Hin|[Hin|Hin]]]]]].
  - left. unfold base_entry in Hin. by injection Hin as -> ->.
  - right. left. unfold level_entries in Hin.
    apply elem_of_lookup_imap_1 in Hin as (i & b & Heq & Hb).
    injection Heq as -> -> _. by exists i.
  - right. right. apply list_elem_of_singleton in Hin. by injection Hin as -> ->.
  - unfold dimension_entries, attr_entries in Hin. cbn [app map] in Hin.
    repeat (apply elem_of_cons in Hin as [Hin|Hin]; [discriminate Hin|]).
    by apply elem_of_nil in Hin.
  - unfold physical_size_entries in Hin. destruct (physical_size metadata).
    + apply elem_of_cons in Hin as [Hin|Hin]; [discriminate Hin|].
      apply list_elem_of_fmap in Hin as (kv & Hkv & _). discriminate Hkv.
    + by apply elem_of_nil in Hin.
  - unfold source_entries in Hin.
    apply elem_of_cons in Hin as [Hin|Hin]; [discriminate Hin|].
    apply list_elem_of_fmap in Hin as (kv & Hkv & _). discriminate Hkv.
  - unfold channel_entries in Hin.
    destruct (channel_names metadata) as [[|n names]|];
      [by apply elem_of_nil in Hin| |by apply elem_of_nil in Hin].
    apply elem_of_cons in Hin as [Hin|Hin]; [discriminate Hin|].
    apply list_elem_of_fmap in Hin as (kv & Hkv & _). discriminate Hkv.
  - unfold provenance_entries, attr_entries in Hin. cbn [app map] in Hin.
    repeat (apply elem_of_cons in Hin as [Hin|Hin]; [discriminate Hin|]).
    by apply elem_of_nil in Hin.
  - unfold schema_stamp in Hin.
    repeat (apply elem_of_cons in Hin as [Hin|Hin]; [discriminate Hin|]).
    by apply elem_of_nil in Hin.
Qed.

(** X13. In a complete container the dataset ImageData/Resolution_k is the
    tensor that was written, taken at every 2^k-th row and column: its
    shape is (T, C, Z, ceil(Y / 2^k), ceil(X / 2^k)) and its element at
    (t, c, z, y, x) is the element of the tensor at (t, c, z, 2^k y, 2^k x). *)
Theorem write_univ_level_contents (output_path : string) (image_data : ndarray A)
    (metadata : metadata_t) (create_pyramid : bool) (compression : string)
    (compression_level : nat) (d d' : FS.fs A) (T C Z Y X : nat) :
  shape image_data = [T; C; Z; Y; X] ->
  _write_univ now output_path image_data metadata create_pyramid compression
    compression_level d = (d', Ok tt) ->
  exists f,
    d' !! output_path = Some (FS.H5File f) /\
    forall k a opts,
      H5.Dataset (String.append "ImageData/Resolution_" (pretty k)) (H5.Array a) opts ∈ f ->
      shape a = [T; C; Z; strided Y (2 ^ k); strided X (2 ^ k)] /\
      (forall i, i < strided Y (2 ^ k) <-> 2 ^ k * i < Y) /\
      (forall i, i < strided X (2 ^ k) <-> 2 ^ k * i < X) /\
      forall t c z y x,
        item a [t; c; z; y; x] = item image_data [t; c; z; 2 ^ k * y; 2 ^ k * x].
Proof.
  intros Hshape Hrun.
  destruct (write_univ_contents now _ _ _ _ _ _ _ _ T C Z Y X Hshape Hrun)
    as (levels & thumbnail & -> & _ & _ & Hlevels).
  eexists. split; [apply lookup_insert_eq|].
  intros k a opts Hin.
  assert (0 < 2 ^ k) as Hpos by (apply Nat.neq_0_lt_0, Nat.pow_nonzero; lia).
  split; [|split; [intros i; by apply strided_spec|
                   split; [intros i; by apply strided_spec|]]];
    apply univ_entries_array in Hin as [[Hp ->]|[(i & Hi & Hp)|[Hp _]]].
  - apply (inj (String.append "ImageData/Resolution_") _ "0"%string) in Hp.
    assert (k = 0) as -> by (apply (inj pretty); exact Hp). change (2 ^ 0) with 1.
    unfold strided. by rewrite !Nat.add_sub, !Nat.div_1_r.
  - apply (inj (String.append "ImageData/Resolution_")), (inj pretty) in Hp as ->.
    destruct (create_pyramid && (512 <? Nat.min Y X)); [|by subst levels].
    by destruct (pyramid_chain_power levels image_data T C Z Y X Hshape Hlevels i a Hi).
  - discriminate Hp.
  - apply (inj (String.append "ImageData/Resolution_") _ "0"%string) in Hp.
    assert (k = 0) as -> by (apply (inj pretty); exact Hp). intros t c z y x.
    change (2 ^ 0) with 1. by rewrite !Nat.mul_1_l.
  - apply (inj (String.append "ImageData/Resolution_")), (inj pretty) in Hp as ->.
    destruct (create_pyramid && (512 <? Nat.min Y X)); [|by subst levels].
    by destruct (pyramid_chain_power levels image_data T C Z Y X Hshape Hlevels i a Hi).
  - discriminate Hp.
Qed.

End ContainerLevels.

Lemma write_univ_level_contents_witness :
  exists f,
    fst sample_run !! "out.univ"%string = Some (FS.H5File f) /\
    forall k a opts,
      H5.Dataset (String.append "ImageData/Resolution_" (pretty k)) (H5.Array a) opts ∈ f ->
      shape a = [1; 3; 1; strided 600 (2 ^ k); strided 700 (2 ^ k)] /\
      (forall i, i < strided 600 (2 ^ k) <-> 2 ^ k * i < 600) /\
      (forall i, i < strided 700 (2 ^ k) <-> 2 ^ k * i < 700) /\
      forall t c z y x,
        item a [t; c; z; y; x] = item sample_tensor [t; c; z; 2 ^ k * y; 2 ^ k * x].
Proof.
  apply (write_univ_level_contents sample_now "out.univ" sample_tensor sample_metadata
           true "gzip" 4 ∅ (fst sample_run) 1 3 1 600 700).
  - reflexivity.
  - apply sample_run_returns.
Defined.

(** ** Chunk shapes *)

Section ContainerChunks.

Context {A : Type}.
Variable now : nat -> string.

Local Open Scope nat_scope.

Lemma comp_opts_chunks (compression : string) (compression_level : nat)
    (chunk_size : list nat) :
  H5.chunks (comp_opts compression compression_level chunk_size) = Some chunk_size.
Proof. unfold comp_opts. by destruct (String.eqb compression "none"). Qed.

(** The requests behind the arrays of a complete container. *)
Lemma univ_entries_request (compression : string) (compression_level : nat)
    (metadata : metadata_t) (image_data : ndarray A) (levels : list (ndarray A))
    (thumbnail : ndarray A) (T C Z Y X : nat) (p : string) (a : ndarray A)
    (opts : H5.options) :
  H5.Dataset p (H5.Array a) opts
    ∈ univ_entries now compression compression_level metadata image_data levels
        thumbnail T C Z Y X ->
  (p = "ImageData/Resolution_0"%string /\ a = image_data /\
   H5.chunks opts = Some [1; 1; Nat.min 5 (nth 2 (shape image_data) 0);
                          Nat.min 512 (nth 3 (shape image_data) 0);
                          Nat.min 512 (nth 4 (shape image_data) 0)]) \/
  (exists i, levels !! i = Some a /\
             p = String.append "ImageData/Resolution_" (pretty (S i)) /\
             H5.chunks opts = Some [1; 1; 1; Nat.min 256 (nth 3 (shape a) 0);
                                    Nat.min 256 (nth 4 (shape a) 0)]) \/
  (p = "Thumbnail"%string /\ a = thumbnail /\ H5.chunks opts = None).
Proof.
  rewrite univ_entries_blocks, app_comm_cons, !elem_of_app, elem_of_cons.
  intros [[[Hin|Hin]|Hin]|[Hin|[Hin|[Hin|[Hin|[Hin|Hin]]]]]].
  - left. unfold base_entry in Hin. injection Hin as -> -> ->.
    by rewrite comp_opts_chunks.
  - right. left. unfold level_entries in Hin.
    apply elem_of_lookup_imap_1 in Hin as (i & b & Heq & Hb).
    injection Heq as -> -> ->. exists i. by rewrite comp_opts_chunks.
  - right. right. apply list_elem_of_singleton in Hin. by injection Hin as -> -> ->.
  - unfold dimension_entries, attr_entries in Hin. cbn [app map] in Hin.
    repeat (apply elem_of_cons in Hin as [Hin|Hin]; [discriminate Hin|]).
    by apply elem_of_nil in Hin.
  - unfold physical_size_entries in Hin. destruct (physical_size metadata).
    + apply elem_of_cons in Hin as [Hin|Hin]; [discriminate Hin|].
      apply list_elem_of_fmap in Hin as (kv & Hkv & _). discriminate Hkv.
    + by apply elem_of_nil in Hin.
  - unfold source_entries in Hin.
    apply elem_of_cons in Hin as [Hin|Hin]; [discriminate Hin|].
    apply list_elem_of_fmap in Hin as (kv & Hkv & _). discriminate Hkv.
  - unfold channel_entries in Hin.
    destruct (channel_names metadata) as [[|n names]|];
      [by apply elem_of_nil in Hin| |by apply elem_of_nil in Hin].
    apply elem_of_cons in Hin as [Hin|Hin]; [discriminate Hin|].
    apply list_elem_of_fmap in Hin as (kv & Hkv & _). discriminate Hkv.
  - unfold provenance_entries, attr_entries in Hin. cbn [app map] in Hin.
    repeat (apply elem_of_cons in Hin as [Hin|Hin]; [discriminate Hin|]).
    by apply elem_of_nil in Hin.
  - unfold schema_stamp in Hin.
    repeat (apply elem_of_cons in Hin as [Hin|Hin]; [discriminate Hin|]).
    by apply elem_of_nil in Hin.
Qed.

(** X14. The chunk shapes the writer asks of h5py, read from a complete
    container. An array is asked for with a chunk shape exactly when it is
    a dataset of ImageData: (1, 1, min(5, Z), min(512, Y), min(512, X)) for
    Resolution_0 and (1, 1, 1, min(256, Yk), min(256, Xk)) for a pyramid
    level of extents Yk and Xk; each of these fits its array, every extent
    at least 1 and at most the array's. The one array asked for without a
    chunk shape is the Thumbnail, which h5py lays out as it sees fit. *)
Theorem write_univ_chunk_shapes (output_path : string) (image_data : ndarray A)
    (metadata : metadata_t) (create_pyramid : bool) (compression : string)
    (compression_level : nat) (d d' : FS.fs A) (T C Z Y X : nat) :
  shape image_data = [T; C; Z; Y; X] ->
  _write_univ now output_path image_data metadata create_pyramid compression
    compression_level d = (d', Ok tt) ->
  exists f,
    d' !! output_path = Some (FS.H5File f) /\
    forall p a opts,
      H5.Dataset p (H5.Array a) opts ∈ f ->
      match H5.chunks opts with
      | Some chunk =>
          H5.first_component p = "ImageData"%string /\
          chunk_fits chunk (shape a) /\
          chunk = if String.eqb p "ImageData/Resolution_0"
                  then [1; 1; Nat.min 5 Z; Nat.min 512 Y; Nat.min 512 X]
                  else [1; 1; 1; Nat.min 256 (nth 3 (shape a) 0);
                        Nat.min 256 (nth 4 (shape a) 0)]
      | None => p = "Thumbnail"%string
      end.
Proof.
  intros Hshape Hrun.
  destruct (write_univ_contents now _ _ _ _ _ _ _ _ T C Z Y X Hshape Hrun)
    as (levels & thumbnail & -> & Hsize & _ & Hlevels).
  eexists. split; [apply lookup_insert_eq|].
  intros p a opts Hin.
  apply (size_rank5_pos image_data T C Z Y X Hshape) in Hsize
    as (HT & HC & HZ & HY & HX).
  apply univ_entries_request in Hin
    as [(-> & -> & ->)|[(i & Hi & -> & ->)|(-> & _ & ->)]]; [| |done].
  - rewrite Hshape. cbn [nth]. split; [reflexivity|]. split; [|reflexivity].
    unfold chunk_fits. repeat (apply Forall2_cons; split; [lia|]). constructor.
  - split; [reflexivity|]. split.
    + destruct (create_pyramid && (512 <? Nat.min Y X)); [|by subst levels].
      destruct (pyramid_chain_power levels image_data T C Z Y X Hshape Hlevels i a Hi)
        as [-> _].
      assert (0 < 2 ^ S i) as Hpos by (apply Nat.neq_0_lt_0, Nat.pow_nonzero; lia).
      assert (0 < strided Y (2 ^ S i)) by (apply strided_spec; lia).
      assert (0 < strided X (2 ^ S i)) by (apply strided_spec; lia).
      cbn [nth]. unfold chunk_fits. repeat (apply Forall2_cons; split; [lia|]).
      constructor.
    + destruct (String.eqb_spec (String.append "ImageData/Resolution_" (pretty (S i)))
                  "ImageData/Resolution_0") as [E|_]; [|reflexivity].
      apply (inj (String.append "ImageData/Resolution_") _ "0"%string) in E.
      assert (S i = 0) by (apply (inj pretty); exact E). lia.
Qed.

End ContainerChunks.

Lemma write_univ_chunk_shapes_witness :
  exists f,
    fst sample_run !! "out.univ"%string = Some (FS.H5File f) /\
    forall p a opts,
      H5.Dataset p (H5.Array a) opts ∈ f ->
      match H5.chunks opts with
      | Some chunk =>
          H5.first_component p = "ImageData"%string /\
          chunk_fits chunk (shape a) /\
          chunk = if String.eqb p "ImageData/Resolution_0"
                  then [1; 1; Nat.min 5 1; Nat.min 512 600; Nat.min 512 700]
                  else [1; 1; 1; Nat.min 256 (nth 3 (shape a) 0);
                        Nat.min 256 (nth 4 (shape a) 0)]
      | None => p = "Thumbnail"%string
      end.
Proof.
  apply (write_univ_chunk_shapes sample_now "out.univ" sample_tensor sample_metadata
           true "gzip" 4 ∅ (fst sample_run) 1 3 1 600 700).
  - reflexivity.
  - apply sample_run_returns.
Defined.

(** ** The conversion as a whole *)

Section Conversion.

Context {A : Type}.
Variable now : nat -> string.

Local Open Scope nat_scope.

Lemma normalize_axes_cases (image_data : ndarray A) :
  match normalize_axes image_data with
  | Ok out =>
      2 <= ndim image_data <= 6 /\ size out = size image_data /\
      exists T C Z Y X, shape out = [T; C; Z; Y; X]
  | Raise _ => ndim image_data < 2 \/ 6 < ndim image_data
  end.
Proof.
  unfold normalize_axes, ndim, getitem, transpose, reshape, ndim, size.
  destruct (shape image_data) as [|n0 [|n1 [|n2 [|n3 [|n4 [|n5 [|n6 l]]]]]]] eqn:E;
    simpl length.
  1,2,8: simpl; lia.
  1-3: simpl; split; [lia|]; split; [unfold prod; simpl; lia | by eexists _, _, _, _, _].
  - cbv beta iota. rewrite E. split; [lia|]. split; [done | by eexists _, _, _, _, _].
  - cbv beta iota.
    change (is_permutation [0; 1; 5; 2; 3; 4] 6) with true. cbn [rbind shape map nth].
    assert (prod [n0; n1 * n5; n2; n3; n4] = prod [n0; n1; n5; n2; n3; n4]) as Hp
      by (unfold prod; simpl; lia).
    rewrite Hp, Nat.eqb_refl. cbn [shape]. split; [lia|]. split.
    + rewrite Hp. unfold prod. simpl. lia.
    + by eexists _, _, _, _, _.
Qed.

(** X15. When the scene could not be loaded, or the decoded array has a
    rank below 2 or above 6, [convert] reports failure and has not touched
    the file system: no output file is created. *)
Theorem convert_refuses_without_writing (loaded : option (ndarray A))
    (metadata : metadata_t) (output_path : string) (create_pyramid : bool)
    (compression : string) (compression_level : nat) (d : FS.fs A) :
  match loaded with
  | None => True
  | Some image_data => ndim image_data < 2 \/ 6 < ndim image_data
  end ->
  convert now loaded metadata output_path create_pyramid compression compression_level d
  = (d, false).
Proof.
  unfold convert. destruct loaded as [image_data|]; [|done].
  pose proof (normalize_axes_cases image_data) as Hcases.
  destruct (normalize_axes image_data) as [out|e]; [|done].
  intros Hrank. lia.
Qed.

(** X16. For a decoded array of rank 2 to 6, [convert] opens the output
    file, so that a file is at the output path afterwards whatever it
    reports, and it changes nothing else. When it reports success, the
    array has an element, the step of the thumbnail could be computed, and
    the file is a complete container of the normalised (T, C, Z, Y, X)
    tensor. (The output path is taken to be one that h5py can open.) *)
Theorem convert_writes_output (image_data : ndarray A)
    (metadata : metadata_t) (output_path : string) (create_pyramid : bool)
    (compression : string) (compression_level : nat) (d : FS.fs A) :
  2 <= ndim image_data <= 6 ->
  exists out T C Z Y X f,
    normalize_axes image_data = Ok out /\
    shape out = [T; C; Z; Y; X] /\
    fst (convert now (Some image_data) metadata output_path create_pyramid compression
           compression_level d) = <[output_path := FS.H5File f]> d /\
    (snd (convert now (Some image_data) metadata output_path create_pyramid compression
            compression_level d) = true ->
     size image_data <> 0 /\
     (exists step, thumbnail_step Y X = Ok step) /\
     exists levels thumbnail,
       f = univ_entries now compression compression_level metadata out levels
             thumbnail T C Z Y X).
Proof.
  intros Hrank. unfold convert.
  pose proof (normalize_axes_cases image_data) as Hcases.
  destruct (normalize_axes image_data) as [out|e]; [|lia].
  destruct Hcases as (_ & Hsame & T & C & Z & Y & X & Hshape).
  exists out, T, C, Z, Y, X. rewrite <- Hsame. unfold _write_univ.
  destruct (Nat.eq_dec (size out) 0) as [Hempty|Hsize].
  - pose proof (proj2 (Nat.eqb_eq _ _) Hempty) as Hb.
    rewrite (write_body_rank5 now _ _ _ _ _ T C Z Y X Hshape), Hb. cbn [fst snd].
    eexists. split; [done|]. split; [done|]. split; [reflexivity|]. discriminate.
  - destruct (write_body_eq now out metadata create_pyramid compression
                compression_level T C Z Y X Hshape Hsize) as (levels & _ & ->).
    pose proof (thumbnail_of_defined out T C Z Y X Hshape Hsize) as Hthumb.
    destruct (thumbnail_of out) as [thumbnail|e]; cbn [fst snd].
    + eexists. split; [done|]. split; [done|]. split; [reflexivity|].
      intros _. split; [done|]. split; [apply Hthumb; by eexists|].
      by exists levels, thumbnail.
    + eexists. split; [done|]. split; [done|]. split; [reflexivity|]. discriminate.
Qed.

End Conversion.

Lemma convert_refuses_without_writing_witness :
  convert sample_now (Some (mk_ndarray [7] (fun _ => 0))) sample_metadata "out.univ"
    true "gzip" 4 (∅ : FS.fs nat)
  = (∅, false).
Proof.
  apply (convert_refuses_without_writing sample_now
           (Some (mk_ndarray [7] (fun _ => 0))) sample_metadata "out.univ" true "gzip" 4 ∅).
  left. unfold ndim. simpl. lia.
Defined.

Lemma convert_writes_output_witness :
  exists out T C Z Y X f,
    normalize_axes (mk_ndarray [3; 600; 700] (fun _ => 0)) = Ok out /\
    shape out = [T; C; Z; Y; X] /\
    fst (convert sample_now (Some (mk_ndarray [3; 600; 700] (fun _ => 0)))
           sample_metadata "out.univ" true "gzip" 4 (∅ : FS.fs nat))
      = <["out.univ"%string := FS.H5File f]> ∅ /\
    (snd (convert sample_now (Some (mk_ndarray [3; 600; 700] (fun _ => 0)))
            sample_metadata "out.univ" true "gzip" 4 (∅ : FS.fs nat)) = true ->
     size (mk_ndarray [3; 600; 700] (fun _ => 0)) <> 0 /\
     (exists step, thumbnail_step Y X = Ok step) /\
     exists levels thumbnail,
       f = univ_entries sample_now "gzip" 4 sample_metadata out levels thumbnail T C Z Y X).
Proof.
  apply (convert_writes_output sample_now (mk_ndarray [3; 600; 700] (fun _ => 0))
           sample_metadata "out.univ" true "gzip" 4 ∅).
  unfold ndim. simpl. lia.
Defined.

(** * Further properties of the front end *)

Section Dispatch.

Import FormatConverterGUI.

Context {A : Type}.
Variable self : converters (A := A).
Variable st_size : FS.node A -> nat.

Local Open Scope nat_scope.

(** X17. What a reported success of [_convert_file] means: the output path
    exists and the size reported is at least 1024 bytes; for the target
    ome-zarr the output is a directory and the size is that of the files
    below it, for any other target it is the size of the output itself. *)
Theorem convert_file_reports_success (input_path output_path output_format : string)
    (d d' : FS.fs A) (output_size : nat) :
  _convert_file self st_size input_path output_path output_format d
    = (d', Ok output_size) ->
  1024 <= output_size /\
  exists node,
    d' !! output_path = Some node /\
    if String.eqb output_format "ome-zarr"
    then node = FS.Directory /\ output_size = tree_size st_size d' output_path
    else output_size = st_size node.
Proof.
  unfold _convert_file. intros Hrun.
  apply bind_ok_inv in Hrun as (d1 & [] & _ & Hval).
  unfold validate_output in Hval.
  destruct (d1 !! output_path) as [node|] eqn:Hnode; [|discriminate].
  destruct (String.eqb output_format "ome-zarr").
  - destruct node; try discriminate. cbn [rbind] in Hval.
    destruct (Nat.ltb_spec (tree_size st_size d1 output_path) 1024); [discriminate|].
    injection Hval as <- <-. split; [done|]. by exists FS.Directory.
  - cbn [rbind] in Hval.
    destruct (Nat.ltb_spec (st_size node) 1024); [discriminate|].
    injection Hval as <- <-. split; [done|]. by exists node.
Qed.

(** X18. A pair with no route, here a .univ input for a target other than
    ome-tiff and ome-zarr: the single conversion raises ValueError, the
    batch conversion does nothing and counts the file as converted. Neither
    touches the file system. *)
Theorem batch_counts_unrouted_as_success (input_path output_path output_format : string)
    (d : FS.fs A) :
  Path.suffix input_path = ".univ"%string ->
  output_format <> "ome-tiff"%string ->
  output_format <> "ome-zarr"%string ->
  dispatch_file self input_path output_path output_format d = (d, Raise ValueError) /\
  batch_dispatch self input_path output_path output_format d = (d, Ok tt) /\
  _convert_batch self [(input_path, output_path)] output_format 0 0 d = (d, (1, 0)).
Proof.
  intros Hsuffix Htiff Hzarr.
  apply String.eqb_neq in Htiff, Hzarr.
  assert (batch_dispatch self input_path output_path output_format d = (d, Ok tt)) as Hb.
  { unfold batch_dispatch, bind, gets. rewrite Hsuffix.
    cbn [String.eqb Ascii.eqb Bool.eqb]. by rewrite Htiff, Hzarr. }
  split; [|split; [done|]].
  - unfold dispatch_file, bind, gets. rewrite Hsuffix.
    cbn [String.eqb Ascii.eqb Bool.eqb]. by rewrite Htiff, Hzarr.
  - cbn [_convert_batch]. by rewrite Hb.
Qed.

(** X19. A name that contains ".ome" is taken for an OME-TIFF whatever
    its extension (other than .univ): an OME-Zarr store called
    image.ome.zarr is handed to the OME-TIFF reader when the target is
    univ, and is refused for the target ome-tiff, after the parent of the
    output has been created. *)
Theorem ome_in_name_routes_to_tiff (input_path output_path : string) (d : FS.fs A) :
  Path.suffix input_path <> ".univ"%string ->
  contains ".ome" (Path.name input_path) = true ->
  dispatch_file self input_path output_path "univ" d =
    (run mkdir_parent output_path ;
     _convert_ometiff_to_univ self input_path output_path) d /\
  dispatch_file self input_path output_path "ome-tiff" d =
    (run mkdir_parent output_path ; lift (Raise ValueError)) d.
Proof.
  intros Hsuffix Hname. apply String.eqb_neq in Hsuffix.
  unfold dispatch_file. unfold bind at 1 3, gets.
  rewrite Hsuffix, Hname, !orb_true_r. split; reflexivity.
Qed.

(** X20. A file that is no directory, whose name has no ".ome" and whose
    extension has an upper-case letter has no route: the single conversion
    raises ValueError and the batch conversion counts it as converted,
    with the file system untouched; yet [_is_supported_file], which
    compares the extension in lower case, accepts it for the queue
    whenever the lower-cased extension is a supported one. *)
Theorem upper_case_extension_unrouted (input_path output_path output_format : string)
    (d : FS.fs A) :
  Path.suffix input_path <> lower (Path.suffix input_path) ->
  contains ".ome" (Path.name input_path) = false ->
  FS.is_dir d input_path = false ->
  dispatch_file self input_path output_path output_format d = (d, Raise ValueError) /\
  batch_dispatch self input_path output_path output_format d = (d, Ok tt) /\
  (lower (Path.suffix input_path)
     ∈ [".univ"; ".vsi"; ".tif"; ".tiff"; ".zarr"]%string ->
   _is_supported_file input_path = true).
Proof.
  intros Hupper Hname Hdir.
  assert (forall ext : string, lower ext = ext ->
            String.eqb (Path.suffix input_path) ext = false) as Hne.
  { intros ext Hext. apply String.eqb_neq. intros E. apply Hupper.
    by rewrite E, Hext. }
  split; [|split].
  - unfold dispatch_file, bind, gets.
    rewrite !Hne, Hname, Hdir by reflexivity. reflexivity.
  - unfold batch_dispatch, bind, gets.
    rewrite !Hne, Hname, Hdir by reflexivity. reflexivity.
  - intros Hin. unfold _is_supported_file.
    assert (existsb (String.eqb (lower (Path.suffix input_path)))
              [".univ"; ".vsi"; ".tif"; ".tiff"; ".zarr"]%string = true) as ->; [|done].
    apply existsb_exists. exists (lower (Path.suffix input_path)).
    split; [by apply list_elem_of_In | apply String.eqb_refl].
Qed.

(** X21. After a two-hop conversion from OME-Zarr (to ome-tiff or to vsi)
    that returns normally, the intermediate container, which is the output
    path with its extension replaced by .temp.univ, does not exist. *)
Theorem two_hop_removes_intermediate (input_path output_path output_format : string)
    (d d' : FS.fs A) :
  Path.suffix input_path = ".zarr"%string ->
  contains ".ome" (Path.name input_path) = false ->
  output_format = "ome-tiff"%string \/ output_format = "vsi"%string ->
  dispatch_file self input_path output_path output_format d = (d', Ok tt) ->
  exists temp_univ,
    Path.with_suffix output_path ".temp.univ" = Ok temp_univ /\
    d' !! temp_univ = None.
Proof.
  intros Hsuffix Hname Hformat Hrun.
  unfold dispatch_file in Hrun. unfold bind at 1, gets in Hrun.
  rewrite Hsuffix, Hname in Hrun.
  cbn [String.eqb Ascii.eqb Bool.eqb orb] in Hrun.
  apply bind_ok_inv in Hrun as (d0 & [] & _ & Hrun).
  assert (exists first second : string -> io (FS.fs A) unit,
            (do temp_univ <- lift (Path.with_suffix output_path ".temp.univ") ;
             run first temp_univ ;
             run second temp_univ ;
             unlink_if_exists temp_univ) d0 = (d', Ok tt)) as (first & second & Hhops).
  { destruct Hformat as [-> | ->]; cbn [String.eqb Ascii.eqb Bool.eqb] in Hrun.
    - by exists (fun t => _convert_omezarr_to_univ self input_path t),
                (fun t => _convert_univ_to_ometiff self t output_path).
    - by exists (fun t => _convert_omezarr_to_univ self input_path t),
                (fun t => _convert_univ_to_vsi self t output_path). }
  apply bind_ok_inv in Hhops as (d0' & temp_univ & Htemp & Hhops).
  unfold lift in Htemp. injection Htemp as <- Htemp.
  apply bind_ok_inv in Hhops as (d1 & [] & _ & Hhops).
  apply bind_ok_inv in Hhops as (d2 & [] & _ & Hunlink).
  exists temp_univ. split; [done|].
  unfold unlink_if_exists, FS.exists_, FS.unlink in Hunlink.
  destruct (d2 !! temp_univ) eqn:E; injection Hunlink as <-; [apply lookup_delete_eq | done].
Qed.

End Dispatch.

Lemma convert_file_reports_success_witness :
  1024 <= 2048 /\
  exists node,
    fst (FormatConverterGUI._convert_file writing_converters file_size
           "in.univ" "out/res.ome.tif" "ome-tiff" ∅) !! "out/res.ome.tif"%string
      = Some node /\
    if String.eqb "ome-tiff" "ome-zarr"
    then node = FS.Directory /\
         2048 = FormatConverterGUI.tree_size file_size
                  (fst (FormatConverterGUI._convert_file writing_converters file_size
                          "in.univ" "out/res.ome.tif" "ome-tiff" ∅))
                  "out/res.ome.tif"
    else 2048 = file_size node.
Proof.
  apply (convert_file_reports_success writing_converters file_size
           "in.univ" "out/res.ome.tif" "ome-tiff" ∅).
  vm_compute. reflexivity.
Defined.

Lemma batch_counts_unrouted_as_success_witness :
  FormatConverterGUI.dispatch_file writing_converters "a.univ" "out/a.univ" "univ" ∅
    = (∅, Raise ValueError) /\
  FormatConverterGUI.batch_dispatch writing_converters "a.univ" "out/a.univ" "univ" ∅
    = (∅, Ok tt) /\
  FormatConverterGUI._convert_batch writing_converters
    [("a.univ"%string, "out/a.univ"%string)] "univ" 0 0 ∅ = (∅, (1, 0)).
Proof.
  apply (batch_counts_unrouted_as_success writing_converters
           "a.univ" "out/a.univ" "univ" ∅); [reflexivity | discriminate..].
Defined.

Lemma ome_in_name_routes_to_tiff_witness :
  FormatConverterGUI.dispatch_file writing_converters "image.ome.zarr" "out/image.univ"
    "univ" ∅ =
    (run FormatConverterGUI.mkdir_parent "out/image.univ" ;
     FormatConverterGUI._convert_ometiff_to_univ writing_converters
       "image.ome.zarr" "out/image.univ") ∅ /\
  FormatConverterGUI.dispatch_file writing_converters "image.ome.zarr" "out/image.univ"
    "ome-tiff" ∅ =
    (run FormatConverterGUI.mkdir_parent "out/image.univ" ; lift (Raise ValueError)) ∅.
Proof.
  apply (ome_in_name_routes_to_tiff writing_converters
           "image.ome.zarr" "out/image.univ" ∅).
  - intros H. vm_compute in H. discriminate H.
  - reflexivity.
Defined.

Lemma upper_case_extension_unrouted_witness :
  FormatConverterGUI.dispatch_file writing_converters "scan.VSI" "out/scan.univ" "univ" ∅
    = (∅, Raise ValueError) /\
  FormatConverterGUI.batch_dispatch writing_converters "scan.VSI" "out/scan.univ" "univ" ∅
    = (∅, Ok tt) /\
  (Py.lower (Path.suffix "scan.VSI")
     ∈ [".univ"; ".vsi"; ".tif"; ".tiff"; ".zarr"]%string ->
   FormatConverterGUI._is_supported_file "scan.VSI" = true).
Proof.
  apply (upper_case_extension_unrouted writing_converters
           "scan.VSI" "out/scan.univ" "univ" ∅).
  - intros H. vm_compute in H. discriminate H.
  - reflexivity.
  - reflexivity.
Defined.

Lemma two_hop_removes_intermediate_witness :
  exists temp_univ,
    Path.with_suffix "out/res.ome.tif" ".temp.univ" = Ok temp_univ /\
    fst (FormatConverterGUI.dispatch_file writing_converters
           "in.zarr" "out/res.ome.tif" "ome-tiff" ∅) !! temp_univ = None.
Proof.
  apply (two_hop_removes_intermediate writing_converters
           "in.zarr" "out/res.ome.tif" "ome-tiff" ∅).
  - reflexivity.
  - reflexivity.
  - by left.
  - vm_compute. reflexivity.
Defined.

(** ** The batch conversion *)

Section Batch.

Import FormatConverterGUI.

Context {A : Type}.
Variable self : converters (A := A).

Local Open Scope nat_scope.



(** *** Output names *)

Lemma string_length_append (s t : string) :
  String.length (String.append s t) = String.length s + String.length t.
Proof.
  induction s as [|a s IH]; [reflexivity|].
  rewrite append_cons. cbn [String.length]. by rewrite IH.
Qed.

Lemma append_inj_r (t s1 s2 : string) :
  String.append s1 t = String.append s2 t -> s1 = s2.
Proof.
  revert s2. induction s1 as [|a s1 IH]; intros s2 H.
  - destruct s2 as [|b s2]; [done|].
    apply (f_equal String.length) in H. rewrite !string_length_append in H.
    cbn [String.length] in H. lia.
  - destruct s2 as [|b s2].
    + apply (f_equal String.length) in H. rewrite !string_length_append in H.
      cbn [String.length] in H. lia.
    + rewrite !append_cons in H. injection H as -> H. f_equal. by apply IH.
Qed.

(** The numbered names of an output are different for different numbers. *)
Lemma numbered_name_inj (output_folder base_name ext : string) (j k : nat) :
  join output_folder
    (String.append base_name (String.append "_" (String.append (pretty j) ext))) =
  join output_folder
    (String.append base_name (String.append "_" (String.append (pretty k) ext))) ->
  j = k.
Proof.
  unfold join. intros H.
  apply (inj (String.append output_folder)) in H.
  apply (inj (String.append "/")) in H.
  apply (inj (String.append base_name)) in H.
  apply (inj (String.append "_")) in H.
  apply append_inj_r in H. by apply (inj pretty).
Qed.

(** Among more names than the file system has entries, one is free. *)
Lemma free_name_exists (d : FS.fs A) (name : nat -> string) (first : nat) :
  (forall j k, name j = name k -> j = k) ->
  exists k, k <= base.size d /\ d !! name (first + k) = None.
Proof.
  intros Hinj.
  destruct (decide (Forall (fun k => is_Some (d !! name k))
                      (seq first (S (base.size d))))) as [Hall|Hnot].
  - exfalso.
    assert (NoDup (name <$> seq first (S (base.size d)))) as Hnodup.
    { apply NoDup_fmap_2_strong; [|apply NoDup_seq]. intros j k _ _. apply Hinj. }
    assert ((list_to_set (name <$> seq first (S (base.size d))) : gset string)
            ⊆ dom d) as Hsub.
    { intros x Hx. apply elem_of_list_to_set, list_elem_of_fmap in Hx as (k & -> & Hk).
      apply elem_of_dom. by apply (proj1 (Forall_forall _ _) Hall). }
    apply subseteq_size in Hsub.
    rewrite size_list_to_set, length_fmap, length_seq, size_dom in Hsub by done. lia.
  - apply not_Forall_Exists in Hnot; [|apply _].
    apply Exists_exists in Hnot as (k & Hk & Hfree).
    apply elem_of_seq in Hk. exists (k - first). split; [lia|].
    replace (first + (k - first)) with k by lia.
    unfold compose in Hfree. destruct (d !! name k); [|done].
    exfalso. apply Hfree. by eexists.
Qed.

Lemma next_free_spec (d : FS.fs A) (output_folder base_name ext : string) (fuel : nat) :
  forall counter,
    (exists k, k < fuel /\
       FS.exists_ d (join output_folder
                       (String.append base_name
                          (String.append "_" (String.append (pretty (counter + k)) ext))))
       = false) ->
    exists k,
      next_free fuel d output_folder base_name ext counter =
        Ok (join output_folder
              (String.append base_name
                 (String.append "_" (String.append (pretty (counter + k)) ext)))) /\
      FS.exists_ d (join output_folder
                      (String.append base_name
                         (String.append "_" (String.append (pretty (counter + k)) ext))))
        = false /\
      forall j, j < k ->
        FS.exists_ d (join output_folder
                        (String.append base_name
                           (String.append "_" (String.append (pretty (counter + j)) ext))))
        = true.
Proof.
  induction fuel as [|fuel IH]; intros counter (k & Hk & Hfree); [lia|].
  cbn [next_free].
  destruct (FS.exists_ d (join output_folder
              (String.append base_name
                 (String.append "_" (String.append (pretty counter) ext))))) eqn:Hhere.
  - destruct k as [|k]; [rewrite Nat.add_0_r in Hfree; congruence|].
    destruct (IH (S counter)) as (k' & Hrun & Hfree' & Hbelow).
    { exists k. split; [lia|]. by replace (S counter + k) with (counter + S k) by lia. }
    exists (S k'). replace (counter + S k') with (S counter + k') by lia.
    split; [done|]. split; [done|].
    intros [|j] Hj; [by rewrite Nat.add_0_r|].
    replace (counter + S j) with (S counter + j) by lia. apply Hbelow. lia.
  - exists 0. rewrite Nat.add_0_r. split; [done|]. split; [done|]. intros j Hj. lia.
Qed.

(** X23. Outside the single-file mode with a custom name, the naming block
    of the batch conversion always finds a name, and one that does not
    exist: the input's stem followed by _converted and the extension of
    the target when that is free, and otherwise the first free one among
    the names numbered _1, _2, ... *)
Theorem batch_output_path_fresh (d : FS.fs A) (output_folder : string)
    (custom_output_name : option string) (total_files : nat)
    (input_path output_format : string) :
  total_files <> 1 \/ custom_output_name = None \/ custom_output_name = Some ""%string ->
  exists output_path,
    batch_output_path d output_folder custom_output_name total_files input_path
      output_format = Ok output_path /\
    d !! output_path = None /\
    let base_name := String.append (Path.stem input_path) "_converted" in
    let ext := output_extension output_format in
    let numbered k :=
      join output_folder
        (String.append base_name (String.append "_" (String.append (pretty k) ext))) in
    match d !! join output_folder (String.append base_name ext) with
    | None => output_path = join output_folder (String.append base_name ext)
    | Some _ =>
        exists k, 1 <= k /\ output_path = numbered k /\
                  forall j, 1 <= j < k -> is_Some (d !! numbered j)
    end.
Proof.
  intros Hmode.
  assert (batch_output_path d output_folder custom_output_name total_files input_path
            output_format =
          let ext := output_extension output_format in
          let base_name := String.append (Path.stem input_path) "_converted" in
          if FS.exists_ d (join output_folder (String.append base_name ext))
          then next_free (S (base.size d)) d output_folder base_name ext 1
          else Ok (join output_folder (String.append base_name ext))) as ->.
  { unfold batch_output_path.
    destruct Hmode as [Htotal|[-> | ->]]; [|reflexivity|by destruct (total_files =? 1)].
    apply Nat.eqb_neq in Htotal. rewrite Htotal.
    by destruct custom_output_name as [[|c n]|]. }
  cbv zeta. unfold FS.exists_ at 1.
  destruct (d !! join output_folder
              (String.append (String.append (Path.stem input_path) "_converted")
                 (output_extension output_format))) as [node|] eqn:Hplain.
  - destruct (free_name_exists d
                (fun k => join output_folder
                   (String.append (String.append (Path.stem input_path) "_converted")
                      (String.append "_"
                         (String.append (pretty k) (output_extension output_format)))))
                1) as (k0 & Hk0 & Hfree0).
    { intros j k. apply numbered_name_inj. }
    destruct (next_free_spec d output_folder
                (String.append (Path.stem input_path) "_converted")
                (output_extension output_format) (S (base.size d)) 1)
      as (k & -> & Hfree & Hbelow).
    { exists k0. split; [lia|]. unfold FS.exists_. cbv beta in Hfree0. by rewrite Hfree0. }
    eexists. split; [reflexivity|].
    assert (forall p : string, FS.exists_ d p = false -> d !! p = None) as Hnone.
    { intros p. unfold FS.exists_. by destruct (d !! p). }
    assert (forall p : string, FS.exists_ d p = true -> is_Some (d !! p)) as Hsome.
    { intros p. unfold FS.exists_. destruct (d !! p); [by eexists | done]. }
    split; [by apply Hnone|].
    exists (1 + k). split; [lia|]. split; [done|].
    intros j Hj. apply Hsome.
    replace j with (1 + (j - 1)) by lia. apply Hbelow. lia.
  - eexists. split; [reflexivity|]. by split.
Qed.

End Batch.

(** ** The file queue *)

Section Queue.

Import FormatConverterGUI.

Lemma existsb_eqb_elem_of (x : string) (l : list string) :
  existsb (String.eqb x) l = true <-> x ∈ l.
Proof.
  rewrite existsb_exists. split.
  - intros (y & Hy & E). apply String.eqb_eq in E as ->. by apply list_elem_of_In.
  - intros Hx. exists x. split; [by apply list_elem_of_In | apply String.eqb_refl].
Qed.

Lemma add_files_spec (filenames : list string) :
  forall (file_queue : list string) (added_count : nat),
    exists new,
      add_files filenames file_queue added_count
        = (file_queue ++ new, added_count + length new) /\
      (NoDup file_queue -> NoDup (file_queue ++ new)) /\
      forall x, x ∈ new <-> x ∈ filenames /\ x ∉ file_queue.
Proof.
  induction filenames as [|filename rest IH]; intros file_queue added_count.
  - exists []. rewrite app_nil_r, Nat.add_0_r. split; [done|]. split; [done|].
    intros x. split; [by intros ?%elem_of_nil | by intros [?%elem_of_nil _]].
  - cbn [add_files].
    destruct (existsb (String.eqb filename) file_queue) eqn:Hin.
    + apply existsb_eqb_elem_of in Hin.
      destruct (IH file_queue added_count) as (new & -> & Hnodup & Hnew).
      exists new. split; [done|]. split; [done|].
      intros x. rewrite Hnew, elem_of_cons. split; [tauto|].
      intros [[->|Hx] Hq]; [done | tauto].
    + assert (filename ∉ file_queue) as Hnotin.
      { intros Hx. apply existsb_eqb_elem_of in Hx. congruence. }
      destruct (IH (file_queue ++ [filename]) (S added_count))
        as (new & -> & Hnodup & Hnew).
      exists (filename :: new). split; [|split].
      * rewrite <- app_assoc. cbn [app length]. f_equal. lia.
      * intros Hq. rewrite (app_assoc file_queue [filename] new : 
                              file_queue ++ filename :: new = (file_queue ++ [filename]) ++ new).
        apply Hnodup. apply NoDup_app. split; [done|]. split.
        -- intros x Hx Hx'. apply list_elem_of_singleton in Hx'. by subst.
        -- apply NoDup_singleton.
      * intros x. rewrite elem_of_cons, Hnew, elem_of_cons, elem_of_app,
          list_elem_of_singleton.
        destruct (decide (x = filename)) as [->|Hne]; tauto.
Qed.

Lemma new_names_cons (file_queue : list string) (filename : string)
    (rest : list string) :
  new_names file_queue (filename :: rest) =
  if decide (filename ∈ file_queue) then new_names file_queue rest
  else filename :: new_names (file_queue ++ [filename]) rest.
Proof.
  unfold new_names. rewrite imap_cons. cbn [take].
  destruct (decide (filename ∈ file_queue)) as [Hin|Hnotin].
  - rewrite (decide_True (P := filename ∈ file_queue \/ filename ∈ [])) by by left.
    cbn [omap list_omap id]. f_equal. apply imap_ext. intros i x _. unfold compose.
    cbn [take]. apply decide_ext. rewrite elem_of_cons.
    split; [intros [?|[->|?]]; tauto | tauto].
  - rewrite (decide_False (P := filename ∈ file_queue \/ filename ∈ [])).
    2: { intros [?|Hnil]; [done | by apply elem_of_nil in Hnil]. }
    cbn [omap list_omap id]. f_equal. f_equal. apply imap_ext. intros i x _.
    unfold compose. cbn [take]. apply decide_ext.
    rewrite elem_of_cons, elem_of_app, list_elem_of_singleton. tauto.
Qed.

Lemma add_files_new_names (filenames : list string) :
  forall (file_queue : list string) (added_count : nat),
    add_files filenames file_queue added_count =
    (file_queue ++ new_names file_queue filenames,
     added_count + length (new_names file_queue filenames)).
Proof.
  induction filenames as [|filename rest IH]; intros file_queue added_count.
  - cbn. by rewrite app_nil_r, Nat.add_0_r.
  - cbn [add_files]. rewrite new_names_cons.
    destruct (existsb (String.eqb filename) file_queue) eqn:Hin.
    + apply existsb_eqb_elem_of in Hin. rewrite decide_True by done. apply IH.
    + assert (filename ∉ file_queue) as Hnotin.
      { intros Hx. apply existsb_eqb_elem_of in Hx. congruence. }
      rewrite decide_False by done. rewrite IH, <- app_assoc. cbn [app length].
      f_equal. lia.
Qed.

(** X24. Adding files to the queue appends to it, in the order in which
    they are given, the names that it does not hold yet, each once, at the
    place of its first occurrence; the queue as it was stays in front, a
    queue without repetition stays without repetition, and the count
    reported is the number of names appended. *)
Theorem browse_files_appends_new (filenames file_queue : list string) :
  _browse_files filenames file_queue =
    (file_queue ++ new_names file_queue filenames,
     length (new_names file_queue filenames)) /\
  (NoDup file_queue -> NoDup (file_queue ++ new_names file_queue filenames)) /\
  (forall x, x ∈ new_names file_queue filenames <-> x ∈ filenames /\ x ∉ file_queue).
Proof.
  unfold _browse_files.
  destruct (add_files_spec filenames file_queue 0) as (new & Hrun & Hnodup & Hnew).
  rewrite add_files_new_names in Hrun. injection Hrun as Hrun _.
  apply app_inv_head in Hrun. subst new.
  split; [apply add_files_new_names | by split].
Qed.

End Queue.

Lemma batch_output_path_fresh_witness :
  exists output_path,
    FormatConverterGUI.batch_output_path
      (<["out/s_converted.univ"%string := FS.OtherFile 2048]> (∅ : FS.fs nat))
      "out" None 2 "a/s.vsi" "univ" = Ok output_path /\
    (<["out/s_converted.univ"%string := FS.OtherFile 2048]> (∅ : FS.fs nat))
      !! output_path = None /\
    let base_name := String.append (Path.stem "a/s.vsi") "_converted" in
    let ext := FormatConverterGUI.output_extension "univ" in
    let numbered k :=
      FormatConverterGUI.join "out"
        (String.append base_name (String.append "_" (String.append (pretty k) ext))) in
    match (<["out/s_converted.univ"%string := FS.OtherFile 2048]> (∅ : FS.fs nat))
            !! FormatConverterGUI.join "out" (String.append base_name ext) with
    | None => output_path = FormatConverterGUI.join "out" (String.append base_name ext)
    | Some _ =>
        exists k, 1 <= k /\ output_path = numbered k /\
                  forall j, 1 <= j < k ->
                    is_Some ((<["out/s_converted.univ"%string := FS.OtherFile 2048]>
                                (∅ : FS.fs nat)) !! numbered j)
    end.
Proof.
  apply (batch_output_path_fresh
           (<["out/s_converted.univ"%string := FS.OtherFile 2048]> (∅ : FS.fs nat))
           "out" None 2 "a/s.vsi" "univ").
  left. lia.
Defined.

(** ** The array written to OME-TIFF and OME-Zarr *)

Section Written.

Import FormatConverterGUI.

Context {A : Type}.

Local Open Scope nat_scope.

Lemma prod_repeat_1 (k : nat) (shp : list nat) : prod (repeat 1 k ++ shp) = prod shp.
Proof.
  induction k as [|k IH]; [reflexivity|].
  cbn [repeat app]. rewrite prod_cons, IH. lia.
Qed.

(** With enough fuel the loop ends, having dropped leading axes of
    extent 1 as long as more than two axes were left. *)
Lemma squeeze_loop_spec (fuel : nat) :
  forall image_data : ndarray A,
    ndim image_data < fuel ->
    exists k out,
      squeeze_loop fuel image_data = Ok out /\
      shape image_data = repeat 1 k ++ shape out /\
      (forall idx, item out idx = item image_data (repeat 0 k ++ idx)) /\
      (ndim out <= 2 \/ hd 0 (shape out) <> 1) /\
      (k = 0 \/ 2 <= ndim out).
Proof.
  induction fuel as [|fuel IH]; intros image_data Hfuel; [lia|].
  cbn [squeeze_loop].
  destruct ((2 <? ndim image_data)
            && match shape image_data with n :: _ => n =? 1 | [] => false end) eqn:Hcond.
  - apply andb_true_iff in Hcond as [Hrank Hfirst].
    apply Nat.ltb_lt in Hrank.
    destruct (shape image_data) as [|n rest] eqn:Hshape; [discriminate|].
    apply Nat.eqb_eq in Hfirst as ->.
    unfold getitem. rewrite Hshape. cbn [index_shape Nat.ltb Nat.leb rbind].
    destruct (IH (mk_ndarray rest (fun out => item image_data (index_source [At 0] out))))
      as (k & out & -> & Hout & Hitem & Hstop & Hleast).
    { unfold ndim in *. rewrite Hshape in Hfuel. cbn [shape length] in *. lia. }
    exists (S k), out. split; [done|]. cbn [shape] in Hout. split.
    + cbn [repeat app]. by rewrite <- Hout.
    + split; [|split; [done|]].
      * intros idx. by rewrite Hitem.
      * right. destruct Hleast as [->|Hleast]; [|done].
        cbn [repeat app] in Hout. unfold ndim in *. rewrite Hshape in Hrank.
        rewrite <- Hout. cbn [length] in Hrank. lia.
  - exists 0, image_data. split; [done|]. split; [done|]. split; [done|].
    split; [|by left].
    apply andb_false_iff in Hcond as [Hrank|Hfirst].
    + left. apply Nat.ltb_ge in Hrank. done.
    + destruct (shape image_data) as [|n rest] eqn:Hshape.
      * left. unfold ndim. rewrite Hshape. cbn [length]. lia.
      * right. apply Nat.eqb_neq in Hfirst. done.
Qed.

(** X25. The array handed to the TIFF writer, for data that is not empty:
    6-D data is first folded as [convert] folds it; then leading axes of
    extent 1 are dropped, with the elements where they were, as long as
    the array has more than two axes: the result has two axes or fewer, or
    a leading axis that is not of extent 1, and where an axis was dropped
    it still has two axes at least. The number of elements is unchanged. *)
Theorem tiff_data_squeezes (image_data : ndarray A) :
  size image_data <> 0 ->
  exists folded k out,
    (if ndim image_data =? 6 then normalize_axes image_data = Ok folded
     else folded = image_data) /\
    tiff_data image_data = Ok out /\
    shape folded = repeat 1 k ++ shape out /\
    (forall idx, item out idx = item folded (repeat 0 k ++ idx)) /\
    (ndim out <= 2 \/ hd 0 (shape out) <> 1) /\
    (k = 0 \/ 2 <= ndim out) /\
    size out = size image_data.
Proof.
  intros Hsize. unfold tiff_data.
  destruct (Nat.eqb_spec (size image_data) 0) as [|_]; [done|].
  assert (exists folded,
            (if ndim image_data =? 6 then normalize_axes image_data = Ok folded
             else folded = image_data) /\
            (if ndim image_data =? 6 then
               match shape image_data with
               | [t; c; z; y; x; s] =>
                   let* moved := transpose [0; 1; 5; 2; 3; 4] image_data in
                   reshape [t; c * s; z; y; x] moved
               | _ => Raise ValueError
               end
             else Ok image_data) = Ok folded /\
            size folded = size image_data) as (folded & Hfold & -> & Hsame).
  { destruct (Nat.eqb_spec (ndim image_data) 6) as [Hrank|_]; [|by exists image_data].
    pose proof (normalize_axes_cases image_data) as Hcases.
    unfold normalize_axes in *. rewrite Hrank in *.
    destruct (match shape image_data with
              | [t; c; z; y; x; s] =>
                  let* moved := transpose [0; 1; 5; 2; 3; 4] image_data in
                  reshape [t; c * s; z; y; x] moved
              | _ => Raise ValueError
              end) as [folded|e]; [|lia].
    exists folded. by destruct Hcases as (_ & Hs & _). }
  cbn [rbind].
  destruct (squeeze_loop_spec (S (ndim folded)) folded)
    as (k & out & -> & Hshape & Hitem & Hstop & Hleast); [lia|].
  cbn [rbind].
  assert (size out = size image_data) as Hout.
  { rewrite <- Hsame. unfold size. by rewrite Hshape, prod_repeat_1. }
  rewrite Hout. destruct (Nat.eqb_spec (size image_data) 0) as [|_]; [done|].
  by exists folded, k, out.
Qed.

(** X26. A multi-channel stack at one time point, of shape
    (1, C, Z, Y, X) with C other than 1, is written as the (C, Z, Y, X)
    array of its elements and labelled with the axes "ZCYX": the axis
    called Z in the file is the channel axis of the data, and the axis
    called C is its Z axis. *)
Theorem tiff_axes_of_multichannel_stack (image_data : ndarray A) (C Z Y X : nat) :
  shape image_data = [1; C; Z; Y; X] ->
  C <> 1 ->
  size image_data <> 0 ->
  exists out,
    tiff_data image_data = Ok out /\
    shape out = [C; Z; Y; X] /\
    (forall c z y x, item out [c; z; y; x] = item image_data [0; c; z; y; x]) /\
    tiff_layout (shape out) = ("minisblack"%string, Some "ZCYX"%string).
Proof.
  intros Hshape HC Hsize. unfold tiff_data.
  destruct (Nat.eqb_spec (size image_data) 0) as [|_]; [done|].
  unfold ndim at 1. rewrite Hshape. cbn [length Nat.eqb rbind].
  unfold ndim. rewrite Hshape. cbn [length squeeze_loop].
  unfold ndim. rewrite Hshape. cbn [length Nat.ltb Nat.leb Nat.eqb andb].
  unfold getitem. rewrite Hshape. cbn [index_shape Nat.ltb Nat.leb rbind shape length].
  apply Nat.eqb_neq in HC. rewrite HC. cbn [andb rbind].
  assert (size (mk_ndarray [C; Z; Y; X]
                  (fun out => item image_data (index_source [At 0] out)))
          = size image_data) as ->.
  { unfold size. rewrite Hshape. cbn [shape]. rewrite !prod_cons. lia. }
  destruct (Nat.eqb_spec (size image_data) 0) as [|_]; [done|].
  eexists. split; [reflexivity|]. cbn [shape item]. repeat split.
Qed.

Lemma set_from_end_app (pre l : list nat) (k v : nat) :
  1 <= k <= length l ->
  set_from_end (pre ++ l) k v = pre ++ set_from_end l k v.
Proof.
  intros Hk. unfold set_from_end. rewrite length_app.
  replace (length pre + length l - k) with (length pre + (length l - k)) by lia.
  apply insert_app_r.
Qed.

Lemma nth_from_end_app (pre l : list nat) (k : nat) :
  1 <= k <= length l ->
  nth (length (pre ++ l) - k) (pre ++ l) 0 = nth (length l - k) l 0.
Proof.
  intros Hk. rewrite length_app, app_nth2 by lia. f_equal. lia.
Qed.

(** X27. The chunk shape asked of zarr: 1024 at most along the last two
    axes, 1 along the three axes before them, and the whole extent along
    any axis further in front. For the six axes (T, C, Z, Y, X, S) of RGB
    data this is (T, 1, 1, 1, min(1024, X), min(1024, S)): one image row
    per chunk. *)
Theorem zarr_chunk_shape_spec :
  (forall (pre : list nat) (a b c Y X : nat),
     zarr_chunk_shape (pre ++ [a; b; c; Y; X]) =
     pre ++ [1; 1; 1; Nat.min 1024 Y; Nat.min 1024 X]) /\
  (forall b c Y X : nat,
     zarr_chunk_shape [b; c; Y; X] = [1; 1; Nat.min 1024 Y; Nat.min 1024 X]) /\
  (forall c Y X : nat,
     zarr_chunk_shape [c; Y; X] = [1; Nat.min 1024 Y; Nat.min 1024 X]) /\
  (forall Y X : nat, zarr_chunk_shape [Y; X] = [Nat.min 1024 Y; Nat.min 1024 X]) /\
  (forall X : nat, zarr_chunk_shape [X] = [X]).
Proof.
  split; [|repeat split].
  intros pre a b c Y X. unfold zarr_chunk_shape. cbv zeta.
  assert (forall l k, length l = 5 -> k <= 5 -> (k <=? length (pre ++ l)) = true) as Hlen.
  { intros l k Hl Hk. apply Nat.leb_le. rewrite length_app. lia. }
  rewrite (Hlen [a; b; c; Y; X]) by (cbn; lia).
  rewrite (nth_from_end_app pre [a; b; c; Y; X] 1) by (cbn; lia).
  rewrite (set_from_end_app pre [a; b; c; Y; X] 1) by (cbn; lia).
  change (set_from_end [a; b; c; Y; X] 1 (Nat.min 1024 (nth (length [a; b; c; Y; X] - 1)
                                                       [a; b; c; Y; X] 0)))
    with [a; b; c; Y; Nat.min 1024 X].
  rewrite (nth_from_end_app pre [a; b; c; Y; Nat.min 1024 X] 2) by (cbn; lia).
  rewrite (set_from_end_app pre [a; b; c; Y; Nat.min 1024 X] 2) by (cbn; lia).
  change (set_from_end [a; b; c; Y; Nat.min 1024 X] 2
            (Nat.min 1024 (nth (length [a; b; c; Y; Nat.min 1024 X] - 2)
                             [a; b; c; Y; Nat.min 1024 X] 0)))
    with [a; b; c; Nat.min 1024 Y; Nat.min 1024 X].
  rewrite (Hlen [a; b; c; Nat.min 1024 Y; Nat.min 1024 X]) by (cbn; lia).
  rewrite (set_from_end_app pre _ 3) by (cbn; lia).
  change (set_from_end [a; b; c; Nat.min 1024 Y; Nat.min 1024 X] 3 1)
    with [a; b; 1; Nat.min 1024 Y; Nat.min 1024 X].
  rewrite (Hlen [a; b; 1; Nat.min 1024 Y; Nat.min 1024 X]) by (cbn; lia).
  rewrite (set_from_end_app pre _ 4) by (cbn; lia).
  change (set_from_end [a; b; 1; Nat.min 1024 Y; Nat.min 1024 X] 4 1)
    with [a; 1; 1; Nat.min 1024 Y; Nat.min 1024 X].
  rewrite (Hlen [a; 1; 1; Nat.min 1024 Y; Nat.min 1024 X]) by (cbn; lia).
  rewrite (set_from_end_app pre _ 5) by (cbn; lia).
  reflexivity.
Qed.

(** X28. The dimension names written beside the array are the last
    names of t, c, z, y, x, as many as the array has axes; they are as many
    as the axes exactly for ranks 1 to 5. An array of six axes, and one of
    none, gets all five names. *)
Theorem array_dimensions_match_rank (rank : nat) :
  (length (array_dimensions rank) = rank <-> 1 <= rank <= 5) /\
  (1 <= rank <= 5 ->
   array_dimensions rank = drop (5 - rank) ["t"; "c"; "z"; "y"; "x"]%string) /\
  (rank = 0 \/ 5 <= rank ->
   array_dimensions rank = ["t"; "c"; "z"; "y"; "x"]%string).
Proof.
  unfold array_dimensions.
  destruct rank as [|[|[|[|[|[|rank]]]]]]; cbn;
    (split; [lia|]); (split; [intros H; (reflexivity || lia)|]);
    intros [H|H]; (reflexivity || lia || discriminate H).
Qed.

End Written.

Lemma tiff_data_squeezes_witness :
  exists folded k out,
    (if ndim (mk_ndarray [1; 1; 1; 1; 6] (ravel [1; 1; 1; 1; 6])) =? 6
     then normalize_axes (mk_ndarray [1; 1; 1; 1; 6] (ravel [1; 1; 1; 1; 6])) = Ok folded
     else folded = mk_ndarray [1; 1; 1; 1; 6] (ravel [1; 1; 1; 1; 6])) /\
    FormatConverterGUI.tiff_data (mk_ndarray [1; 1; 1; 1; 6] (ravel [1; 1; 1; 1; 6]))
      = Ok out /\
    shape folded = repeat 1 k ++ shape out /\
    (forall idx, item out idx = item folded (repeat 0 k ++ idx)) /\
    (ndim out <= 2 \/ hd 0 (shape out) <> 1) /\
    (k = 0 \/ 2 <= ndim out) /\
    size out = size (mk_ndarray [1; 1; 1; 1; 6] (ravel [1; 1; 1; 1; 6])).
Proof.
  apply (tiff_data_squeezes (mk_ndarray [1; 1; 1; 1; 6] (ravel [1; 1; 1; 1; 6]))).
  intros H. vm_compute in H. discriminate H.
Defined.

Lemma tiff_axes_of_multichannel_stack_witness :
  exists out,
    FormatConverterGUI.tiff_data (mk_ndarray [1; 4; 5; 4; 6] (ravel [1; 4; 5; 4; 6]))
      = Ok out /\
    shape out = [4; 5; 4; 6] /\
    (forall c z y x,
       item out [c; z; y; x] = ravel [1; 4; 5; 4; 6] [0; c; z; y; x]) /\
    FormatConverterGUI.tiff_layout (shape out) = ("minisblack"%string, Some "ZCYX"%string).
Proof.
  apply (tiff_axes_of_multichannel_stack
           (mk_ndarray [1; 4; 5; 4; 6] (ravel [1; 4; 5; 4; 6])) 4 5 4 6).
  - reflexivity.
  - lia.
  - intros H. vm_compute in H. discriminate H.
Defined.

Lemma thumbnail_of_spec_witness :
  exists thumbnail,
    thumbnail_of (mk_ndarray [1; 3; 1; 513; 1025] (fun _ => 0)) = Ok thumbnail /\
    exists k,
      0 < k /\
      (thumbnail_step 513 1025 = Ok (Some k) \/
       (thumbnail_step 513 1025 = Ok None /\ k = 1)) /\
      shape thumbnail = [3; strided 513 k; strided 1025 k] /\
      forall c y x,
        item thumbnail [c; y; x] =
        item (mk_ndarray [1; 3; 1; 513; 1025] (fun _ => 0)) [0; c; 0; k * y; k * x].
Proof.
  eexists. split; [vm_compute; reflexivity|].
  apply (thumbnail_of_spec (mk_ndarray [1; 3; 1; 513; 1025] (fun _ => 0)) _ 1 3 1 513 1025);
    [reflexivity | vm_compute; reflexivity].
Defined.

(** ** A scene chosen by its number *)

Section SceneByIndex.

Import FormatConverterGUI.

Lemma elem_of_insert_desc {T} (key : T -> N) (x y : T) (l : list T) :
  y ∈ insert_desc key x l <-> y = x \/ y ∈ l.
Proof.
  induction l as [|z l IH]; cbn [insert_desc].
  - rewrite list_elem_of_singleton. split; [by left | intros [H|H]; [done|]].
    by apply elem_of_nil in H.
  - destruct (key x <? key z)%N; rewrite !elem_of_cons, ?IH; tauto.
Qed.

Lemma elem_of_sort_desc {T} (key : T -> N) (y : T) (l : list T) :
  y ∈ sort_desc key l <-> y ∈ l.
Proof.
  induction l as [|x l IH]; [done|].
  change (sort_desc key (x :: l)) with (insert_desc key x (sort_desc key l)).
  by rewrite elem_of_insert_desc, IH, elem_of_cons.
Qed.

(** X30. A scene chosen by its number is the scene that is set, whatever
    its kind, whenever the image has a scene of that number; a number
    past the last scene gives the automatic choice, the largest main
    scene. *)
Theorem select_vsi_scene_by_index_honoured (img_scenes : list (string * list N))
    (target_scene_idx : nat) :
  2 <= length img_scenes ->
  Forall (fun s => 2 <= length (snd s)) img_scenes ->
  _select_vsi_scene_by_index img_scenes target_scene_idx =
  if target_scene_idx <? length img_scenes then Ok (Some target_scene_idx)
  else _select_vsi_scene img_scenes.
Proof.
  intros Hlen Hshapes. unfold _select_vsi_scene_by_index, _select_vsi_scene.
  destruct (Nat.leb_spec (length img_scenes) 1) as [?|_]; [lia|].
  rewrite (scene_sizes_from_spec _ 0 Hshapes). cbn [rbind].
  set (scene_sizes := map scene_triple
         (imap (fun j s => scene_data (0 + j) (fst s) (snd s)) img_scenes)).
  set (main_scenes :=
         match List.filter (fun t => negb (contains "label" (lower (snd (fst t))))
                                     && negb (contains "macro" (lower (snd (fst t)))))
                 scene_sizes with
         | [] => scene_sizes
         | _ :: _ =>
             List.filter (fun t => negb (contains "label" (lower (snd (fst t))))
                                   && negb (contains "macro" (lower (snd (fst t)))))
               scene_sizes
         end).
  assert (forall t, t ∈ sort_desc snd main_scenes -> fst (fst t) < length img_scenes)
    as Hidx.
  { intros t Ht. apply elem_of_sort_desc in Ht.
    assert (t ∈ scene_sizes) as Hin.
    { subst main_scenes.
      destruct (List.filter _ scene_sizes) eqn:E; [done|]. rewrite <- E in Ht.
      apply list_elem_of_In, filter_In in Ht as [Ht _]. by apply list_elem_of_In. }
    subst scene_sizes. apply list_elem_of_fmap in Hin as (sc & -> & Hsc).
    apply elem_of_lookup_imap_1 in Hsc as (j & s & -> & Hj).
    apply lookup_lt_Some in Hj. done. }
  destruct (List.find (fun t => fst (fst t) =? target_scene_idx)
              (sort_desc snd main_scenes)) as [[[scene_idx nm] sz]|] eqn:Hfind.
  - apply find_some in Hfind as [Hin Heq]. apply Nat.eqb_eq in Heq. cbn in Heq.
    subst scene_idx. apply list_elem_of_In, Hidx in Hin. cbn in Hin.
    by destruct (Nat.ltb_spec target_scene_idx (length img_scenes)); [|lia].
  - reflexivity.
Qed.

End SceneByIndex.

Lemma select_vsi_scene_by_index_honoured_witness :
  FormatConverterGUI._select_vsi_scene_by_index
    [("Label_1"%string, [100; 100]%N); ("20x_BF_01"%string, [30000; 40000]%N);
     ("Overview"%string, [1500; 2000]%N)] 0 =
  if 0 <? length [("Label_1"%string, [100; 100]%N);
                  ("20x_BF_01"%string, [30000; 40000]%N);
                  ("Overview"%string, [1500; 2000]%N)]
  then Ok (Some 0)
  else FormatConverterGUI._select_vsi_scene
         [("Label_1"%string, [100; 100]%N); ("20x_BF_01"%string, [30000; 40000]%N);
          ("Overview"%string, [1500; 2000]%N)].
Proof.
  apply (select_vsi_scene_by_index_honoured
           [("Label_1"%string, [100; 100]%N); ("20x_BF_01"%string, [30000; 40000]%N);
            ("Overview"%string, [1500; 2000]%N)] 0).
  - simpl. lia.
  - repeat constructor.
Defined.
